(** * Atlas photogrammetry service: job orchestration core

    A shallow embedding of the job-orchestration code of the Atlas API
    ([api/main.py], [worker/tasks.py], [worker/pipeline/export.py]) and the
    properties of its status store, submission path, pipeline executor,
    artifact fetch and deletion.

    The file system is modelled by three path-indexed stores (status files,
    workspace directories, artifact files); Python dictionaries by [gmap];
    code that raises by a state-and-exception monad over the [world]. *)

From Stdlib Require Import ZArith String Ascii List DecimalString Lia Sorted.
From stdpp Require Import base gmap strings list option.

Set Warnings "-register-all".
Local Open Scope Z_scope.

(** ** Python values *)

(** Values that travel through [json.load] / [json.dump]. Two derived forms
    are kept symbolic: [JTime t] is the string [datetime.isoformat()] of the
    instant [t]; [JMB n] is the float [round(n / (1024 * 1024), 2)]. *)
Inductive json : Type :=
  | JNull
  | JBool (b : bool)
  | JInt (n : Z)
  | JFloat (lit : string)
  | JStr (s : string)
  | JTime (t : Z)
  | JMB (bytes : Z)
  | JList (xs : list json)
  | JObj (kvs : list (string * json)).

(** A Python [dict] with string keys. *)
Abbreviation dict := (gmap string json).

(** [d.update(upd)]: the pairs of [upd] are stored in order, later ones win. *)
Definition dict_update (d : dict) (upd : list (string * json)) : dict :=
  foldl (fun acc kv => <[kv.1 := kv.2]> acc) d upd.

(** Truthiness of a dict: [not d] holds for the empty dict. *)
Definition dict_truthy (d : dict) : bool :=
  match map_to_list d with [] => false | _ :: _ => true end.

(** [v == s] for a looked-up value [v] and a string literal [s]. *)
Definition json_eq_str (v : option json) (s : string) : bool :=
  match v with
  | Some (JStr s') => String.eqb s' s
  | _ => false
  end.

(** [o.get(k)] on a parsed JSON object (the last duplicate key wins when
    [json.loads] builds the dict); [None] when [o] is not a dict, where
    Python raises [AttributeError]. *)
Fixpoint assoc_last (k : string) (kvs : list (string * json)) : option json :=
  match kvs with
  | [] => None
  | (k', v) :: rest =>
      match assoc_last k rest with
      | Some v' => Some v'
      | None => if String.eqb k' k then Some v else None
      end
  end.

(** ** Paths and strings *)

(** [posixpath.join] of two components. *)
Definition path_join (a b : string) : string :=
  if String.prefix "/" b then b
  else if String.eqb a "" then b
  else if String.eqb (substring (String.length a - 1) 1 a) "/" then a +:+ b
  else a +:+ "/" +:+ b.

(** [os.path.join(a, *ps)]. *)
Definition os_path_join (a : string) (ps : list string) : string :=
  foldl path_join a ps.

(** [s.replace(old, new)] for a non-empty [old]: occurrences are replaced
    left to right without overlap. [skip] counts the characters of the
    occurrence just replaced that are still to be dropped. *)
Fixpoint replace_from (old new : string) (skip : nat) (s : string) : string :=
  match s with
  | EmptyString => EmptyString
  | String c s' =>
      match skip with
      | S k => replace_from old new k s'
      | O =>
          if String.prefix old s
          then new +:+ replace_from old new (String.length old - 1) s'
          else String c (replace_from old new O s')
      end
  end.

Definition str_replace (s old new : string) : string :=
  replace_from old new O s.

(** [f"{i:04d}"]: decimal, left-padded with zeros to four characters. *)
Definition decimal (i : nat) : string :=
  NilZero.string_of_uint (Nat.to_uint i).

Fixpoint zeros (n : nat) : string :=
  match n with O => EmptyString | S k => String "0" (zeros k) end.

Definition pad04 (i : nat) : string :=
  let d := decimal i in zeros (4 - String.length d) +:+ d.

(** ** Exceptions and outcomes *)

(** A Python exception: its class name and [str(exc)]. *)
Record exn := Exn { exn_type : string; exn_str : string }.

(** [fastapi.HTTPException(status_code, detail)]. *)
Record http_error := HTTPException { status_code : Z; detail : string }.

Inductive outcome (E A : Type) : Type :=
  | Returns (a : A)
  | Raises (e : E).
Arguments Returns {E A} a.
Arguments Raises {E A} e.

(** ** The world: storage, broker queue, clock *)

Abbreviation bytes := (list Byte.byte).

(** A directory: file name to contents. A workspace: sub-directory name
    ([images], [masks], [sparse], [dense], [mesh], [output]) to directory. *)
Abbreviation directory := (gmap string bytes).
Abbreviation workspace := (gmap string directory).

(** A task handed to the Celery broker: [run_reconstruction.delay(job_id, opts)]. *)
Record task := Task { task_id : string; task_job : string; task_opts : json }.

(** One completed write of a status file. *)
Record status_write := StatusWrite { sw_path : string; sw_data : dict }.

Record world := World {
  status_files : gmap string dict;      (* <root>/status/<job_id>.json *)
  workspace_dirs : gmap string workspace; (* <root>/workspaces/<job_id> *)
  artifact_files : gmap string bytes;   (* <root>/artifacts/<name> *)
  broker : list task;                   (* queued Celery tasks, oldest first *)
  ticks : nat;                          (* clock readings taken so far *)
  status_log : list status_write        (* status writes, oldest first *)
}.

Definition set_status_files (f : gmap string dict -> gmap string dict) (w : world) : world :=
  World (f (status_files w)) (workspace_dirs w) (artifact_files w)
        (broker w) (ticks w) (status_log w).

Definition set_workspace_dirs (f : gmap string workspace -> gmap string workspace) (w : world) : world :=
  World (status_files w) (f (workspace_dirs w)) (artifact_files w)
        (broker w) (ticks w) (status_log w).

Definition set_artifact_files (f : gmap string bytes -> gmap string bytes) (w : world) : world :=
  World (status_files w) (workspace_dirs w) (f (artifact_files w))
        (broker w) (ticks w) (status_log w).

Definition set_broker (f : list task -> list task) (w : world) : world :=
  World (status_files w) (workspace_dirs w) (artifact_files w)
        (f (broker w)) (ticks w) (status_log w).

Definition set_ticks (f : nat -> nat) (w : world) : world :=
  World (status_files w) (workspace_dirs w) (artifact_files w)
        (broker w) (f (ticks w)) (status_log w).

Definition set_status_log (f : list status_write -> list status_write) (w : world) : world :=
  World (status_files w) (workspace_dirs w) (artifact_files w)
        (broker w) (ticks w) (f (status_log w)).

(** ** The monad of code that reads and writes the world and may raise *)

Definition M (E A : Type) : Type := world -> outcome E A * world.

Definition ret {E A} (a : A) : M E A := fun w => (Returns a, w).

Definition bind {E A B} (m : M E A) (k : A -> M E B) : M E B :=
  fun w =>
    match m w with
    | (Returns a, w') => k a w'
    | (Raises e, w') => (Raises e, w')
    end.

Definition raise {E A} (e : E) : M E A := fun w => (Raises e, w).

(** [try: body  except Exception as exc: handler(exc)]. *)
Definition try_except {E A} (body : M E A) (handler : E -> M E A) : M E A :=
  fun w =>
    match body w with
    | (Returns a, w') => (Returns a, w')
    | (Raises e, w') => handler e w'
    end.

Definition gets {E A} (f : world -> A) : M E A := fun w => (Returns (f w), w).
Definition modify {E} (f : world -> world) : M E unit := fun w => (Returns tt, f w).

Declare Scope py_scope.
Delimit Scope py_scope with py.
Notation "'let*' x := c1 'in' c2" := (bind c1 (fun x => c2))
  (at level 10, x binder, c1 at level 100, c2 at level 200) : py_scope.
Notation "c1 >> c2" := (bind c1 (fun _ => c2))
  (at level 100, c2 at level 200, right associativity) : py_scope.

(** ** Configuration and the Python runtime *)

(** The fields of [api.settings.Settings] that the orchestration code reads. *)
Record Settings := {
  STORAGE_ROOT : string;
  MAX_IMAGES : Z;
  MIN_IMAGES : Z;
  MAX_UPLOAD_MB : Z;
  ENABLE_SAM_SEGMENTATION : bool
}.

(** What [trimesh] hands back. Only what the orchestration code inspects is
    kept: the row counts of [vertices] and [faces], [bounds] ([None] for an
    object without extent, on which [bounds[1] - bounds[0]] raises) and the
    size of the material image when there is one. *)
Record bbox := BBox { bb_min : json; bb_max : json; bb_size : json }.

Record trimesh := Trimesh {
  tm_vertices : Z;
  tm_faces : Z;
  tm_bounds : option bbox;
  tm_texture : option (Z * Z)
}.

Inductive geometry :=
  | GTrimesh (m : trimesh)
  | GOther.

Inductive loaded :=
  | LNone
  | LTrimesh (m : trimesh)
  | LScene (geoms : list geometry) (bounds : option bbox)
  | LOther.

(** The result of [mesh.export(path, file_type=...)]: the bytes written to
    [path], or the exception raised and whatever was left at [path]. *)
Inductive export_result :=
  | Exported (data : bytes)
  | ExportRaises (e : exn) (partial : option bytes).

(** Library functions and external collaborators, taken as parameters: the
    Python standard library ([json], [uuid], [os.path], [datetime],
    [traceback]), PIL, trimesh, and the four reconstruction adapters, each of
    which rewrites the job's workspace and may raise. *)
Record Runtime := {
  (* json.loads(s); None when it raises JSONDecodeError *)
  json_loads : string -> option json;
  (* whether uuid.UUID(s) returns rather than raises ValueError *)
  uuid_valid : string -> bool;
  (* str(v) for a value that is not a string *)
  py_str : json -> string;
  (* bool(x) for the float x that a JSON number literal denotes *)
  float_truthy : string -> bool;
  (* os.path.splitext(name)[1] *)
  splitext_ext : string -> string;
  (* s.lower() *)
  str_lower : string -> string;
  (* the successive readings of datetime.utcnow() *)
  utcnow : nat -> Z;
  (* traceback.format_exc() while the exception is handled *)
  format_exc : exn -> string;
  (* PIL: the white mask written for an image file, by name and contents *)
  white_mask : string -> bytes -> outcome exn bytes;
  (* the adapters: what they raise, if anything, and the workspace they leave *)
  run_sam_segmentation : workspace -> option exn * workspace;
  run_openmvg : workspace -> json -> option exn * workspace;
  run_openmvs_pipeline : workspace -> json -> option exn * workspace;
  run_postprocessing : workspace -> json -> option exn * workspace;
  (* trimesh.load(path), by the contents of the file *)
  trimesh_load : bytes -> outcome exn loaded;
  (* trimesh.util.concatenate(list(scene.geometry.values())) *)
  concatenate : list geometry -> outcome exn loaded;
  (* mesh.simplify_quadric_decimation(target_faces) *)
  simplify_quadric_decimation : trimesh -> Z -> outcome exn trimesh;
  (* mesh.apply_scale(float(options['scale'])) *)
  apply_scale : trimesh -> json -> outcome exn trimesh;
  (* mesh.apply_transform(scale_and_translate(scale=[1.0, -1.0, -1.0])) *)
  flip_for_unity : trimesh -> outcome exn trimesh;
  (* mesh.vertices -= mesh.centroid *)
  center_at_origin : trimesh -> outcome exn trimesh;
  (* mesh.export(path, file_type=...), by the mesh and the file type *)
  mesh_export : loaded -> string -> export_result
}.

Local Open Scope py_scope.

Section Model.

Context (settings : Settings) (rt : Runtime).

Definition lift {A} (r : outcome exn A) : M exn A :=
  fun w => (r, w).

(** [datetime.utcnow().isoformat()]: takes the next reading of the clock. *)
Definition utcnow_isoformat {E} : M E json :=
  fun w => (Returns (JTime (utcnow rt (ticks w))), set_ticks S w).

(** ** Storage layout *)

Definition status_file (job_id : string) : string :=
  os_path_join (STORAGE_ROOT settings) ["status"; job_id +:+ ".json"].

Definition job_dir (job_id : string) : string :=
  os_path_join (STORAGE_ROOT settings) ["workspaces"; job_id].

Definition artifact_path (job_id : string) : string :=
  os_path_join (STORAGE_ROOT settings) ["artifacts"; job_id +:+ ".glb"].

(** [with open(path, "w") as f: json.dump(data, f, indent=2)], as the file
    stands once the block is left. *)
Definition write_status_file {E} (path : string) (data : dict) : M E unit :=
  modify (fun w =>
    set_status_log (fun l => l ++ [StatusWrite path data])
      (set_status_files (insert path data) w)).

(** [os.makedirs(os.path.join(jd, sub), exist_ok=True)]. *)
Definition makedirs_sub {E} (jd sub : string) : M E unit :=
  modify (set_workspace_dirs (fun dirs =>
    let ws := default ∅ (dirs !! jd) in
    <[jd := match ws !! sub with
            | Some _ => ws
            | None => <[sub := ∅]> ws
            end]> dirs)).

(** [open(os.path.join(jd, sub, name), "wb")] followed by writing [data]. *)
Definition write_ws_file {E} (jd sub name : string) (data : bytes) : M E unit :=
  modify (set_workspace_dirs (fun dirs =>
    let ws := default ∅ (dirs !! jd) in
    <[jd := <[sub := <[name := data]> (default ∅ (ws !! sub))]> ws]> dirs)).

(** [shutil.rmtree(jd)]. *)
Definition rmtree {E} (jd : string) : M E unit :=
  modify (set_workspace_dirs (delete jd)).

Definition write_artifact {E} (path : string) (data : bytes) : M E unit :=
  modify (set_artifact_files (insert path data)).

(** ** api/main.py *)

Definition save_job_status (job_id : string) (status_data : dict) : M http_error unit :=
  write_status_file (status_file job_id) status_data.

(** The helper [get_job_status] (kept as [_get_job_status_helper]). *)
Definition get_job_status_helper (job_id : string) : M http_error (option dict) :=
  gets (fun w => status_files w !! status_file job_id).

Record upload := Upload { up_filename : option string; up_data : bytes }.

Definition z_decimal (z : Z) : string :=
  NilZero.string_of_int (Z.to_int z).

Definition or_else (s fallback : string) : string :=
  if String.eqb s "" then fallback else s.

(** The loop of [create_job] over [enumerate(images)], from index [i] on with
    [total_size] the bytes written so far; returns the final [total_size].
    The list [saved_paths], which the loop fills and nothing reads, is left
    out. *)
Fixpoint save_uploads (jd : string) (i : nat) (total_size : Z)
    (images : list upload) : M http_error Z :=
  match images with
  | [] => ret total_size
  | upload_file :: rest =>
      let original_filename :=
        or_else (default "" (up_filename upload_file)) (decimal i +:+ ".jpg") in
      let ext :=
        or_else (str_lower rt (splitext_ext rt original_filename)) ".jpg" in
      write_ws_file jd "images" (pad04 i +:+ ext) (up_data upload_file) >>
      let file_size := Z.of_nat (length (up_data upload_file)) in
      let total_size := total_size + file_size in
      if total_size >? MAX_UPLOAD_MB settings * 1024 * 1024 then
        rmtree jd >>
        raise (HTTPException 413
          ("Total upload size exceeds " +:+ z_decimal (MAX_UPLOAD_MB settings)
             +:+ "MB limit"))
      else save_uploads jd (S i) total_size rest
  end.

Record job_created := JobCreated {
  jc_job_id : string;
  jc_task_id : string;
  jc_status : string;
  jc_message : string
}.

(** [create_job]. [job_uuid] is the value of [str(uuid.uuid4())] and
    [celery_id] the id the broker gives the enqueued task. *)
Definition create_job (images : list upload) (options : string)
    (job_uuid celery_id : string) : M http_error job_created :=
  match json_loads rt (or_else options "{}") with
  | None => raise (HTTPException 400 "Invalid JSON in options parameter")
  | Some opts =>
      let n := Z.of_nat (length images) in
      if n <? MIN_IMAGES settings then
        raise (HTTPException 400
          ("Need at least " +:+ z_decimal (MIN_IMAGES settings)
             +:+ " images for reconstruction"))
      else if n >? MAX_IMAGES settings then
        raise (HTTPException 400
          ("Maximum " +:+ z_decimal (MAX_IMAGES settings) +:+ " images allowed"))
      else
        let job_id := job_uuid in
        let jd := job_dir job_id in
        makedirs_sub jd "images" >>
        let* total_size := save_uploads jd 0 0 images in
        let* created_at := utcnow_isoformat in
        let status_data : dict :=
          list_to_map
            [("job_id", JStr job_id);
             ("status", JStr "queued");
             ("created_at", created_at);
             ("num_images", JInt n);
             ("total_size_mb", JMB total_size);
             ("options", opts);
             ("progress", JInt 0);
             ("message", JStr "Job queued for processing")] in
        save_job_status job_id status_data >>
        modify (set_broker (fun q => q ++ [Task celery_id job_id opts])) >>
        ret (JobCreated job_id celery_id "queued" "Job created successfully")
  end.

(** The endpoint [GET /api/v1/jobs/{job_id}]. *)
Definition get_job_status (job_id : string) : M http_error dict :=
  if negb (uuid_valid rt job_id) then
    raise (HTTPException 400 "Invalid job ID format")
  else
    let* status_data := get_job_status_helper job_id in
    match status_data with
    | None => raise (HTTPException 404 "Job not found")
    | Some d =>
        if negb (dict_truthy d) then raise (HTTPException 404 "Job not found")
        else ret d
    end.

Record file_response := FileResponse {
  fr_path : string;
  fr_media_type : string;
  fr_filename : string;
  fr_body : bytes
}.

(** [f"{current_status}"] for [status_data.get("status", "unknown")]. *)
Definition current_status (d : dict) : string :=
  match d !! "status" with
  | None => "unknown"
  | Some (JStr s) => s
  | Some v => py_str rt v
  end.

(** The endpoint [GET /api/v1/jobs/{job_id}/artifact]. *)
Definition get_artifact (job_id : string) : M http_error file_response :=
  if negb (uuid_valid rt job_id) then
    raise (HTTPException 400 "Invalid job ID format")
  else
    let* status_data := get_job_status_helper job_id in
    match status_data with
    | None => raise (HTTPException 404 "Job not found")
    | Some d =>
        if negb (dict_truthy d) then raise (HTTPException 404 "Job not found")
        else if negb (json_eq_str (d !! "status") "completed") then
          raise (HTTPException 409
            ("Job not completed yet. Current status: " +:+ current_status d))
        else
          let* artifact := gets (fun w => artifact_files w !! artifact_path job_id) in
          match artifact with
          | None => raise (HTTPException 404 "Artifact file not found")
          | Some body =>
              ret (FileResponse (artifact_path job_id) "model/gltf-binary"
                     ("atlas-" +:+ job_id +:+ ".glb") body)
          end
    end.

(** The endpoint [DELETE /api/v1/jobs/{job_id}]; returns the message. *)
Definition delete_job (job_id : string) : M http_error string :=
  if negb (uuid_valid rt job_id) then
    raise (HTTPException 400 "Invalid job ID format")
  else
    let workspace_dir := job_dir job_id in
    let* ws := gets (fun w => workspace_dirs w !! workspace_dir) in
    (if ws is Some _ then rmtree workspace_dir else ret tt) >>
    let* art := gets (fun w => artifact_files w !! artifact_path job_id) in
    (if art is Some _
     then modify (set_artifact_files (delete (artifact_path job_id)))
     else ret tt) >>
    let* st := gets (fun w => status_files w !! status_file job_id) in
    (if st is Some _
     then modify (set_status_files (delete (status_file job_id)))
     else ret tt) >>
    ret ("Job " +:+ job_id +:+ " deleted successfully").

(** ** worker/tasks.py: the status writer *)

(** [update_job_status(job_id, status, progress, message, **kwargs)]: read
    the record or start from [{}], update it, write it back. The directory
    of the status files is taken to exist. *)
Definition update_job_status (job_id status : string) (progress : Z)
    (message : string) (kwargs : list (string * json)) : M exn unit :=
  let* existing := gets (fun w => status_files w !! status_file job_id) in
  let status_data : dict := default ∅ existing in
  let* updated_at := utcnow_isoformat in
  write_status_file (status_file job_id)
    (dict_update status_data
       ([("status", JStr status);
         ("progress", JInt progress);
         ("message", JStr message);
         ("updated_at", updated_at)] ++ kwargs)).

(** ** worker/pipeline/export.py *)

Definition has_suffix (suffix s : string) : bool :=
  (String.length suffix <=? String.length s)%nat &&
  String.eqb
    (substring (String.length s - String.length suffix) (String.length suffix) s)
    suffix.

(** The first entry of [Path(directory).glob("*" + suffix)]. *)
Definition glob_first (d : directory) (suffix : string) : option string :=
  head (filter (fun name => has_suffix suffix name = true) (map fst (map_to_list d))).

Fixpoint first_some {A} (xs : list (option A)) : option A :=
  match xs with
  | [] => None
  | Some a :: _ => Some a
  | None :: rest => first_some rest
  end.

(** [find_mesh_file]. The stage directories of a workspace hold files only,
    so the recursive search ([rglob]) finds what the first loop finds. *)
Definition find_mesh_file (d : directory) : option string :=
  match first_some (map (glob_first d) [".obj"; ".ply"; ".OBJ"; ".PLY"]) with
  | Some f => Some f
  | None => first_some (map (glob_first d) [".obj"; ".ply"])
  end.

Definition py_type_name (v : json) : string :=
  match v with
  | JNull => "NoneType"
  | JBool _ => "bool"
  | JInt _ => "int"
  | JFloat _ | JMB _ => "float"
  | JStr _ | JTime _ => "str"
  | JList _ => "list"
  | JObj _ => "dict"
  end.

(** [bool(v)], as an [if] takes it. *)
Definition py_truthy (v : json) : bool :=
  match v with
  | JNull => false
  | JBool b => b
  | JInt n => negb (n =? 0)
  | JFloat lit => float_truthy rt lit
  | JStr s => negb (String.eqb s "")
  | JTime _ => true
  | JMB n => 5243 <=? Z.abs n
  | JList xs => match xs with [] => false | _ => true end
  | JObj kvs => match kvs with [] => false | _ => true end
  end.

(** [options.get(key, default)]. *)
Definition options_get (options : json) (key : string) (dflt : json) : M exn json :=
  match options with
  | JObj kvs => ret (default dflt (assoc_last key kvs))
  | v => raise (Exn "AttributeError"
           ("'" +:+ py_type_name v +:+ "' object has no attribute 'get'"))
  end.

(** Lines 55-80 of [export_glb]: the checks and adjustments made when the
    loaded object is a [Trimesh]. *)
Definition prepare_trimesh (mesh : trimesh) (textured_mesh : string)
    (options : json) : M exn trimesh :=
  if (tm_vertices mesh =? 0) || (tm_faces mesh =? 0) then
    raise (Exn "ValueError"
      ("Mesh is empty (no vertices or faces): " +:+ textured_mesh))
  else
    let* optimize := options_get options "optimize" (JBool false) in
    let* mesh :=
      if py_truthy optimize
      then lift (simplify_quadric_decimation rt mesh (tm_faces mesh / 2))
      else ret mesh in
    let* mesh :=
      match options with
      | JObj kvs =>
          match assoc_last "scale" kvs with
          | Some scale => lift (apply_scale rt mesh scale)
          | None => ret mesh
          end
      | _ => ret mesh
      end in
    let* flip := options_get options "flip_for_unity" (JBool true) in
    let* mesh := if py_truthy flip then lift (flip_for_unity rt mesh) else ret mesh in
    let* center := options_get options "center_at_origin" (JBool true) in
    if py_truthy center then lift (center_at_origin rt mesh) else ret mesh.

(** [mesh.export(path, file_type=file_type)]. *)
Definition export_to (mesh : loaded) (path file_type : string) : M exn unit :=
  match mesh_export rt mesh file_type with
  | Exported data => write_artifact path data
  | ExportRaises e partial =>
      (if partial is Some data then write_artifact path data else ret tt) >>
      raise e
  end.

(** Lines 27-81 of [export_glb(mesh_dir, output_path, options)]: find and
    load the mesh and adjust it. [mesh_dir] is the [output] directory of the
    workspace [jd]. The directory of the artifacts is taken to exist, and
    what is printed is left out, here as everywhere. *)
Definition load_mesh (jd : string) (options : json) : M exn loaded :=
  let mesh_dir := os_path_join jd ["output"] in
  let* ws := gets (fun w => default ∅ (workspace_dirs w !! jd)) in
  let d : directory := default ∅ (ws !! "output") in
  let* name :=
    match d !! "mesh_textured.obj" with
    | Some _ => ret "mesh_textured.obj"
    | None =>
        match find_mesh_file d with
        | Some input_mesh => ret input_mesh
        | None => raise (Exn "FileNotFoundError" ("No mesh found in " +:+ mesh_dir))
        end
    end in
  let textured_mesh := os_path_join mesh_dir [name] in
  let* mesh := lift (trimesh_load rt (default [] (d !! name))) in
  let* mesh :=
    match mesh with
    | LNone =>
        raise (Exn "ValueError" ("Failed to load mesh from " +:+ textured_mesh))
    | LScene [] _ =>
        raise (Exn "ValueError" ("Empty scene loaded from " +:+ textured_mesh))
    | LScene geoms _ => lift (concatenate rt geoms)
    | m => ret m
    end in
  match mesh with
  | LTrimesh m =>
      let* m' := prepare_trimesh m textured_mesh options in ret (LTrimesh m')
  | m => ret m
  end.

(** Lines 82-91 of [export_glb]: the export and its fallback. *)
Definition export_with_fallback (mesh : loaded) (output_path : string) : M exn unit :=
  try_except
    (export_to mesh output_path "glb")
    (fun e =>
       let gltf_path := str_replace output_path ".glb" ".gltf" in
       export_to mesh gltf_path "gltf").

Definition export_glb (jd output_path : string) (options : json) : M exn unit :=
  let* mesh := load_mesh jd options in
  export_with_fallback mesh output_path.

Record qa_metrics := QAMetrics {
  file_size_mb : json;
  triangle_count : json;
  vertex_count : json;
  texture_size : json;
  bounding_box : json;
  estimated_quality : json
}.

Definition metrics_json (m : qa_metrics) : json :=
  JObj [("file_size_mb", file_size_mb m);
        ("triangle_count", triangle_count m);
        ("vertex_count", vertex_count m);
        ("texture_size", texture_size m);
        ("bounding_box", bounding_box m);
        ("estimated_quality", estimated_quality m)].

Definition quality_of (triangles : Z) : json :=
  if triangles >? 50000 then JStr "high"
  else if triangles >? 10000 then JStr "medium"
  else JStr "low".

Definition bbox_json (b : bbox) : json :=
  JObj [("min", bb_min b); ("max", bb_max b); ("size", bb_size b)].

Definition geometry_faces (g : geometry) : Z :=
  match g with GTrimesh m => tm_faces m | GOther => 0 end.

Definition geometry_vertices (g : geometry) : Z :=
  match g with GTrimesh m => tm_vertices m | GOther => 0 end.

Definition sum_Z (xs : list Z) : Z := foldl Z.add 0 xs.

(** The [try] block of [compute_qa_metrics] on the dict [metrics]: the
    assignments made up to the point where it returns or raises. *)
Definition analyze_glb (data : bytes) (metrics : qa_metrics) : qa_metrics :=
  match trimesh_load rt data with
  | Raises _ => metrics
  | Returns (LTrimesh mesh) =>
      let metrics :=
        QAMetrics (file_size_mb metrics) (JInt (tm_faces mesh))
          (JInt (tm_vertices mesh)) (texture_size metrics)
          (bounding_box metrics) (estimated_quality metrics) in
      match tm_bounds mesh with
      | None => metrics
      | Some b =>
          QAMetrics (file_size_mb metrics) (triangle_count metrics)
            (vertex_count metrics)
            (match tm_texture mesh with
             | Some (width, height) =>
                 JObj [("width", JInt width); ("height", JInt height)]
             | None => texture_size metrics
             end)
            (bbox_json b)
            (quality_of (tm_faces mesh))
      end
  | Returns (LScene geoms bounds) =>
      let total_faces := sum_Z (map geometry_faces geoms) in
      let total_vertices := sum_Z (map geometry_vertices geoms) in
      let metrics :=
        QAMetrics (file_size_mb metrics) (JInt total_faces)
          (JInt total_vertices) (texture_size metrics)
          (bounding_box metrics) (estimated_quality metrics) in
      match bounds with
      | None => metrics
      | Some b =>
          QAMetrics (file_size_mb metrics) (triangle_count metrics)
            (vertex_count metrics) (texture_size metrics)
            (bbox_json b) (quality_of total_faces)
      end
  | Returns _ => metrics
  end.

(** [compute_qa_metrics(glb_path, workspace_dir)]. *)
Definition compute_qa_metrics (glb_path : string) : M exn qa_metrics :=
  let metrics :=
    QAMetrics (JInt 0) (JInt 0) (JInt 0) JNull JNull (JStr "medium") in
  let* glb := gets (fun w => artifact_files w !! glb_path) in
  match glb with
  | None => ret metrics
  | Some data =>
      let metrics :=
        QAMetrics (JMB (Z.of_nat (length data))) (triangle_count metrics)
          (vertex_count metrics) (texture_size metrics)
          (bounding_box metrics) (estimated_quality metrics) in
      ret (analyze_glb data metrics)
  end.

(** ** worker/tasks.py: the pipeline executor *)

(** A reconstruction adapter run on the workspace of the job. *)
Definition run_adapter (jd : string)
    (adapter : workspace -> option exn * workspace) : M exn unit :=
  fun w =>
    let '(r, ws) := adapter (default ∅ (workspace_dirs w !! jd)) in
    let w' := set_workspace_dirs (insert jd ws) w in
    match r with
    | None => (Returns tt, w')
    | Some e => (Raises e, w')
    end.

(** The loop that writes a white mask for every entry that
    [glob.glob(images_dir + "/*")] lists. *)
Fixpoint make_white_masks (jd : string) (imgs : list (string * bytes)) : M exn unit :=
  match imgs with
  | [] => ret tt
  | (basename, data) :: rest =>
      let* mask := lift (white_mask rt basename data) in
      write_ws_file jd "masks" basename mask >>
      make_white_masks jd rest
  end.

(** [glob.glob(os.path.join(images_dir, "*"))]: hidden entries are skipped. *)
Definition glob_images (ws : workspace) : list (string * bytes) :=
  filter (fun p => String.prefix "." p.1 = false)
         (map_to_list (default ∅ (ws !! "images"))).

(** Stage 1, segmentation or white masks. *)
Definition stage_masks (job_id : string) : M exn unit :=
  let jd := job_dir job_id in
  if ENABLE_SAM_SEGMENTATION settings then
    update_job_status job_id "processing" 10 "Running SAM segmentation..." [] >>
    run_adapter jd (run_sam_segmentation rt)
  else
    let* ws := gets (fun w => default ∅ (workspace_dirs w !! jd)) in
    make_white_masks jd (glob_images ws).

(** The [try] block of [run_reconstruction] from its first line to the
    status write that announces the export (lines 106-194). *)
Definition before_export (job_id : string) (options : json) : M exn unit :=
  update_job_status job_id "processing" 0 "Pipeline started" [] >>
  let jd := job_dir job_id in
  makedirs_sub jd "masks" >>
  makedirs_sub jd "sparse" >>
  makedirs_sub jd "dense" >>
  makedirs_sub jd "mesh" >>
  makedirs_sub jd "output" >>
  stage_masks job_id >>
  update_job_status job_id "processing" 20
    "Running sparse reconstruction (OpenMVG)..." [] >>
  run_adapter jd (fun ws => run_openmvg rt ws options) >>
  update_job_status job_id "processing" 50
    "Running dense reconstruction (OpenMVS)..." [] >>
  run_adapter jd (fun ws => run_openmvs_pipeline rt ws options) >>
  update_job_status job_id "processing" 70 "Post-processing mesh..." [] >>
  run_adapter jd (fun ws => run_postprocessing rt ws options) >>
  update_job_status job_id "processing" 90 "Exporting to GLB format..." [].

(** The stages: everything in the [try] block through the export
    (lines 106-195). *)
Definition run_stages (job_id : string) (options : json) : M exn unit :=
  before_export job_id options >>
  export_glb (job_dir job_id) (artifact_path job_id) options.

(** The rest of the [try] block (lines 197-215): metrics, the final status,
    the returned dict. *)
Definition finish_job (job_id : string) : M exn dict :=
  let* metrics := compute_qa_metrics (artifact_path job_id) in
  let* completed_at := utcnow_isoformat in
  update_job_status job_id "completed" 100 "Reconstruction complete"
    [("completed_at", completed_at); ("metrics", metrics_json metrics)] >>
  ret (list_to_map
         [("job_id", JStr job_id);
          ("status", JStr "completed");
          ("progress", JInt 100);
          ("metrics", metrics_json metrics)]).

(** The [except Exception as exc] block (lines 217-235). *)
Definition on_exception (retries : Z) (job_id : string) (exc : exn) : M exn dict :=
  let error_msg := exn_str exc in
  let error_trace := format_exc rt exc in
  update_job_status job_id "failed" (retries * 10) ("Error: " +:+ error_msg)
    [("error", JStr error_msg); ("traceback", JStr error_trace)] >>
  raise exc.

(** [run_reconstruction(self, job_id, options)], with [retries] the value of
    [self.request.retries]. *)
Definition run_reconstruction (retries : Z) (job_id : string) (options : json)
    : M exn dict :=
  try_except
    (run_stages job_id options >> finish_job job_id)
    (on_exception retries job_id).

(** ** The status file as a concurrent reader sees it *)

(** What a reader finds at a path while a writer is at work: a complete
    JSON document, or a file that was opened for writing and does not hold
    one yet. *)
Inductive observed :=
  | Document (d : dict)
  | Incomplete.

(** The successive states of the file under
    [with open(path, "w") as f: json.dump(data, f, indent=2)]: [open] in
    mode ["w"] truncates the file in place, then the document is written to
    the same file. *)
Definition write_in_place (path : string) (data : dict)
    (files : gmap string observed) : list (gmap string observed) :=
  [ <[path := Incomplete]> files; <[path := Document data]> files ].

Definition observe (files : gmap string dict) : gmap string observed :=
  Document <$> files.

(** ** Vocabulary of the properties *)

(** The sum of the sizes of the uploaded files. *)
Fixpoint total_upload_size (images : list upload) : Z :=
  match images with
  | [] => 0
  | u :: rest => Z.of_nat (length (up_data u)) + total_upload_size rest
  end.

(** Two worlds that differ at most in their workspaces. *)
Definition same_but_workspaces (w w' : world) : Prop :=
  status_files w' = status_files w /\ artifact_files w' = artifact_files w /\
  broker w' = broker w /\ ticks w' = ticks w /\ status_log w' = status_log w.

(** The error of [create_job] for an upload over the ceiling. *)
Definition too_large : http_error :=
  HTTPException 413
    ("Total upload size exceeds " +:+ z_decimal (MAX_UPLOAD_MB settings)
       +:+ "MB limit").

(** The world without the workspace, the artifact and the status record of
    a job. *)
Definition purged (job_id : string) (w : world) : world :=
  World (delete (status_file job_id) (status_files w))
        (delete (job_dir job_id) (workspace_dirs w))
        (delete (artifact_path job_id) (artifact_files w))
        (broker w) (ticks w) (status_log w).

Definition is_returns {E A} (r : outcome E A) : bool :=
  match r with Returns _ => true | Raises _ => false end.

(** Work that leaves the status store, the clock and the broker alone. *)
Definition quiet {E A} (m : M E A) : Prop :=
  forall w, status_files (m w).2 = status_files w /\ ticks (m w).2 = ticks w /\
            status_log (m w).2 = status_log w /\ broker (m w).2 = broker w.

(** Work that changes nothing at all. *)
Definition readonly {E A} (m : M E A) : Prop :=
  forall w, (m w).2 = w.

(** What the status store holds for one job, together with the clock and
    the log of writes: all that [update_job_status] reads and changes. *)
Record status_view := StatusView {
  sv_record : option dict;
  sv_ticks : nat;
  sv_log : list status_write
}.

Definition view_of (job_id : string) (w : world) : status_view :=
  StatusView (status_files w !! status_file job_id) (ticks w) (status_log w).

(** The record that [update_job_status] writes. *)
Definition stamped (status : string) (progress : Z) (message : string)
    (kwargs : list (string * json)) (v : status_view) : dict :=
  dict_update (default ∅ (sv_record v))
    ([("status", JStr status);
      ("progress", JInt progress);
      ("message", JStr message);
      ("updated_at", JTime (utcnow rt (sv_ticks v)))] ++ kwargs).

(** The keys that every status write sets. *)
Definition stamped_keys : list string :=
  ["status"; "progress"; "message"; "updated_at"].

(** The effect of [update_job_status] on the view. *)
Definition write_view (job_id status : string) (progress : Z) (message : string)
    (kwargs : list (string * json)) (v : status_view) : status_view :=
  let data := stamped status progress message kwargs v in
  StatusView (Some data) (S (sv_ticks v))
    (sv_log v ++ [StatusWrite (status_file job_id) data]).

(** The effect of one reading of the clock on the view. *)
Definition tick (v : status_view) : status_view :=
  StatusView (sv_record v) (S (sv_ticks v)) (sv_log v).

Definition first_announcement : Z * string := (0, "Pipeline started").

(** The progress announcements that follow the first one, in program order. *)
Definition announcements : list (Z * string) :=
  (if ENABLE_SAM_SEGMENTATION settings
   then [(10, "Running SAM segmentation...")] else []) ++
  [(20, "Running sparse reconstruction (OpenMVG)...");
   (50, "Running dense reconstruction (OpenMVS)...");
   (70, "Post-processing mesh...");
   (90, "Exporting to GLB format...")].

Definition announce (job_id : string) (v : status_view) (a : Z * string) : status_view :=
  write_view job_id "processing" a.1 a.2 [] v.

Definition replay (job_id : string) (v : status_view) (steps : list (Z * string)) : status_view :=
  foldl (announce job_id) v steps.

(** [m] writes the announcements of [plan] in order, interleaved with work
    that leaves the status store alone, and stops early only by raising. *)
Definition follows_plan {A} (job_id : string) (m : M exn A) (plan : list (Z * string)) : Prop :=
  forall w, exists k,
    (k <= length plan)%nat /\
    view_of job_id (m w).2 = replay job_id (view_of job_id w) (take k plan) /\
    (is_returns (m w).1 = true -> k = length plan).

(** The progress values a completing attempt writes, in order. *)
Definition progress_plan : list Z :=
  0 :: map fst announcements ++ [100].

Definition progress_of (s : status_write) : option json := sw_data s !! "progress".
Definition status_of (s : status_write) : option json := sw_data s !! "status".

Definition default_metrics : qa_metrics :=
  QAMetrics (JInt 0) (JInt 0) (JInt 0) JNull JNull (JStr "medium").

(** The keyword arguments of the last write of an attempt. *)
Definition completed_kwargs (completed_at : Z) (m : qa_metrics) : list (string * json) :=
  [("completed_at", JTime completed_at); ("metrics", metrics_json m)].

Definition failed_kwargs (exc : exn) : list (string * json) :=
  [("error", JStr (exn_str exc)); ("traceback", JStr (format_exc rt exc))].

(** While [skip] characters of a replaced occurrence of [.glb] remain to be
    dropped, the text starts with the last [skip] characters of [.glb]. *)
Definition glb_pending (skip : nat) (s : string) : Prop :=
  (skip <= 3)%nat /\ String.prefix (substring (4 - skip) skip ".glb") s = true.

(** ** The claims that the code does not meet, as they are stated *)

(** C1 as stated: delivering a job whose record is terminal writes nothing
    and leaves the record as it is. *)
Definition redelivery_is_noop : Prop :=
  forall retries job_id options w d,
    status_files w !! status_file job_id = Some d ->
    d !! "status" = Some (JStr "completed") \/ d !! "status" = Some (JStr "failed") ->
    let w' := (run_reconstruction retries job_id options w).2 in
    status_files w' !! status_file job_id = Some d /\
    status_log w' = status_log w.

(** C2 as stated, for the writer of the API: the written record carries
    [updated_at] and keeps the fields of the existing record that the update
    does not mention. *)
Definition save_merges_and_stamps : Prop :=
  forall job_id data w,
    let old : dict := default ∅ (status_files w !! status_file job_id) in
    exists new,
      status_files (save_job_status job_id data w).2 !! status_file job_id = Some new /\
      is_Some (new !! "updated_at") /\
      (forall k, data !! k = None -> new !! k = old !! k).

(** C3 as stated, for the progress field: the failed record carries the
    progress that was last announced before the failing stage. *)
Definition failed_progress_is_floor : Prop :=
  forall retries job_id options w exc w1 d1,
    run_stages job_id options w = (Raises exc, w1) ->
    status_files w1 !! status_file job_id = Some d1 ->
    let w2 := (run_reconstruction retries job_id options w).2 in
    (status_files w2 !! status_file job_id) ≫= (fun rec => rec !! "progress")
      = d1 !! "progress".

(** C7 as stated, for the fallback: whenever the GLB export raises, the
    exporter returns normally. *)
Definition glb_failure_always_falls_back : Prop :=
  forall mesh output_path w e partial,
    mesh_export rt mesh "glb" = ExportRaises e partial ->
    exists w', export_with_fallback mesh output_path w = (Returns tt, w').

(** C6 as stated, for the progress values: over the run of a job that ends
    [completed], here an earlier attempt followed by the attempt that
    returns, the progress values that the executor writes never go down. *)
Definition progress_never_decreases : Prop :=
  forall retries retries' job_id options w result w2,
    let w1 := (run_reconstruction retries job_id options w).2 in
    run_reconstruction retries' job_id options w1 = (Returns result, w2) ->
    exists ps,
      map progress_of (drop (length (status_log w)) (status_log w2))
        = map (fun p => Some (JInt p)) ps /\
      StronglySorted Z.le ps.

(** C6 as stated, for the timestamps: whatever the clocks read, the
    [completed_at] of a completed job is not before its [created_at]. *)
Definition completed_at_follows_created_at : Prop :=
  forall retries job_id options w result w2 d0 t0,
    run_reconstruction retries job_id options w = (Returns result, w2) ->
    status_files w !! status_file job_id = Some d0 ->
    d0 !! "created_at" = Some (JTime t0) ->
    exists t_done,
      (status_files w2 !! status_file job_id) ≫= (fun rec => rec !! "completed_at")
        = Some (JTime t_done) /\
      t0 <= t_done.

End Model.


(** ** A concrete configuration, used to run the model *)

Definition demo_settings : Settings :=
  {| STORAGE_ROOT := "/data";
     MAX_IMAGES := 4;
     MIN_IMAGES := 2;
     MAX_UPLOAD_MB := 1;
     ENABLE_SAM_SEGMENTATION := true |}.

(** The same with a zero upload ceiling: any non-empty upload is too large. *)
Definition tight_settings : Settings :=
  {| STORAGE_ROOT := "/data";
     MAX_IMAGES := 4;
     MIN_IMAGES := 2;
     MAX_UPLOAD_MB := 0;
     ENABLE_SAM_SEGMENTATION := true |}.

Definition demo_mesh : trimesh :=
  Trimesh 8 12 (Some (BBox (JList []) (JList []) (JList []))) None.

(** A runtime in which every collaborator succeeds, except as directed:
    [mvs] is what the dense-reconstruction adapter raises, [glb] and [gltf]
    what the two exports do, [load] what [trimesh.load] makes of a file. *)
Definition demo_runtime (mvs : option exn) (glb gltf : export_result)
    (load : bytes -> outcome exn loaded) : Runtime :=
  {| json_loads := fun s => if String.eqb s "{}" then Some (JObj []) else None;
     uuid_valid := fun s => (String.length s =? 36)%nat;
     py_str := fun _ => "None";
     float_truthy := fun lit => negb (String.eqb lit "0.0");
     splitext_ext := fun _ => ".JPG";
     str_lower := fun _ => ".jpg";
     utcnow := fun k => Z.of_nat k;
     format_exc := fun e => "Traceback (most recent call last): " +:+ exn_str e;
     white_mask := fun _ data => Returns data;
     run_sam_segmentation := fun ws => (None, ws);
     run_openmvg := fun ws _ => (None, ws);
     run_openmvs_pipeline := fun ws _ => (mvs, ws);
     run_postprocessing := fun ws _ =>
       (None, <["output" := {["mesh_textured.obj" := []]}]> ws);
     trimesh_load := load;
     concatenate := fun _ => Returns (LTrimesh demo_mesh);
     simplify_quadric_decimation := fun m _ => Returns m;
     apply_scale := fun m _ => Returns m;
     flip_for_unity := fun m => Returns m;
     center_at_origin := fun m => Returns m;
     mesh_export := fun _ file_type =>
       if String.eqb file_type "glb" then glb else gltf |}.

Definition good_runtime : Runtime :=
  demo_runtime None (Exported []) (Exported [])
    (fun _ => Returns (LTrimesh demo_mesh)).

Definition demo_job : string := "123e4567-e89b-12d3-a456-426614174000".

Definition empty_world : world := World ∅ ∅ ∅ [] 0 [].

Definition demo_images : list upload :=
  [Upload (Some "a.JPG") []; Upload None []].

(** The world after [demo_job] has been submitted to [empty_world]. *)
Definition submitted_world : world :=
  (create_job demo_settings good_runtime demo_images "{}" demo_job "celery-1"
     empty_world).2.

(** The world after the executor has then run [demo_job] to completion. *)
Definition completed_world : world :=
  (run_reconstruction demo_settings good_runtime 0 demo_job (JObj [])
     submitted_world).2.

(** Runtimes in which one collaborator fails. *)
Definition failing_mvs_runtime : Runtime :=
  demo_runtime (Some (Exn "RuntimeError" "OpenMVS failed")) (Exported []) (Exported [])
    (fun _ => Returns (LTrimesh demo_mesh)).

Definition glb_error : exn := Exn "ValueError" "cannot export to glb".
Definition gltf_error : exn := Exn "ValueError" "cannot export to gltf".

Definition no_export_runtime : Runtime :=
  demo_runtime None (ExportRaises glb_error None) (ExportRaises gltf_error None)
    (fun _ => Returns (LTrimesh demo_mesh)).

Definition gltf_only_runtime : Runtime :=
  demo_runtime None (ExportRaises glb_error None) (Exported [Byte.x7b])
    (fun _ => Returns (LTrimesh demo_mesh)).

(** [trimesh.load] reads the mesh written by post-processing (an empty file
    here) and fails on the exported GLB. *)
Definition unreadable_glb_runtime : Runtime :=
  demo_runtime None (Exported [Byte.x67]) (Exported [])
    (fun data =>
       match data with
       | [] => Returns (LTrimesh demo_mesh)
       | _ => Raises (Exn "ValueError" "not a GLB file")
       end).

Definition oversized_images : list upload :=
  [Upload (Some "a.JPG") [Byte.xff]; Upload None []].

(** [good_runtime] with another dense-reconstruction adapter, another clock
    and other functions on file names. *)
Definition variant_runtime
    (mvs : workspace -> json -> option exn * workspace) (clock : nat -> Z)
    (splitext lower : string -> string) : Runtime :=
  {| json_loads := json_loads good_runtime;
     uuid_valid := uuid_valid good_runtime;
     py_str := py_str good_runtime;
     float_truthy := float_truthy good_runtime;
     splitext_ext := splitext;
     str_lower := lower;
     utcnow := clock;
     format_exc := format_exc good_runtime;
     white_mask := white_mask good_runtime;
     run_sam_segmentation := run_sam_segmentation good_runtime;
     run_openmvg := run_openmvg good_runtime;
     run_openmvs_pipeline := mvs;
     run_postprocessing := run_postprocessing good_runtime;
     trimesh_load := trimesh_load good_runtime;
     concatenate := concatenate good_runtime;
     simplify_quadric_decimation := simplify_quadric_decimation good_runtime;
     apply_scale := apply_scale good_runtime;
     flip_for_unity := flip_for_unity good_runtime;
     center_at_origin := center_at_origin good_runtime;
     mesh_export := mesh_export good_runtime |}.

(** A dense reconstruction that raises on the first attempt, leaving its
    scene behind, and succeeds once it finds the scene. *)
Definition flaky_mvs (ws : workspace) (options : json) : option exn * workspace :=
  match default ∅ (ws !! "dense") !! "scene.mvs" with
  | Some _ => (None, ws)
  | None =>
      (Some (Exn "RuntimeError" "OpenMVS failed"),
       <["dense" := {["scene.mvs" := []]}]> ws)
  end.

Definition flaky_mvs_runtime : Runtime :=
  variant_runtime flaky_mvs (utcnow good_runtime)
    (splitext_ext good_runtime) (str_lower good_runtime).

(** The first reading, which the API takes, is ahead of the readings that
    the worker takes afterwards. *)
Definition lagging_clock (k : nat) : Z :=
  match k with
  | O => 1000
  | S _ => Z.of_nat k
  end.

Definition lagging_clock_runtime : Runtime :=
  variant_runtime (run_openmvs_pipeline good_runtime) lagging_clock
    (splitext_ext good_runtime) (str_lower good_runtime).

(** The same world, written out as the result of the run. *)
Abbreviation world_after_run :=
  ((run_reconstruction demo_settings good_runtime 0 demo_job (JObj [])
      submitted_world).2).

(** The status record of [demo_job] in a world. *)
Definition demo_record (w : world) : dict :=
  default ∅ (status_files w !! status_file demo_settings demo_job).

(** What the completing run of [demo_job] returned. *)
Definition completed_result : dict :=
  match (run_reconstruction demo_settings good_runtime 0 demo_job (JObj [])
           submitted_world).1 with
  | Returns r => r
  | Raises _ => ∅
  end.

Definition mvs_error : exn := Exn "RuntimeError" "OpenMVS failed".

(** The world in which the dense-reconstruction adapter has just raised. *)
Abbreviation world_at_mvs_failure :=
  ((run_stages demo_settings failing_mvs_runtime demo_job (JObj []) submitted_world).2).

(** The world after the stages, with an exported GLB that cannot be loaded. *)
Abbreviation world_with_unreadable_glb :=
  ((run_stages demo_settings unreadable_glb_runtime demo_job (JObj [])
     submitted_world).2).

(** The world just before the export, where only the GLTF export works. *)
Abbreviation world_before_export :=
  ((before_export demo_settings gltf_only_runtime demo_job (JObj [])
     submitted_world).2).

(** The world after a submission over the ceiling has been rejected. *)
Abbreviation world_after_rejection :=
  ((create_job tight_settings good_runtime oversized_images "{}" demo_job
     "celery-1" empty_world).2).

(** * Further vocabulary *)

From Stdlib Require Import DecimalNat.

(** [m] takes every world to one that [R] relates to it. *)
Definition preserves (R : world -> world -> Prop) {E A} (m : M E A) : Prop :=
  forall w, R w (m w).2.

(** A job id that [os.path.join] appends to the directory: it does not
    start with a slash. *)
Definition relative (s : string) : Prop := String.prefix "/" s = false.

(** What [posixpath.join] puts in front of a relative component. *)
Definition join_prefix (a : string) : string :=
  if String.eqb a "" then ""
  else if String.eqb (substring (String.length a - 1) 1 a) "/" then a
  else a +:+ "/".

(** Whether the [k] numerals counted up from [d], least digit first, all
    have at most four digits. *)
Fixpoint short_run (k : nat) (d : Decimal.uint) : bool :=
  match k with
  | O => true
  | S k' =>
      (Decimal.nb_digits d <=? 4)%nat && short_run k' (Decimal.Little.succ d)
  end.

(** The file names that [find_mesh_file] looks for. *)
Definition mesh_name (name : string) : bool :=
  has_suffix ".obj" name || has_suffix ".ply" name ||
  has_suffix ".OBJ" name || has_suffix ".PLY" name.

(** Every record of the status store has a [status]. *)
Definition records_have_status (w : world) : Prop :=
  forall p d, status_files w !! p = Some d -> is_Some (d !! "status").

Definition keeps_status (w w' : world) : Prop :=
  records_have_status w -> records_have_status w'.

(** What a request ends in when it does not return: an [HTTPException], or
    some other exception, which the framework answers with a 500. *)
Inductive api_error :=
  | Http (e : http_error)
  | Unhandled (e : exn).

(** An outcome of the API code as an outcome of the request. *)
Definition as_api {A} (r : outcome http_error A * world)
    : outcome api_error A * world :=
  (match r.1 with
   | Returns a => Returns a
   | Raises e => Raises (Http e)
   end, r.2).

Section Further.

Context (settings : Settings) (rt : Runtime).

(** The path at which [export_glb] writes its fallback for a job. *)
Definition gltf_path (job_id : string) : string :=
  str_replace (artifact_path settings job_id) ".glb" ".gltf".

(** [w'] differs from [w] at most in what belongs to the job: its status
    file, its workspace, its artifact and the fallback of its artifact. The
    broker queue is the same. *)
Definition within_job (job_id : string) (w w' : world) : Prop :=
  (forall p, p <> status_file settings job_id ->
     status_files w' !! p = status_files w !! p) /\
  (forall p, p <> job_dir settings job_id ->
     workspace_dirs w' !! p = workspace_dirs w !! p) /\
  (forall p, p <> artifact_path settings job_id -> p <> gltf_path job_id ->
     artifact_files w' !! p = artifact_files w !! p) /\
  broker w' = broker w.

Definition same_artifacts (w w' : world) : Prop :=
  artifact_files w' = artifact_files w.

(** A field of the status record of a job; the record of a job without one
    counts as empty, as [update_job_status] takes it. *)
Definition record_field (job_id k : string) (w : world) : option json :=
  default ∅ (status_files w !! status_file settings job_id) !! k.

(** The keys that the executor writes at some point of an attempt. *)
Definition executor_keys : list string :=
  stamped_keys ++ ["completed_at"; "metrics"; "error"; "traceback"].

(** The extension with which [create_job] stores the upload with index
    [i]. *)
Definition stored_ext (i : nat) (u : upload) : string :=
  or_else
    (str_lower rt
       (splitext_ext rt
          (or_else (default "" (up_filename u)) (decimal i +:+ ".jpg"))))
    ".jpg".

(** The name under which [create_job] stores the upload with index [i]. *)
Definition stored_name (i : nat) (u : upload) : string :=
  let original_filename :=
    or_else (default "" (up_filename u)) (decimal i +:+ ".jpg") in
  pad04 i +:+ or_else (str_lower rt (splitext_ext rt original_filename)) ".jpg".

(** The [images] directory of a workspace. *)
Definition images_dir (jd : string) (w : world) : directory :=
  default ∅ (default ∅ (workspace_dirs w !! jd) !! "images").

(** ** api/main.py on a file system that can refuse a name

    [save_uploads] and [create_job] take every [open(path, "wb")] to
    succeed. The name that is opened carries the extension of the client's
    file name, so the file system may refuse it. Here the loop and the
    endpoint are given once more with [open_error], the exception that
    opening a path for writing raises, if any ([ValueError] for a null byte
    in the name, [OSError] for a name that is too long). Nothing in
    [create_job] catches it. *)
Fixpoint save_uploads_fs (open_error : string -> option exn) (jd : string)
    (i : nat) (total_size : Z) (images : list upload) : M api_error Z :=
  match images with
  | [] => ret total_size
  | upload_file :: rest =>
      let original_filename :=
        or_else (default "" (up_filename upload_file)) (decimal i +:+ ".jpg") in
      let ext :=
        or_else (str_lower rt (splitext_ext rt original_filename)) ".jpg" in
      let path := os_path_join jd ["images"; pad04 i +:+ ext] in
      match open_error path with
      | Some e => raise (Unhandled e)
      | None =>
          write_ws_file jd "images" (pad04 i +:+ ext) (up_data upload_file) >>
          let file_size := Z.of_nat (length (up_data upload_file)) in
          let total_size := total_size + file_size in
          if total_size >? MAX_UPLOAD_MB settings * 1024 * 1024 then
            rmtree jd >>
            raise (Http (HTTPException 413
              ("Total upload size exceeds " +:+ z_decimal (MAX_UPLOAD_MB settings)
                 +:+ "MB limit")))
          else save_uploads_fs open_error jd (S i) total_size rest
      end
  end.

Definition create_job_fs (open_error : string -> option exn)
    (images : list upload) (options : string) (job_uuid celery_id : string)
    : M api_error job_created :=
  match json_loads rt (or_else options "{}") with
  | None => raise (Http (HTTPException 400 "Invalid JSON in options parameter"))
  | Some opts =>
      let n := Z.of_nat (length images) in
      if n <? MIN_IMAGES settings then
        raise (Http (HTTPException 400
          ("Need at least " +:+ z_decimal (MIN_IMAGES settings)
             +:+ " images for reconstruction")))
      else if n >? MAX_IMAGES settings then
        raise (Http (HTTPException 400
          ("Maximum " +:+ z_decimal (MAX_IMAGES settings) +:+ " images allowed")))
      else
        let job_id := job_uuid in
        let jd := job_dir settings job_id in
        makedirs_sub jd "images" >>
        let* total_size := save_uploads_fs open_error jd 0 0 images in
        let* created_at := utcnow_isoformat rt in
        let status_data : dict :=
          list_to_map
            [("job_id", JStr job_id);
             ("status", JStr "queued");
             ("created_at", created_at);
             ("num_images", JInt n);
             ("total_size_mb", JMB total_size);
             ("options", opts);
             ("progress", JInt 0);
             ("message", JStr "Job queued for processing")] in
        write_status_file (status_file settings job_id) status_data >>
        modify (set_broker (fun q => q ++ [Task celery_id job_id opts])) >>
        ret (JobCreated job_id celery_id "queued" "Job created successfully")
  end.

(** C10 as stated: every submission whose options parse, whose image count
    is within the bounds and whose size is within the ceiling succeeds and
    is then found [queued]. *)
Definition valid_submission_succeeds (open_error : string -> option exn) : Prop :=
  forall images options opts job_uuid celery_id w,
    json_loads rt (or_else options "{}") = Some opts ->
    MIN_IMAGES settings <= Z.of_nat (length images) <= MAX_IMAGES settings ->
    total_upload_size images <= MAX_UPLOAD_MB settings * 1024 * 1024 ->
    uuid_valid rt job_uuid = true ->
    exists w' d,
      create_job_fs open_error images options job_uuid celery_id w
        = (Returns (JobCreated job_uuid celery_id "queued" "Job created successfully"),
           w') /\
      get_job_status settings rt job_uuid w' = (Returns d, w') /\
      d !! "status" = Some (JStr "queued") /\
      d !! "progress" = Some (JInt 0).

End Further.

(** Listing a sub-directory of the workspace [jd]: its files, none when
    the directory is not there. *)
Definition ws_dir (jd sub : string) : M exn directory :=
  gets (fun w => default ∅ (default ∅ (workspace_dirs w !! jd) !! sub)).

(** * worker/pipeline/postproc.py *)

Module postproc.

(** Open3D and [json.dump], taken as parameters. Each of the two [try]
    blocks that call Open3D is given by what it does on the files it reads:
    the files it writes into the output directory, in order, and the
    exception it raises, if any ([ImportError] when Open3D is not
    installed). Reading an [.obj] may read the files beside it, so a block
    is given the whole directory of its input. *)
Record Open3D := {
  (* the try block of decimate_mesh, by the mesh directory, the name of the
     input file in it and target_triangles *)
  o3d_decimate : directory -> string -> json -> list (string * bytes) * option exn;
  (* the try block of repair_mesh, by the output directory, which holds its
     input mesh_decimated.obj *)
  o3d_repair : directory -> list (string * bytes) * option exn;
  (* the text of json.dump(metadata, f, indent=2), by the workspace, the
     name of the input mesh and the options *)
  metadata_text : string -> string -> json -> bytes
}.

Section Postproc.

Context (o3d : Open3D).

(** [find_input_mesh]. The mesh directory holds files only, so the
    recursive search lists what a plain one does. The name of the file is
    returned, not its path. *)
Definition find_input_mesh (d : directory) : option string :=
  first_some (map (glob_first d) [".obj"; ".ply"; ".mvs"]).

Fixpoint write_files (jd sub : string) (files : list (string * bytes)) : M exn unit :=
  match files with
  | [] => ret tt
  | (name, data) :: rest =>
      write_ws_file jd sub name data >> write_files jd sub rest
  end.

(** A [try] block that calls Open3D, writing into [output]. *)
Definition open3d_block (jd : string) (r : list (string * bytes) * option exn)
    : M exn unit :=
  write_files jd "output" r.1 >>
  match r.2 with
  | Some e => raise e
  | None => ret tt
  end.

(** [shutil.copy2(input_path, output_path)], from [src] in the
    sub-directory [src_sub] to [dst] in [output]. *)
Definition copy2 (jd src_sub src dst : string) : M exn unit :=
  let* d := ws_dir jd src_sub in
  match d !! src with
  | Some data => write_ws_file jd "output" dst data
  | None =>
      raise (Exn "FileNotFoundError"
        ("[Errno 2] No such file or directory: '"
           +:+ os_path_join jd [src_sub; src] +:+ "'"))
  end.

(** [decimate_mesh(input_path, output_path, options)] with the input
    [input_name] in [mesh] and the output [mesh_decimated.obj] in [output]. *)
Definition decimate_mesh (jd input_name : string) (options : json) : M exn unit :=
  let* target_tris := options_get options "target_triangles" (JInt 100000) in
  try_except
    (let* mesh_dir := ws_dir jd "mesh" in
     open3d_block jd (o3d_decimate o3d mesh_dir input_name target_tris))
    (fun _ => copy2 jd "mesh" input_name "mesh_decimated.obj").

(** [repair_mesh(input_path, output_path, options)] from
    [mesh_decimated.obj] to [mesh_textured.obj], both in [output]. *)
Definition repair_mesh (jd : string) : M exn unit :=
  try_except
    (let* output_dir := ws_dir jd "output" in
     open3d_block jd (o3d_repair o3d output_dir))
    (fun _ => copy2 jd "output" "mesh_decimated.obj" "mesh_textured.obj").

(** [run_postprocessing(mesh_dir, output_dir, options)] as the executor
    calls it, with [mesh_dir] and [output_dir] the [mesh] and [output]
    directories of the workspace [jd]. The options have come through the
    broker as JSON, so [json.dump] can write them. *)
Definition run_postprocessing (jd : string) (options : json) : M exn unit :=
  makedirs_sub jd "output" >>
  let* mesh_dir := ws_dir jd "mesh" in
  match find_input_mesh mesh_dir with
  | None =>
      raise (Exn "FileNotFoundError"
        ("No mesh found in " +:+ os_path_join jd ["mesh"]))
  | Some input_mesh =>
      decimate_mesh jd input_mesh options >>
      repair_mesh jd >>
      write_ws_file jd "output" "metadata.json"
        (metadata_text o3d jd input_mesh options)
  end.

End Postproc.

End postproc.

(** * worker/pipeline/sam_mask.py *)

Module sam_mask.

(** The Segment Anything model and OpenCV, taken as parameters. *)
Record SAM := {
  (* the exception _load_sam_or_raise() raises, if any *)
  load_sam_or_raise : option exn;
  (* the try block of the loop for one image, create_sam_mask and
     cv2.imwrite, by the name and the contents of the image: the mask file
     it writes, if any, and the exception it raises, if any *)
  sam_mask_block : string -> bytes -> option bytes * option exn
}.

Section SamMask.

Context (sam : SAM).

Definition image_extensions : list string :=
  [".jpg"; ".jpeg"; ".png"; ".JPG"; ".JPEG"; ".PNG"].

(** [glob.glob(os.path.join(images_dir, "*" + ext))]: the files of the
    directory whose names end in [ext], hidden ones left out. The directory
    holds files only. *)
Definition glob_ext (d : directory) (ext : string) : list (string * bytes) :=
  filter (fun p => has_suffix ext p.1 && negb (String.prefix "." p.1) = true)
         (map_to_list d).

(** [image_files.sort()]. The paths to sort share the directory, so they
    are in the order of the file names. *)
Fixpoint insert_sorted (p : string * bytes) (l : list (string * bytes))
    : list (string * bytes) :=
  match l with
  | [] => [p]
  | q :: rest =>
      if String.leb p.1 q.1 then p :: q :: rest
      else q :: insert_sorted p rest
  end.

Definition sort_files (l : list (string * bytes)) : list (string * bytes) :=
  foldr insert_sorted [] l.

(** The loop over [enumerate(image_files)]. *)
Fixpoint process_images (jd : string) (image_files : list (string * bytes))
    : M exn unit :=
  match image_files with
  | [] => ret tt
  | (basename, data) :: rest =>
      let image_path := os_path_join jd ["images"; basename] in
      try_except
        (let r := sam_mask_block sam basename data in
         (if r.1 is Some mask
          then write_ws_file jd "masks" basename mask else ret tt) >>
         (if r.2 is Some e then raise e else ret tt))
        (fun e =>
           raise (Exn "RuntimeError"
             ("Failed to process " +:+ image_path +:+ ": " +:+ exn_str e))) >>
      process_images jd rest
  end.

(** [run_sam_segmentation(images_dir, masks_dir)] as the executor calls it,
    with the [images] and [masks] directories of the workspace [jd]. *)
Definition run_sam_segmentation (jd : string) : M exn unit :=
  let* images := ws_dir jd "images" in
  let image_files :=
    sort_files (concat (map (glob_ext images) image_extensions)) in
  if (length image_files =? 0)%nat then
    raise (Exn "ValueError" "No images found for segmentation")
  else
    makedirs_sub jd "masks" >>
    (if load_sam_or_raise sam is Some e then raise e else ret tt) >>
    process_images jd image_files.

End SamMask.

End sam_mask.

(** The names that [run_sam_segmentation] takes for images. *)
Definition image_name (name : string) : bool :=
  existsb (fun ext => has_suffix ext name) sam_mask.image_extensions &&
  negb (String.prefix "." name).

(** [w'] differs from [w] at most in the [masks] directory of the
    workspace [jd]. *)
Definition within_masks (jd : string) (w w' : world) : Prop :=
  same_but_workspaces w w' /\
  (forall p, p <> jd -> workspace_dirs w' !! p = workspace_dirs w !! p) /\
  (forall sub, sub <> "masks" ->
     default ∅ (workspace_dirs w' !! jd) !! sub
     = default ∅ (workspace_dirs w !! jd) !! sub).

(** The names that [find_input_mesh] looks for. *)
Definition input_mesh_name (name : string) : bool :=
  has_suffix ".obj" name || has_suffix ".ply" name || has_suffix ".mvs" name.

(** [w'] differs from [w] at most in the [output] directory of the
    workspace [jd]. *)
Definition within_output (jd : string) (w w' : world) : Prop :=
  same_but_workspaces w w' /\
  (forall p, p <> jd -> workspace_dirs w' !! p = workspace_dirs w !! p) /\
  (forall sub, sub <> "output" ->
     default ∅ (workspace_dirs w' !! jd) !! sub
     = default ∅ (workspace_dirs w !! jd) !! sub).

(** The files of a sub-directory of the workspace [jd]; none when the
    directory is not there. *)
Definition files_of (jd sub : string) (w : world) : directory :=
  default ∅ (default ∅ (workspace_dirs w !! jd) !! sub).

(** A world in which the workspace [jd] holds one file. *)
Definition one_file_world (jd sub name : string) (data : bytes) : world :=
  World ∅ {[ jd := {[ sub := {[ name := data ]} ]} ]} ∅ [] 0 [].

(** ** Further concrete inputs *)

(** A client file name with a null byte in its extension, and what
    [os.path.splitext] and [str.lower] make of it. *)
Definition null_byte : string := String (ascii_of_nat 0) "".
Definition hostile_name : string := "a.j" +:+ null_byte +:+ "pg".
Definition hostile_ext : string := ".j" +:+ null_byte +:+ "pg".

Definition hostile_runtime : Runtime :=
  variant_runtime (run_openmvs_pipeline good_runtime) (utcnow good_runtime)
    (fun name => if String.eqb name hostile_name then hostile_ext else ".jpg")
    (fun s => s).

Definition hostile_images : list upload :=
  [Upload (Some hostile_name) []; Upload None []].

(** [open] as POSIX has it for a null byte in the path. *)
Definition posix_open (path : string) : option exn :=
  match index 0 null_byte path with
  | Some _ => Some (Exn "ValueError" "embedded null byte")
  | None => None
  end.

Definition other_job : string := "00000000-0000-4000-8000-000000000001".

(** A runtime whose GLB export raises after writing one byte, and whose
    GLTF export works. *)
Definition partial_glb_runtime : Runtime :=
  demo_runtime None (ExportRaises glb_error (Some [Byte.x67])) (Exported [Byte.x7b])
    (fun _ => Returns (LTrimesh demo_mesh)).

(** The world just before the export, in three runs of [demo_job]. *)
Abbreviation world_ready_to_export :=
  ((before_export demo_settings good_runtime demo_job (JObj [])
     submitted_world).2).

Abbreviation world_before_partial_export :=
  ((before_export demo_settings partial_glb_runtime demo_job (JObj [])
     submitted_world).2).

Abbreviation world_where_mvs_raised :=
  ((before_export demo_settings failing_mvs_runtime demo_job (JObj [])
     submitted_world).2).

Definition demo_mesh_dir : directory :=
  {[ "scene.ply" := [Byte.x70]; "scene.obj" := [Byte.x6f] ]}.

Definition import_error : exn := Exn "ImportError" "No module named 'open3d'".

(** Open3D not installed: both blocks raise at the import. *)
Definition absent_open3d : postproc.Open3D :=
  {| postproc.o3d_decimate := fun _ _ _ => ([], Some import_error);
     postproc.o3d_repair := fun _ => ([], Some import_error);
     postproc.metadata_text := fun _ _ _ => [Byte.x7b; Byte.x7d] |}.

(** A model that loads and writes, as the mask of an image, its bytes. *)
Definition demo_sam : sam_mask.SAM :=
  {| sam_mask.load_sam_or_raise := None;
     sam_mask.sam_mask_block := fun _ data => (Some data, None) |}.

Definition checkpoint_error : exn :=
  Exn "FileNotFoundError"
    "SAM checkpoint not configured or missing; set settings.SAM_CHECKPOINT_PATH.".

Definition unloaded_sam : sam_mask.SAM :=
  {| sam_mask.load_sam_or_raise := Some checkpoint_error;
     sam_mask.sam_mask_block := fun _ data => (Some data, None) |}.

(** A world in which the workspace of [demo_job] holds a raw mesh. *)
Definition meshed_world : world :=
  one_file_world (job_dir demo_settings demo_job) "mesh" "scene.ply" [Byte.x70].

(** The world after segmentation of the images of [demo_job]. *)
Abbreviation world_after_segmentation :=
  ((sam_mask.run_sam_segmentation demo_sam (job_dir demo_settings demo_job)
      submitted_world).2).

(** The world after the first, failing attempt with [flaky_mvs_runtime], and
    after the second attempt. *)
Abbreviation world_after_failed_attempt :=
  ((run_reconstruction demo_settings flaky_mvs_runtime 0 demo_job (JObj [])
      submitted_world).2).

Abbreviation world_after_retry :=
  ((run_reconstruction demo_settings flaky_mvs_runtime 1 demo_job (JObj [])
      world_after_failed_attempt).2).

Definition retried_result : dict :=
  match (run_reconstruction demo_settings flaky_mvs_runtime 1 demo_job (JObj [])
           world_after_failed_attempt).1 with
  | Returns r => r
  | Raises _ => ∅
  end.

(** [demo_job] submitted and run to completion under [lagging_clock]. *)
Abbreviation world_submitted_ahead :=
  ((create_job demo_settings lagging_clock_runtime demo_images "{}" demo_job
      "celery-1" empty_world).2).

Abbreviation world_completed_behind :=
  ((run_reconstruction demo_settings lagging_clock_runtime 0 demo_job (JObj [])
      world_submitted_ahead).2).

Definition lagging_result : dict :=
  match (run_reconstruction demo_settings lagging_clock_runtime 0 demo_job
           (JObj []) world_submitted_ahead).1 with
  | Returns r => r
  | Raises _ => ∅
  end.

(** * Properties *)

Section Properties.

Context (settings : Settings) (rt : Runtime).

(** ** Submission *)

Lemma total_upload_size_nonneg images : 0 <= total_upload_size images.
Proof. induction images as [|u rest IH]; simpl; lia. Qed.

Lemma dict_truthy_lookup (d : dict) k v : d !! k = Some v -> dict_truthy d = true.
Proof.
  intros H. unfold dict_truthy.
  destruct (map_to_list d) as [|p l] eqn:E; [|done].
  apply map_to_list_empty_iff in E. subst d. by rewrite lookup_empty in H.
Qed.

Lemma world_eta w :
  World (status_files w) (workspace_dirs w) (artifact_files w) (broker w)
        (ticks w) (status_log w) = w.
Proof. by destruct w. Qed.


Lemma save_uploads_frame images : forall jd i total w r w',
  save_uploads settings rt jd i total images w = (r, w') ->
  same_but_workspaces w w' /\
  (forall p, p <> jd -> workspace_dirs w' !! p = workspace_dirs w !! p) /\
  match r with
  | Returns t => t = total + total_upload_size images
  | Raises e =>
      e = too_large settings /\ workspace_dirs w' !! jd = None /\
      MAX_UPLOAD_MB settings * 1024 * 1024 < total + total_upload_size images
  end.
Proof.
  induction images as [|u rest IH]; intros jd i total w r w' H.
  - injection H as <- <-. repeat split. simpl; lia.
  - cbn [save_uploads] in H. unfold bind at 1 in H.
    cbv beta iota zeta delta [write_ws_file modify] in H.
    pose proof (total_upload_size_nonneg rest) as Hnn.
    destruct (Z.gtb_spec (total + Z.of_nat (length (up_data u)))
                (MAX_UPLOAD_MB settings * 1024 * 1024)) as [Hgt|Hle].
    + cbv beta iota zeta delta [bind rmtree modify raise] in H.
      injection H as <- <-. destruct w; cbn [total_upload_size]; cbn.
      split; [by repeat split|]. split.
      * intros p Hp. by rewrite lookup_delete_ne, lookup_insert_ne.
      * split; [done|]. rewrite lookup_delete_eq. split; [done|]. lia.
    + apply IH in H as (Hs & Hp & Hr).
      destruct w; cbn [total_upload_size] in *; cbn in Hs, Hp. split; [done|]. split.
      * intros p Hne. rewrite (Hp p Hne). by rewrite lookup_insert_ne.
      * destruct r; [lia|]. destruct Hr as (-> & Hn & Hlt). repeat split; [done|lia].
Qed.

Lemma save_uploads_within_limit images : forall jd i total w,
  total + total_upload_size images <= MAX_UPLOAD_MB settings * 1024 * 1024 ->
  exists w',
    save_uploads settings rt jd i total images w
      = (Returns (total + total_upload_size images), w').
Proof.
  intros jd i total w Hle.
  destruct (save_uploads settings rt jd i total images w) as [r w'] eqn:H.
  exists w'. pose proof (save_uploads_frame _ _ _ _ _ _ _ H) as (_ & _ & Hr).
  destruct r as [t|e]; [by subst t|]. destruct Hr as (_ & _ & Hlt). lia.
Qed.


Lemma makedirs_sub_frame {E} jd sub w :
  exists w', @makedirs_sub E jd sub w = (Returns tt, w') /\
    same_but_workspaces w w' /\
    (forall p, p <> jd -> workspace_dirs w' !! p = workspace_dirs w !! p) /\
    is_Some (workspace_dirs w' !! jd).
Proof.
  eexists. split; [reflexivity|]. destruct w; cbn.
  split; [by repeat split|]. split.
  - intros p Hp. by rewrite lookup_insert_ne.
  - rewrite lookup_insert_eq. eauto.
Qed.

(** C5. When [create_job] rejects a submission (400 for options that do not
    parse or an image count out of bounds, 413 for an upload over the
    ceiling), the status store, the artifacts, the broker queue and the
    clock are as before: no record is written and no task is enqueued.
    A 400 leaves the whole world untouched; a 413 leaves no workspace for
    the job id and touches no other workspace; and when the job id was
    fresh, the world after the call is the world before it. *)
Theorem rejected_submission_leaves_nothing (images : list upload)
    (options job_uuid celery_id : string) (w w' : world) (e : http_error) :
  create_job settings rt images options job_uuid celery_id w = (Raises e, w') ->
  (status_code e = 400 \/ status_code e = 413) /\
  same_but_workspaces w w' /\
  (forall p, p <> job_dir settings job_uuid ->
     workspace_dirs w' !! p = workspace_dirs w !! p) /\
  (status_code e = 400 -> w' = w) /\
  (status_code e = 413 -> workspace_dirs w' !! job_dir settings job_uuid = None) /\
  (workspace_dirs w !! job_dir settings job_uuid = None -> w' = w).
Proof.
  unfold create_job.
  destruct (json_loads rt (or_else options "{}")) as [opts|].
  2:{ intros [= <- <-]. cbn. repeat split; auto. discriminate. }
  destruct (Z.ltb_spec (Z.of_nat (length images)) (MIN_IMAGES settings)).
  { intros [= <- <-]. cbn. repeat split; auto. discriminate. }
  destruct (Z.gtb_spec (Z.of_nat (length images)) (MAX_IMAGES settings)).
  { intros [= <- <-]. cbn. repeat split; auto. discriminate. }
  unfold bind at 1.
  destruct (makedirs_sub_frame (E:=http_error) (job_dir settings job_uuid) "images" w)
    as (w1 & -> & Hs1 & Hp1 & _).
  unfold bind at 1.
  destruct (save_uploads settings rt (job_dir settings job_uuid) 0 0 images w1)
    as [[t|e'] w2] eqn:Hup.
  { cbv beta iota zeta delta [bind utcnow_isoformat save_job_status
      write_status_file modify ret]. discriminate. }
  intros [= <- <-].
  apply save_uploads_frame in Hup as (Hs2 & Hp2 & -> & Hnone & _).
  unfold too_large; cbn [status_code].
  destruct Hs1 as (?&?&?&?&?), Hs2 as (?&?&?&?&?).
  split; [by right|]. split; [repeat split; congruence|]. split.
  { intros p Hp. by rewrite Hp2, Hp1. }
  split; [discriminate|]. split; [done|].
  intros Hfresh. destruct w as [sf wd af q t lg], w2 as [sf2 wd2 af2 q2 t2 lg2].
  cbn [status_files workspace_dirs artifact_files broker ticks status_log] in *.
  f_equal; try congruence.
  apply map_eq. intros p. destruct (decide (p = job_dir settings job_uuid)) as [->|Hne].
  - by rewrite Hnone, Hfresh.
  - by rewrite Hp2, Hp1.
Qed.


Lemma save_uploads_over_limit images : forall jd i total w,
  images <> [] ->
  MAX_UPLOAD_MB settings * 1024 * 1024 < total + total_upload_size images ->
  exists w',
    save_uploads settings rt jd i total images w = (Raises (too_large settings), w').
Proof.
  induction images as [|u rest IH]; intros jd i total w Hne Hlt; [done|].
  cbn [save_uploads total_upload_size] in *. unfold bind at 1.
  cbv beta iota zeta delta [write_ws_file modify].
  destruct (Z.gtb_spec (total + Z.of_nat (length (up_data u)))
              (MAX_UPLOAD_MB settings * 1024 * 1024)) as [Hgt|Hle].
  - eexists. reflexivity.
  - destruct rest as [|u' rest'].
    + cbn [total_upload_size] in Hlt. lia.
    + apply IH; [done | lia].
Qed.

(** Each cause of rejection named in C5 makes [create_job] raise. *)
Lemma invalid_submission_is_rejected (images : list upload)
    (options job_uuid celery_id : string) (w : world) :
  json_loads rt (or_else options "{}") = None \/
  Z.of_nat (length images) < MIN_IMAGES settings \/
  MAX_IMAGES settings < Z.of_nat (length images) \/
  (images <> [] /\
   MAX_UPLOAD_MB settings * 1024 * 1024 < total_upload_size images) ->
  exists e w',
    create_job settings rt images options job_uuid celery_id w = (Raises e, w').
Proof.
  intros Hbad. unfold create_job.
  destruct (json_loads rt (or_else options "{}")) as [opts|]; [|by eexists _, _].
  destruct (Z.ltb_spec (Z.of_nat (length images)) (MIN_IMAGES settings));
    [by eexists _, _|].
  destruct (Z.gtb_spec (Z.of_nat (length images)) (MAX_IMAGES settings));
    [by eexists _, _|].
  destruct Hbad as [Hbad|[Hbad|[Hbad|[Hne Hbig]]]]; [done|lia|lia|].
  unfold bind at 1.
  destruct (makedirs_sub_frame (E:=http_error) (job_dir settings job_uuid) "images" w)
    as (w1 & -> & _).
  unfold bind at 1.
  destruct (save_uploads_over_limit images (job_dir settings job_uuid) 0%nat 0 w1
              Hne ltac:(lia)) as (w2 & ->).
  by eexists _, _.
Qed.

(** ** Artifact fetch *)

(** The answer of [get_artifact] for a well-formed id with a record. *)
Lemma get_artifact_cases (job_id : string) (w : world) (d : dict) :
  uuid_valid rt job_id = true ->
  status_files w !! status_file settings job_id = Some d ->
  dict_truthy d = true ->
  get_artifact settings rt job_id w =
    if json_eq_str (d !! "status") "completed" then
      match artifact_files w !! artifact_path settings job_id with
      | Some body =>
          (Returns (FileResponse (artifact_path settings job_id)
                      "model/gltf-binary"
                      ("atlas-" +:+ job_id +:+ ".glb") body), w)
      | None => (Raises (HTTPException 404 "Artifact file not found"), w)
      end
    else (Raises (HTTPException 409
                    ("Job not completed yet. Current status: "
                       +:+ current_status rt d)), w).
Proof.
  intros Hid Hd Htruthy.
  unfold get_artifact. rewrite Hid. cbn [negb].
  unfold bind at 1, get_job_status_helper, gets at 1. rewrite Hd, Htruthy.
  cbn [negb]. destruct (json_eq_str (d !! "status") "completed"); cbn [negb].
  - unfold bind, gets. by destruct (artifact_files w !! _).
  - done.
Qed.

(** C8. For a well-formed job id with a status record: the model file is
    returned only when the status is [completed] (and then it is the file
    at the artifact path); in any other status the answer is 409 and its
    message ends with the current status; with status [completed] and no
    file at the artifact path the answer is 404. The world is left as
    it was in every case. *)
Theorem get_artifact_by_status (job_id : string) (w : world) (d : dict) :
  uuid_valid rt job_id = true ->
  status_files w !! status_file settings job_id = Some d ->
  dict_truthy d = true ->
  (forall r w',
     get_artifact settings rt job_id w = (Returns r, w') ->
     d !! "status" = Some (JStr "completed") /\
     artifact_files w !! artifact_path settings job_id = Some (fr_body r) /\
     w' = w) /\
  (d !! "status" = Some (JStr "completed") ->
     get_artifact settings rt job_id w =
       match artifact_files w !! artifact_path settings job_id with
       | Some body =>
           (Returns (FileResponse (artifact_path settings job_id)
                       "model/gltf-binary"
                       ("atlas-" +:+ job_id +:+ ".glb") body), w)
       | None => (Raises (HTTPException 404 "Artifact file not found"), w)
       end) /\
  (forall s, d !! "status" = Some (JStr s) -> s <> "completed" ->
     get_artifact settings rt job_id w =
       (Raises (HTTPException 409
                  ("Job not completed yet. Current status: " +:+ s)), w)) /\
  (d !! "status" = None ->
     get_artifact settings rt job_id w =
       (Raises (HTTPException 409
                  "Job not completed yet. Current status: unknown"), w)).
Proof.
  intros Hid Hd Htruthy.
  rewrite (get_artifact_cases _ _ _ Hid Hd Htruthy).
  split; [|split; [|split]].
  - intros r w'. unfold json_eq_str.
    destruct (d !! "status") as [[| | | |s| | | |]|]; try discriminate.
    destruct (String.eqb_spec s "completed") as [->|]; [|discriminate].
    destruct (artifact_files w !! _) as [body|]; [|discriminate].
    by intros [= <- <-].
  - by intros ->.
  - intros s Hs Hne. unfold json_eq_str, current_status. rewrite Hs.
    destruct (String.eqb_spec s "completed") as [Heq|_]; [by destruct Hne | reflexivity].
  - unfold current_status. by intros ->.
Qed.

(** ** Deletion *)

Lemma delete_job_result (job_id : string) (w : world) :
  uuid_valid rt job_id = true ->
  delete_job settings rt job_id w =
    (Returns ("Job " +:+ job_id +:+ " deleted successfully"), purged settings job_id w).
Proof.
  intros Hid. destruct w as [sf wd af q t lg].
  unfold delete_job, purged. rewrite Hid. cbn [negb].
  cbv beta iota zeta delta [bind gets modify rmtree ret set_workspace_dirs
      set_artifact_files set_status_files workspace_dirs artifact_files
      status_files broker ticks status_log].
  destruct (wd !! job_dir settings job_id) eqn:Hw;
    destruct (af !! artifact_path settings job_id) eqn:Ha;
    destruct (sf !! status_file settings job_id) eqn:Hs;
    rewrite ?(delete_id _ _ Hw), ?(delete_id _ _ Ha), ?(delete_id _ _ Hs);
    reflexivity.
Qed.

(** C9. Deleting a job with a well-formed id succeeds whatever is on disk;
    a second deletion succeeds as well and changes nothing; afterwards the
    workspace directory, the artifact file and the status record of the job
    are all absent. *)
Theorem delete_job_idempotent (job_id : string) (w : world) :
  uuid_valid rt job_id = true ->
  let msg := "Job " +:+ job_id +:+ " deleted successfully" in
  exists w1,
    delete_job settings rt job_id w = (Returns msg, w1) /\
    delete_job settings rt job_id w1 = (Returns msg, w1) /\
    workspace_dirs w1 !! job_dir settings job_id = None /\
    artifact_files w1 !! artifact_path settings job_id = None /\
    status_files w1 !! status_file settings job_id = None.
Proof.
  intros Hid msg. exists (purged settings job_id w).
  split; [apply delete_job_result, Hid |].
  split.
  - rewrite (delete_job_result _ _ Hid). unfold purged; cbn.
    by rewrite !delete_delete_eq.
  - unfold purged; cbn. by rewrite !lookup_delete_eq.
Qed.

(** ** The status writer and the executor *)

(** Closes [k ∉ stamped_keys] for a literal key [k]. *)
Ltac other_key :=
  unfold stamped_keys; rewrite !not_elem_of_cons;
  repeat split; [discriminate.. | apply not_elem_of_nil].

Ltac run_m :=
  cbv beta iota zeta delta
    [bind ret raise gets modify lift try_except utcnow_isoformat
     write_status_file write_artifact write_ws_file makedirs_sub rmtree
     set_status_files set_workspace_dirs set_artifact_files set_broker
     set_ticks set_status_log];
  cbn [status_files workspace_dirs artifact_files broker ticks status_log
       fst snd].

Lemma update_job_status_run job_id status progress message kwargs w :
  exists w',
    update_job_status settings rt job_id status progress message kwargs w = (Returns tt, w') /\
    view_of settings job_id w' = write_view settings rt job_id status progress message kwargs (view_of settings job_id w) /\
    workspace_dirs w' = workspace_dirs w /\
    artifact_files w' = artifact_files w /\
    broker w' = broker w /\
    (forall p, p <> status_file settings job_id -> status_files w' !! p = status_files w !! p).
Proof.
  destruct w. unfold update_job_status. run_m.
  eexists. split; [reflexivity|].
  unfold view_of, write_view, stamped. run_m. cbn [sv_record sv_ticks sv_log].
  rewrite lookup_insert_eq. repeat split; try done.
  intros p Hp. by rewrite lookup_insert_ne.
Qed.

Lemma follows_plan_bind {A B} job_id (m : M exn A) (k : A -> M exn B) p1 p2 :
  follows_plan settings rt job_id m p1 ->
  (forall a, follows_plan settings rt job_id (k a) p2) ->
  follows_plan settings rt job_id (bind m k) (p1 ++ p2).
Proof.
  intros Hm Hk w. destruct (Hm w) as (k1 & Hle & Hv & Hr).
  unfold bind. destruct (m w) as [[a|e] w1]; cbn [fst snd] in *.
  - specialize (Hr eq_refl). subst k1.
    destruct (Hk a w1) as (k2 & Hle2 & Hv2 & Hr2).
    exists (length p1 + k2)%nat. split; [rewrite length_app; lia|]. split.
    + rewrite Hv2, Hv. rewrite take_app_add'  by done. rewrite firstn_all.
      unfold replay. by rewrite foldl_app.
    + intros H. rewrite length_app. rewrite (Hr2 H). done.
  - exists k1. split; [rewrite length_app; lia|]. split; [|done].
    rewrite Hv. by rewrite take_app_le by lia.
Qed.

Lemma quiet_ret {E A} (a : A) : quiet (@ret E A a).
Proof. by intros w. Qed.

Lemma quiet_raise {E A} (e : E) : quiet (@raise E A e).
Proof. by intros w. Qed.

Lemma quiet_lift {A} (r : outcome exn A) : quiet (lift r).
Proof. by intros w. Qed.

Lemma quiet_gets {E A} (f : world -> A) : quiet (@gets E A f).
Proof. by intros w. Qed.

Lemma quiet_bind {E A B} (m : M E A) (k : A -> M E B) :
  quiet m -> (forall a, quiet (k a)) -> quiet (bind m k).
Proof.
  intros Hm Hk w. unfold bind. specialize (Hm w).
  destruct (m w) as [[a|e] w1]; cbn [snd] in *; [|done].
  specialize (Hk a w1). destruct (k a w1) as [r w2]; cbn [snd] in *.
  destruct Hm as (?&?&?&?); repeat split; intuition congruence.
Qed.

Lemma quiet_try_except {E A} (m : M E A) (h : E -> M E A) :
  quiet m -> (forall e, quiet (h e)) -> quiet (try_except m h).
Proof.
  intros Hm Hh w. unfold try_except. specialize (Hm w).
  destruct (m w) as [[a|e] w1]; cbn [snd] in *; [done|].
  specialize (Hh e w1). destruct (h e w1) as [r w2]; cbn [snd] in *.
  destruct Hm as (?&?&?&?); repeat split; intuition congruence.
Qed.

Lemma quiet_workspaces {E} f : quiet (@modify E (set_workspace_dirs f)).
Proof. by intros []. Qed.

Lemma quiet_artifacts {E} f : quiet (@modify E (set_artifact_files f)).
Proof. by intros []. Qed.

Lemma quiet_run_adapter jd adapter : quiet (run_adapter jd adapter).
Proof.
  intros [sf0 wd af q t lg]. unfold run_adapter.
  destruct (adapter _) as [[e|] ws]; done.
Qed.

Create HintDb quiet.
#[local] Hint Resolve quiet_ret quiet_raise quiet_lift quiet_gets
  quiet_workspaces quiet_artifacts quiet_run_adapter : quiet.

Ltac quiet_step :=
  match goal with
  | |- quiet (bind _ _) => apply quiet_bind; [|intros]
  | |- quiet (try_except _ _) => apply quiet_try_except; [|intros]
  | |- quiet (match ?x with _ => _ end) => destruct x
  | |- quiet (if ?x then _ else _) => destruct x
  | |- quiet _ => solve [auto with quiet]
  end.

Lemma quiet_makedirs_sub {E} jd sub : quiet (@makedirs_sub E jd sub).
Proof. apply quiet_workspaces. Qed.

Lemma quiet_write_ws_file {E} jd sub name data : quiet (@write_ws_file E jd sub name data).
Proof. apply quiet_workspaces. Qed.

Lemma quiet_write_artifact {E} path data : quiet (@write_artifact E path data).
Proof. apply quiet_artifacts. Qed.

#[local] Hint Resolve quiet_makedirs_sub quiet_write_ws_file quiet_write_artifact : quiet.

Lemma quiet_make_white_masks jd imgs : quiet (make_white_masks rt jd imgs).
Proof.
  induction imgs as [|[name data] rest IH]; cbn [make_white_masks];
    repeat quiet_step.
Qed.

Lemma quiet_options_get options key dflt : quiet (options_get options key dflt).
Proof. unfold options_get. repeat quiet_step. Qed.

#[local] Hint Resolve quiet_make_white_masks quiet_options_get : quiet.

Lemma quiet_prepare_trimesh mesh path options :
  quiet (prepare_trimesh rt mesh path options).
Proof. unfold prepare_trimesh. repeat quiet_step. Qed.

#[local] Hint Resolve quiet_prepare_trimesh : quiet.

Lemma quiet_load_mesh jd options : quiet (load_mesh rt jd options).
Proof. unfold load_mesh. repeat quiet_step. Qed.

Lemma quiet_export_to mesh path file_type : quiet (export_to rt mesh path file_type).
Proof. unfold export_to. repeat quiet_step. Qed.

#[local] Hint Resolve quiet_load_mesh quiet_export_to : quiet.

Lemma quiet_export_glb jd output_path options :
  quiet (export_glb rt jd output_path options).
Proof. unfold export_glb, export_with_fallback. repeat quiet_step. Qed.

Lemma quiet_compute_qa_metrics glb_path : quiet (compute_qa_metrics rt glb_path).
Proof. unfold compute_qa_metrics. repeat quiet_step. Qed.

#[local] Hint Resolve quiet_export_glb quiet_compute_qa_metrics : quiet.

Lemma quiet_view {A} job_id (m : M exn A) w :
  quiet m -> view_of settings job_id (m w).2 = view_of settings job_id w.
Proof. intros H. destruct (H w) as (H1 & H2 & H3 & _). unfold view_of. by rewrite H1, H2, H3. Qed.


(** *** The announcements of the executor *)

Lemma follows_quiet {A} job_id (m : M exn A) :
  quiet m -> follows_plan settings rt job_id m [].
Proof.
  intros H w. exists 0%nat. split; [done|]. split; [|done].
  by rewrite (quiet_view job_id m w H).
Qed.

Lemma follows_update job_id progress message :
  follows_plan settings rt job_id
    (update_job_status settings rt job_id "processing" progress message [])
    [(progress, message)].
Proof.
  intros w. exists 1%nat. split; [done|].
  destruct (update_job_status_run job_id "processing" progress message [] w)
    as (w' & -> & Hv & _).
  by split.
Qed.

Lemma follows_announce {B} job_id progress message (k : M exn B) plan :
  follows_plan settings rt job_id k plan ->
  follows_plan settings rt job_id
    (bind (update_job_status settings rt job_id "processing" progress message [])
          (fun _ => k))
    ((progress, message) :: plan).
Proof.
  intros Hk. apply (follows_plan_bind job_id _ _ [(progress, message)] plan);
    [apply follows_update | by intros _].
Qed.

Lemma follows_quietly {A B} job_id (m : M exn A) (k : A -> M exn B) plan :
  quiet m -> (forall a, follows_plan settings rt job_id (k a) plan) ->
  follows_plan settings rt job_id (bind m k) plan.
Proof.
  intros Hm Hk. apply (follows_plan_bind job_id _ _ [] plan); [|done].
  by apply follows_quiet.
Qed.

Lemma follows_stage_masks job_id :
  follows_plan settings rt job_id (stage_masks settings rt job_id)
    (if ENABLE_SAM_SEGMENTATION settings
     then [(10, "Running SAM segmentation...")] else []).
Proof.
  unfold stage_masks. destruct (ENABLE_SAM_SEGMENTATION settings).
  - rewrite <- (app_nil_r [_]). apply follows_plan_bind; [apply follows_update|].
    intros _. apply follows_quiet. auto with quiet.
  - apply follows_quiet. repeat quiet_step.
Qed.

(** The [try] block up to the export is the first status write followed by
    work that follows the announcements. *)
Lemma before_export_split job_id options :
  exists rest : M exn unit,
    (forall w, before_export settings rt job_id options w =
       bind (update_job_status settings rt job_id "processing" 0 "Pipeline started" [])
            (fun _ => rest) w) /\
    follows_plan settings rt job_id rest (announcements settings).
Proof.
  eexists. split; [intros w; unfold before_export; reflexivity|].
  cbv zeta. unfold announcements.
  do 5 (apply follows_quietly; [auto with quiet | intros _]).
  apply follows_plan_bind; [apply follows_stage_masks | intros _].
  apply follows_announce.
  apply follows_quietly; [auto with quiet | intros _].
  apply follows_announce.
  apply follows_quietly; [auto with quiet | intros _].
  apply follows_announce.
  apply follows_quietly; [auto with quiet | intros _].
  apply follows_update.
Qed.

(** What the stages do to the status view, whatever happens in them: the
    first write, then a prefix of the announcements, all of them when the
    stages return. *)
Lemma run_stages_view job_id options w :
  exists k,
    (k <= length (announcements settings))%nat /\
    view_of settings job_id (run_stages settings rt job_id options w).2 =
      replay settings rt job_id (view_of settings job_id w)
        (first_announcement :: take k (announcements settings)) /\
    (is_returns (run_stages settings rt job_id options w).1 = true ->
       k = length (announcements settings)).
Proof.
  destruct (before_export_split job_id options) as (rest & Heq & Hrest).
  assert (Hall : follows_plan settings rt job_id
            (bind rest (fun _ => export_glb rt (job_dir settings job_id)
                                   (artifact_path settings job_id) options))
            (announcements settings)).
  { rewrite <- (app_nil_r (announcements settings)).
    apply follows_plan_bind; [done | intros _].
    apply follows_quiet. auto with quiet. }
  destruct (update_job_status_run job_id "processing" 0 "Pipeline started" [] w)
    as (w0 & Hupd & Hv0 & _).
  assert (Hrun : run_stages settings rt job_id options w =
            bind rest (fun _ => export_glb rt (job_dir settings job_id)
                                  (artifact_path settings job_id) options) w0).
  { unfold run_stages, bind. rewrite Heq. unfold bind. by rewrite Hupd. }
  rewrite Hrun.
  destruct (Hall w0) as (k & Hle & Hv & Hr). exists k.
  split; [done|]. split; [|done]. by rewrite Hv, Hv0.
Qed.


(** *** The end of an attempt *)

(** [compute_qa_metrics] never raises and changes nothing; without an
    artifact it returns the defaults, and when the artifact cannot be loaded
    the defaults with the file size filled in. *)
Lemma compute_qa_metrics_total glb_path w :
  exists m,
    compute_qa_metrics rt glb_path w = (Returns m, w) /\
    (artifact_files w !! glb_path = None -> m = default_metrics) /\
    (forall data e,
       artifact_files w !! glb_path = Some data ->
       trimesh_load rt data = Raises e ->
       m = QAMetrics (JMB (Z.of_nat (length data))) (JInt 0) (JInt 0)
             JNull JNull (JStr "medium")).
Proof.
  unfold compute_qa_metrics. run_m.
  destruct (artifact_files w !! glb_path) as [data|] eqn:Hglb.
  - eexists. split; [reflexivity|]. split; [done|].
    intros data' e [= <-] Hload. unfold analyze_glb. by rewrite Hload.
  - eexists. split; [reflexivity|]. split; [done|]. done.
Qed.

Lemma run_reconstruction_returns retries job_id options w w1 :
  run_stages settings rt job_id options w = (Returns tt, w1) ->
  exists m result w2,
    compute_qa_metrics rt (artifact_path settings job_id) w1 = (Returns m, w1) /\
    run_reconstruction settings rt retries job_id options w = (Returns result, w2) /\
    view_of settings job_id w2 =
      write_view settings rt job_id "completed" 100 "Reconstruction complete"
        (completed_kwargs (utcnow rt (ticks w1)) m)
        (tick (view_of settings job_id w1)) /\
    workspace_dirs w2 = workspace_dirs w1 /\
    artifact_files w2 = artifact_files w1 /\
    broker w2 = broker w1.
Proof.
  intros Hst.
  destruct (compute_qa_metrics_total (artifact_path settings job_id) w1)
    as (m & Hm & _).
  unfold run_reconstruction, try_except, bind at 1. rewrite Hst.
  unfold finish_job, bind at 1. rewrite Hm.
  unfold bind at 1. unfold utcnow_isoformat at 1.
  unfold bind at 1.
  destruct (update_job_status_run job_id "completed" 100 "Reconstruction complete"
              (completed_kwargs (utcnow rt (ticks w1)) m) (set_ticks S w1))
    as (w2 & Hupd & Hv & Hws & Haf & Hbr & _).
  unfold completed_kwargs in Hupd. rewrite Hupd. unfold ret.
  exists m. eexists _, w2. split; [done|]. split; [reflexivity|].
  split; [|by destruct w1].
  rewrite Hv. by destruct w1.
Qed.

Lemma run_reconstruction_raises retries job_id options w exc w1 :
  run_stages settings rt job_id options w = (Raises exc, w1) ->
  exists w2,
    run_reconstruction settings rt retries job_id options w = (Raises exc, w2) /\
    view_of settings job_id w2 =
      write_view settings rt job_id "failed" (retries * 10)
        ("Error: " +:+ exn_str exc) (failed_kwargs rt exc)
        (view_of settings job_id w1) /\
    workspace_dirs w2 = workspace_dirs w1 /\
    artifact_files w2 = artifact_files w1 /\
    broker w2 = broker w1.
Proof.
  intros Hst.
  unfold run_reconstruction, try_except, bind at 1. rewrite Hst.
  unfold on_exception, bind at 1.
  destruct (update_job_status_run job_id "failed" (retries * 10)
              ("Error: " +:+ exn_str exc) (failed_kwargs rt exc) w1)
    as (w2 & Hupd & Hv & Hws & Haf & Hbr & _).
  unfold failed_kwargs in Hupd. rewrite Hupd. unfold raise.
  exists w2. by repeat split.
Qed.


(** *** Reading the records that were written *)

Lemma dict_update_lookup (d : dict) upd k :
  dict_update d upd !! k =
    match assoc_last k upd with Some v => Some v | None => d !! k end.
Proof.
  unfold dict_update. revert d.
  induction upd as [|[k' v] rest IH]; intros d; [done|].
  cbn [foldl assoc_last fst snd]. rewrite IH.
  destruct (assoc_last k rest); [done|].
  destruct (String.eqb_spec k' k) as [->|Hne].
  - by rewrite lookup_insert_eq.
  - by rewrite lookup_insert_ne.
Qed.

Lemma stamped_status status progress message v :
  stamped rt status progress message [] v !! "status" = Some (JStr status).
Proof. unfold stamped. by rewrite dict_update_lookup. Qed.

Lemma stamped_progress status progress message v :
  stamped rt status progress message [] v !! "progress" = Some (JInt progress).
Proof. unfold stamped. by rewrite dict_update_lookup. Qed.

Lemma assoc_last_app k (l1 l2 : list (string * json)) :
  assoc_last k (l1 ++ l2) =
    match assoc_last k l2 with Some v => Some v | None => assoc_last k l1 end.
Proof.
  induction l1 as [|[k' v] rest IH]; cbn [app assoc_last].
  - by destruct (assoc_last k l2).
  - rewrite IH. by destruct (assoc_last k l2).
Qed.

Lemma stamped_other status progress message kwargs v k :
  k ∉ stamped_keys -> assoc_last k kwargs = None ->
  stamped rt status progress message kwargs v !! k = default ∅ (sv_record v) !! k.
Proof.
  intros Hk Hkw. unfold stamped. rewrite dict_update_lookup, assoc_last_app, Hkw.
  cbn [assoc_last].
  assert (Hne : forall s, s ∈ stamped_keys -> String.eqb s k = false).
  { intros s Hs. apply String.eqb_neq. by intros ->. }
  rewrite !Hne by (unfold stamped_keys; set_solver). done.
Qed.

Lemma stamped_kwarg status progress message kwargs v k x :
  assoc_last k kwargs = Some x ->
  stamped rt status progress message kwargs v !! k = Some x.
Proof.
  intros Hkw. unfold stamped. by rewrite dict_update_lookup, assoc_last_app, Hkw.
Qed.

Lemma stamped_fixed status progress message kwargs v :
  assoc_last "status" kwargs = None ->
  assoc_last "progress" kwargs = None ->
  assoc_last "message" kwargs = None ->
  stamped rt status progress message kwargs v !! "status" = Some (JStr status) /\
  stamped rt status progress message kwargs v !! "progress" = Some (JInt progress) /\
  stamped rt status progress message kwargs v !! "message" = Some (JStr message).
Proof.
  intros H1 H2 H3. unfold stamped.
  rewrite !dict_update_lookup, !assoc_last_app, H1, H2, H3. done.
Qed.

(** *** Replaying announcements *)

Lemma replay_ticks job_id v steps :
  sv_ticks (replay settings rt job_id v steps) = (sv_ticks v + length steps)%nat.
Proof.
  revert v. induction steps as [|a rest IH]; intros v; cbn [replay foldl length].
  - lia.
  - unfold replay in IH. rewrite IH. cbn. lia.
Qed.

Lemma replay_other job_id v steps k :
  k ∉ stamped_keys ->
  default ∅ (sv_record (replay settings rt job_id v steps)) !! k
    = default ∅ (sv_record v) !! k.
Proof.
  intros Hk. revert v.
  induction steps as [|a rest IH]; intros v; cbn [replay foldl]; [done|].
  unfold replay in IH. rewrite IH. unfold announce, write_view.
  cbn [sv_record default]. by apply stamped_other.
Qed.

(** The writes that a replay appends: one per announcement, each to the
    job's status file, with status [processing] and the announced progress. *)
Lemma replay_log job_id v steps :
  exists trail,
    sv_log (replay settings rt job_id v steps) = sv_log v ++ trail /\
    map progress_of trail = map (fun a => Some (JInt a.1)) steps /\
    Forall (fun s => status_of s = Some (JStr "processing")) trail /\
    Forall (fun s => sw_path s = status_file settings job_id) trail.
Proof.
  revert v. induction steps as [|a rest IH]; intros v; cbn [replay foldl].
  - exists []. rewrite app_nil_r. by repeat split.
  - destruct (IH (announce settings rt job_id v a)) as (trail & Hlog & Hp & Hs & Hf).
    eexists (_ :: trail). unfold replay in *. rewrite Hlog.
    cbn [announce write_view sv_log]. rewrite <- app_assoc. split; [reflexivity|].
    split; [|split].
    + cbn [map]. f_equal; [|done]. apply stamped_progress.
    + constructor; [apply stamped_status | done].
    + by constructor.
Qed.


(** *** The executor *)

Lemma view_of_record job_id w v d :
  view_of settings job_id w = v -> sv_record v = Some d ->
  status_files w !! status_file settings job_id = Some d.
Proof. by intros <-. Qed.

(** C4. When the stages through the GLB export return, the task returns
    and writes status [completed], progress 100 and [completed_at], whatever
    the metrics computation runs into: [compute_qa_metrics] returns in every
    case, and when loading the artifact raises, the metrics are the defaults
    with the file size filled in. *)
Theorem metrics_failure_keeps_completed retries job_id options w w1 :
  run_stages settings rt job_id options w = (Returns tt, w1) ->
  exists m result w2 rec,
    compute_qa_metrics rt (artifact_path settings job_id) w1 = (Returns m, w1) /\
    (forall data e,
       artifact_files w1 !! artifact_path settings job_id = Some data ->
       trimesh_load rt data = Raises e ->
       m = QAMetrics (JMB (Z.of_nat (length data))) (JInt 0) (JInt 0)
             JNull JNull (JStr "medium")) /\
    run_reconstruction settings rt retries job_id options w = (Returns result, w2) /\
    result !! "status" = Some (JStr "completed") /\
    status_files w2 !! status_file settings job_id = Some rec /\
    rec !! "status" = Some (JStr "completed") /\
    rec !! "progress" = Some (JInt 100) /\
    rec !! "completed_at" = Some (JTime (utcnow rt (ticks w1))) /\
    rec !! "metrics" = Some (metrics_json m).
Proof.
  intros Hst.
  destruct (run_reconstruction_returns retries _ _ _ _ Hst)
    as (m & result & w2 & Hm & Hrun & Hv & _).
  destruct (compute_qa_metrics_total (artifact_path settings job_id) w1)
    as (m' & Hm' & _ & Hfail).
  rewrite Hm in Hm'. injection Hm' as <-.
  exists m, result, w2. eexists. split; [done|]. split; [done|].
  split; [done|]. split.
  { unfold run_reconstruction, try_except, bind at 1 in Hrun. rewrite Hst in Hrun.
    unfold finish_job, bind at 1 in Hrun. rewrite Hm in Hrun.
    revert Hrun. run_m.
    destruct (update_job_status _ _ _ _ _ _ _ _) as [[[]|?] ?]; [|done].
    by intros [= <- _]. }
  split; [by apply (view_of_record _ _ _ _ Hv)|].
  destruct (stamped_fixed "completed" 100 "Reconstruction complete"
     (completed_kwargs (utcnow rt (ticks w1)) m)
     (tick (view_of settings job_id w1))) as (H1 & H2 & _); try done.
  split; [done|]. split; [done|].
  split; by apply stamped_kwarg.
Qed.

(** C3, as the code has it. When a stage raises, nothing more is done to
    workspaces or artifacts; one status record is written, with status
    [failed], progress ten times the retry count of the task, message
    [Error: <cause>], [error] the cause and [traceback] the formatted trace;
    after that write the same exception is raised again. *)
Theorem stage_failure_marks_failed retries job_id options w exc w1 :
  run_stages settings rt job_id options w = (Raises exc, w1) ->
  exists w2 rec,
    run_reconstruction settings rt retries job_id options w = (Raises exc, w2) /\
    status_log w2 = status_log w1 ++ [StatusWrite (status_file settings job_id) rec] /\
    status_files w2 !! status_file settings job_id = Some rec /\
    rec !! "status" = Some (JStr "failed") /\
    rec !! "progress" = Some (JInt (retries * 10)) /\
    rec !! "message" = Some (JStr ("Error: " +:+ exn_str exc)) /\
    rec !! "error" = Some (JStr (exn_str exc)) /\
    rec !! "traceback" = Some (JStr (format_exc rt exc)) /\
    workspace_dirs w2 = workspace_dirs w1 /\
    artifact_files w2 = artifact_files w1.
Proof.
  intros Hst.
  destruct (run_reconstruction_raises retries _ _ _ _ _ Hst)
    as (w2 & Hrun & Hv & Hws & Haf & _).
  exists w2. eexists. split; [done|].
  split; [by injection Hv|].
  split; [by apply (view_of_record _ _ _ _ Hv)|].
  destruct (stamped_fixed "failed" (retries * 10) ("Error: " +:+ exn_str exc)
     (failed_kwargs rt exc) (view_of settings job_id w1)) as (H1 & H2 & H3); try done.
  do 3 (split; [done|]).
  split; [by apply stamped_kwarg|]. split; [by apply stamped_kwarg|]. done.
Qed.


Lemma progress_plan_sorted : StronglySorted Z.le (progress_plan settings).
Proof.
  unfold progress_plan, announcements.
  destruct (ENABLE_SAM_SEGMENTATION settings); cbn [map app fst];
    repeat (apply SSorted_cons; [|repeat (apply Forall_cons; [lia|]); apply Forall_nil]);
    apply SSorted_nil.
Qed.

(** The stages returned when the whole task did. *)
Lemma run_reconstruction_returned retries job_id options w result w2 :
  run_reconstruction settings rt retries job_id options w = (Returns result, w2) ->
  exists w1, run_stages settings rt job_id options w = (Returns tt, w1).
Proof.
  intros H. destruct (run_stages settings rt job_id options w) as [[[]|e] w1] eqn:Hst.
  - by exists w1.
  - destruct (run_reconstruction_raises retries _ _ _ _ _ Hst) as (w2' & Hr & _).
    rewrite Hr in H. discriminate.
Qed.



Lemma stamped_updated_at status progress message v :
  stamped rt status progress message [] v !! "updated_at"
    = Some (JTime (utcnow rt (sv_ticks v))).
Proof. unfold stamped. by rewrite dict_update_lookup. Qed.

Lemma replay_first job_id v steps :
  exists trail,
    sv_log (replay settings rt job_id v (first_announcement :: steps)) =
      sv_log v ++
      StatusWrite (status_file settings job_id)
        (stamped rt "processing" 0 "Pipeline started" [] v) :: trail.
Proof.
  cbn [replay foldl].
  destruct (replay_log job_id (announce settings rt job_id v first_announcement) steps)
    as (trail & Hlog & _).
  exists trail. unfold replay in Hlog. rewrite Hlog.
  cbn [announce write_view sv_log first_announcement fst snd].
  by rewrite <- app_assoc.
Qed.


(** ** The status store *)

Lemma observe_insert path data (files : gmap string dict) :
  observe (<[path := data]> files) = <[path := Document data]> (observe files).
Proof. unfold observe. apply fmap_insert. Qed.


(** ** The export and its fallback *)

Lemma string_app_assoc (a b c : string) : (a +:+ b) +:+ c = a +:+ (b +:+ c).
Proof.
  induction a as [|x a IH]; [done|].
  change (String x ((a +:+ b) +:+ c) = String x (a +:+ (b +:+ c))).
  by rewrite IH.
Qed.

Lemma string_length_app (a b : string) :
  String.length (a +:+ b) = (String.length a + String.length b)%nat.
Proof.
  induction a as [|x a IH]; [done|].
  change (S (String.length (a +:+ b)) = S (String.length a + String.length b)).
  by rewrite IH.
Qed.

Lemma path_join_suffix (a b suffix : string) :
  exists p, path_join a (b +:+ suffix) = p +:+ suffix.
Proof.
  unfold path_join.
  destruct (String.prefix "/" (b +:+ suffix)); [by exists b|].
  destruct (String.eqb a ""); [by exists b|].
  destruct (String.eqb _ "/").
  - exists (a +:+ b). by rewrite string_app_assoc.
  - exists (a +:+ "/" +:+ b). by rewrite !string_app_assoc.
Qed.

Lemma artifact_path_glb (job_id : string) :
  exists p, artifact_path settings job_id = p +:+ ".glb".
Proof. unfold artifact_path, os_path_join. cbn [foldl]. apply path_join_suffix. Qed.

(** A replacement by a string that is not shorter does not shorten. *)
Lemma replace_from_lower (old new : string) :
  (1 <= String.length old <= String.length new)%nat ->
  forall s skip,
    (String.length s <= String.length (replace_from old new skip s) + skip)%nat.
Proof.
  intros Hlen. induction s as [|c s IH]; intros skip; cbn [replace_from String.length].
  - lia.
  - destruct skip as [|k].
    + destruct (String.prefix old (String c s)).
      * rewrite string_length_app.
        specialize (IH (String.length old - 1)%nat). lia.
      * cbn [String.length]. specialize (IH 0%nat). lia.
    + specialize (IH k). lia.
Qed.

Lemma prefix_empty (s : string) : String.prefix "" s = true.
Proof. by destruct s. Qed.

Lemma prefix_cons (a b : ascii) (s1 s2 : string) :
  String.prefix (String a s1) (String b s2) = true ->
  a = b /\ String.prefix s1 s2 = true.
Proof.
  change (String.prefix (String a s1) (String b s2))
    with (if ascii_dec a b then String.prefix s1 s2 else false).
  by destruct (ascii_dec a b).
Qed.

Lemma glb_pending_0 (s : string) : glb_pending 0 s.
Proof. split; [lia | apply prefix_empty]. Qed.

Lemma glb_pending_S (k : nat) (c : ascii) (s : string) :
  glb_pending (S k) (String c s) -> glb_pending k s.
Proof.
  intros [Hle Hpre]. split; [lia|].
  destruct k as [|[|[|]]]; try lia.
  - apply prefix_empty.
  - change (String.prefix "lb" (String c s) = true) in Hpre.
    by apply prefix_cons in Hpre as [_ Hpre].
  - change (String.prefix "glb" (String c s) = true) in Hpre.
    by apply prefix_cons in Hpre as [_ Hpre].
Qed.

Lemma replace_glb_longer (p : string) : forall skip,
  glb_pending skip (p +:+ ".glb") ->
  (String.length (p +:+ ".glb") + 1 <=
   String.length (replace_from ".glb" ".gltf" skip (p +:+ ".glb")) + skip)%nat.
Proof.
  induction p as [|c p IH]; intros skip Hp.
  - destruct Hp as [Hle Hpre].
    destruct skip as [|[|[|[|]]]]; try lia; vm_compute in Hpre; try discriminate.
    vm_compute. lia.
  - change (String c p +:+ ".glb") with (String c (p +:+ ".glb")) in *.
    destruct skip as [|k]; cbn [replace_from String.length].
    + destruct (String.prefix ".glb" (String c (p +:+ ".glb"))).
      * pose proof (replace_from_lower ".glb" ".gltf" ltac:(vm_compute; lia)
                      (p +:+ ".glb") 3%nat) as Hlow.
        rewrite (string_length_app ".gltf").
        change (String.length ".gltf") with 5%nat.
        change (4 - 1)%nat with 3%nat. lia.
      * cbn [String.length].
        specialize (IH 0%nat (glb_pending_0 _)). lia.
    + specialize (IH k (glb_pending_S _ _ _ Hp)). lia.
Qed.

(** The fallback path differs from a path that ends in [.glb]. *)
Lemma gltf_path_differs (p : string) :
  str_replace (p +:+ ".glb") ".glb" ".gltf" <> p +:+ ".glb".
Proof.
  intros H. apply (f_equal String.length) in H. unfold str_replace in H.
  pose proof (replace_glb_longer p 0%nat (glb_pending_0 _)). lia.
Qed.

Lemma readonly_ret {E A} (a : A) : readonly (@ret E A a).
Proof. by intros w. Qed.

Lemma readonly_raise {E A} (e : E) : readonly (@raise E A e).
Proof. by intros w. Qed.

Lemma readonly_lift {A} (r : outcome exn A) : readonly (lift r).
Proof. by intros w. Qed.

Lemma readonly_gets {E A} (f : world -> A) : readonly (@gets E A f).
Proof. by intros w. Qed.

Lemma readonly_bind {E A B} (m : M E A) (k : A -> M E B) :
  readonly m -> (forall a, readonly (k a)) -> readonly (bind m k).
Proof.
  intros Hm Hk w. unfold bind. specialize (Hm w).
  destruct (m w) as [[a|e] w1]; cbn [snd] in *; subst w1; [apply Hk | done].
Qed.

Create HintDb readonly.
#[local] Hint Resolve readonly_ret readonly_raise readonly_lift readonly_gets : readonly.

Ltac readonly_step :=
  match goal with
  | |- readonly (bind _ _) => apply readonly_bind; [|intros]
  | |- readonly (match ?x with _ => _ end) => destruct x
  | |- readonly (if ?x then _ else _) => destruct x
  | |- readonly _ => solve [auto with readonly]
  end.

Lemma readonly_options_get options key dflt : readonly (options_get options key dflt).
Proof. unfold options_get. repeat readonly_step. Qed.

#[local] Hint Resolve readonly_options_get : readonly.

Lemma readonly_prepare_trimesh mesh path options :
  readonly (prepare_trimesh rt mesh path options).
Proof. unfold prepare_trimesh. repeat readonly_step. Qed.

#[local] Hint Resolve readonly_prepare_trimesh : readonly.

Lemma readonly_load_mesh jd options : readonly (load_mesh rt jd options).
Proof. unfold load_mesh. repeat readonly_step. Qed.

(** With the GLB export failing and leaving nothing behind, and the GLTF
    export succeeding, the exporter writes the GLTF file and returns. *)
Lemma export_with_fallback_gltf mesh output_path w e data :
  mesh_export rt mesh "glb" = ExportRaises e None ->
  mesh_export rt mesh "gltf" = Exported data ->
  export_with_fallback rt mesh output_path w =
    (Returns tt,
     set_artifact_files (insert (str_replace output_path ".glb" ".gltf") data) w).
Proof.
  intros Hglb Hgltf. unfold export_with_fallback, try_except, export_to.
  rewrite Hglb. run_m. by rewrite Hgltf.
Qed.

(** C7, as the code has it. When the GLB export raises and leaves nothing
    behind, and the GLTF export that follows succeeds, [export_glb] writes
    the GLTF file at a path other than the artifact path and returns
    normally; if no file was at the artifact path before, the job is then
    written [completed] with no file there, and fetching its artifact is
    answered 404. *)
Theorem glb_fallback_leaves_no_artifact retries job_id options w w0 mesh e data :
  uuid_valid rt job_id = true ->
  before_export settings rt job_id options w = (Returns tt, w0) ->
  (load_mesh rt (job_dir settings job_id) options w0).1 = Returns mesh ->
  mesh_export rt mesh "glb" = ExportRaises e None ->
  mesh_export rt mesh "gltf" = Exported data ->
  artifact_files w0 !! artifact_path settings job_id = None ->
  let gltf_path := str_replace (artifact_path settings job_id) ".glb" ".gltf" in
  exists w1 result w2 rec,
    export_glb rt (job_dir settings job_id) (artifact_path settings job_id)
      options w0 = (Returns tt, w1) /\
    gltf_path <> artifact_path settings job_id /\
    artifact_files w1 !! gltf_path = Some data /\
    run_reconstruction settings rt retries job_id options w = (Returns result, w2) /\
    status_files w2 !! status_file settings job_id = Some rec /\
    rec !! "status" = Some (JStr "completed") /\
    artifact_files w2 !! artifact_path settings job_id = None /\
    artifact_files w2 !! gltf_path = Some data /\
    get_artifact settings rt job_id w2 =
      (Raises (HTTPException 404 "Artifact file not found"), w2).
Proof.
  intros Hid Hbefore Hload Hglb Hgltf Hnone gltf_path.
  assert (Hne : gltf_path <> artifact_path settings job_id).
  { subst gltf_path. destruct (artifact_path_glb job_id) as (p & ->).
    apply gltf_path_differs. }
  set (w1 := set_artifact_files (insert gltf_path data) w0).
  assert (Hexp : export_glb rt (job_dir settings job_id)
                   (artifact_path settings job_id) options w0 = (Returns tt, w1)).
  { unfold export_glb, bind.
    pose proof (readonly_load_mesh (job_dir settings job_id) options w0) as Hro.
    destruct (load_mesh rt (job_dir settings job_id) options w0) as [r w0'].
    cbn [fst snd] in Hload, Hro. subst r w0'.
    by apply export_with_fallback_gltf with (e := e). }
  assert (Hst : run_stages settings rt job_id options w = (Returns tt, w1)).
  { unfold run_stages, bind. by rewrite Hbefore. }
  destruct (run_reconstruction_returns retries _ _ _ _ Hst)
    as (m & result & w2 & _ & Hrun & Hv & _ & Haf & _).
  destruct (stamped_fixed "completed" 100 "Reconstruction complete"
     (completed_kwargs (utcnow rt (ticks w1)) m)
     (tick (view_of settings job_id w1))) as (Hstatus & _); try done.
  pose proof (view_of_record _ _ _ _ Hv eq_refl) as Hrec.
  assert (Hgone : artifact_files w2 !! artifact_path settings job_id = None).
  { rewrite Haf. subst w1. destruct w0; cbn in *. by rewrite lookup_insert_ne. }
  assert (Hthere : artifact_files w2 !! gltf_path = Some data).
  { rewrite Haf. subst w1. destruct w0; cbn. apply lookup_insert_eq. }
  exists w1, result, w2. eexists.
  split; [done|]. split; [done|]. split.
  { subst w1. destruct w0; cbn. apply lookup_insert_eq. }
  split; [done|]. split; [exact Hrec|]. split; [done|]. split; [done|].
  split; [done|].
  rewrite (get_artifact_cases job_id w2 _ Hid Hrec
             (dict_truthy_lookup _ _ _ Hstatus)).
  unfold json_eq_str. by rewrite Hstatus, String.eqb_refl, Hgone.
Qed.

(** ** Further properties *)

(** *** Paths *)

Lemma string_app_cancel_r (a b c : string) : a +:+ c = b +:+ c -> a = b.
Proof.
  revert b. induction a as [|x a IH]; intros [|y b] H; [done| | |].
  - apply (f_equal String.length) in H. rewrite !string_length_app in H.
    cbn [String.length] in H. lia.
  - apply (f_equal String.length) in H. rewrite !string_length_app in H.
    cbn [String.length] in H. lia.
  - change (String x (a +:+ c) = String y (b +:+ c)) in H.
    injection H as -> H. by rewrite (IH b H).
Qed.

Lemma relative_app (s suffix : string) :
  relative s -> relative suffix -> relative (s +:+ suffix).
Proof.
  unfold relative. destruct s as [|c s]; [done|]. intros H _.
  change (String c s +:+ suffix) with (String c (s +:+ suffix)).
  revert H.
  change (String.prefix "/" (String c s))
    with (if ascii_dec "/" c then String.prefix "" s else false).
  change (String.prefix "/" (String c (s +:+ suffix)))
    with (if ascii_dec "/" c then String.prefix "" (s +:+ suffix) else false).
  destruct (ascii_dec "/" c); [|done]. by rewrite prefix_empty.
Qed.

Lemma path_join_relative (a b : string) :
  relative b -> path_join a b = join_prefix a +:+ b.
Proof.
  unfold relative, path_join, join_prefix. intros ->.
  destruct (String.eqb a ""); [done|]. destruct (String.eqb _ "/"); [done|].
  by rewrite string_app_assoc.
Qed.

Lemma path_join_inj (a b1 b2 : string) :
  relative b1 -> relative b2 -> path_join a b1 = path_join a b2 -> b1 = b2.
Proof.
  intros H1 H2. rewrite !path_join_relative by done. apply String.app_inj.
Qed.

(** X1. Two job ids that differ and do not start with a slash have
    different status files, different workspace directories and different
    artifact paths. *)
Theorem job_paths_distinct (j1 j2 : string) :
  relative j1 -> relative j2 -> j1 <> j2 ->
  status_file settings j1 <> status_file settings j2 /\
  job_dir settings j1 <> job_dir settings j2 /\
  artifact_path settings j1 <> artifact_path settings j2.
Proof.
  intros H1 H2 Hne. unfold status_file, job_dir, artifact_path, os_path_join.
  cbn [foldl]. repeat split; intros H; apply Hne.
  - apply path_join_inj in H; [by apply string_app_cancel_r in H | |];
      by apply relative_app.
  - by apply path_join_inj in H.
  - apply path_join_inj in H; [by apply string_app_cancel_r in H | |];
      by apply relative_app.
Qed.

(** *** Frames *)

Section Frames.

Context (R : world -> world -> Prop) `{!PreOrder R}.

Lemma preserves_ret {E A} (a : A) : preserves R (@ret E A a).
Proof. intros w. reflexivity. Qed.

Lemma preserves_raise {E A} (e : E) : preserves R (@raise E A e).
Proof. intros w. reflexivity. Qed.

Lemma preserves_lift {A} (r : outcome exn A) : preserves R (lift r).
Proof. intros w. reflexivity. Qed.

Lemma preserves_gets {E A} (f : world -> A) : preserves R (@gets E A f).
Proof. intros w. reflexivity. Qed.

Lemma preserves_readonly {E A} (m : M E A) : readonly m -> preserves R m.
Proof. intros H w. rewrite H. reflexivity. Qed.

Lemma preserves_bind {E A B} (m : M E A) (k : A -> M E B) :
  preserves R m -> (forall a, preserves R (k a)) -> preserves R (bind m k).
Proof.
  intros Hm Hk w. unfold bind. specialize (Hm w).
  destruct (m w) as [[a|e] w1]; cbn [snd] in *; [|done].
  etrans; [exact Hm|apply Hk].
Qed.

Lemma preserves_try_except {E A} (m : M E A) (h : E -> M E A) :
  preserves R m -> (forall e, preserves R (h e)) -> preserves R (try_except m h).
Proof.
  intros Hm Hh w. unfold try_except. specialize (Hm w).
  destruct (m w) as [[a|e] w1]; cbn [snd] in *; [done|].
  etrans; [exact Hm|apply Hh].
Qed.

End Frames.

Create HintDb frame.

Ltac frame_step :=
  match goal with
  | |- preserves _ (bind _ _) => apply preserves_bind; [apply _| |intros]
  | |- preserves _ (try_except _ _) =>
      apply preserves_try_except; [apply _| |intros]
  | |- preserves _ (ret _) => apply preserves_ret; apply _
  | |- preserves _ (raise _) => apply preserves_raise; apply _
  | |- preserves _ (lift _) => apply preserves_lift; apply _
  | |- preserves _ (gets _) => apply preserves_gets; apply _
  | |- preserves _ (match ?x with _ => _ end) => destruct x
  | |- preserves _ _ => solve [auto with frame]
  end.

#[local] Instance within_job_preorder job_id : PreOrder (within_job settings job_id).
Proof.
  split.
  - by intros w.
  - intros w1 w2 w3 (Hs & Hw & Ha & Hb) (Hs' & Hw' & Ha' & Hb').
    repeat split; intros.
    + by rewrite Hs', Hs.
    + by rewrite Hw', Hw.
    + by rewrite Ha', Ha.
    + by rewrite Hb', Hb.
Qed.

Ltac within_job_op :=
  intros [sf wd af q t lg]; unfold within_job; run_m;
  repeat split; intros; try done;
  first [by rewrite lookup_insert_ne | by rewrite lookup_delete_ne].

Lemma within_job_clock {E} job_id :
  preserves (within_job settings job_id) (@utcnow_isoformat rt E).
Proof. by intros [sf wd af q t lg]. Qed.

Lemma within_job_write_status {E} job_id data :
  preserves (within_job settings job_id)
    (@write_status_file E (status_file settings job_id) data).
Proof. within_job_op. Qed.

Lemma within_job_makedirs {E} job_id sub :
  preserves (within_job settings job_id)
    (@makedirs_sub E (job_dir settings job_id) sub).
Proof. within_job_op. Qed.

Lemma within_job_write_ws {E} job_id sub name data :
  preserves (within_job settings job_id)
    (@write_ws_file E (job_dir settings job_id) sub name data).
Proof. within_job_op. Qed.

Lemma within_job_rmtree {E} job_id :
  preserves (within_job settings job_id) (@rmtree E (job_dir settings job_id)).
Proof. within_job_op. Qed.

Lemma within_job_write_artifact {E} job_id data :
  preserves (within_job settings job_id)
    (@write_artifact E (artifact_path settings job_id) data).
Proof. within_job_op. Qed.

Lemma within_job_write_gltf {E} job_id data :
  preserves (within_job settings job_id)
    (@write_artifact E (gltf_path settings job_id) data).
Proof. within_job_op. Qed.

Lemma within_job_run_adapter job_id adapter :
  preserves (within_job settings job_id)
    (run_adapter (job_dir settings job_id) adapter).
Proof.
  intros [sf wd af q t lg]. unfold run_adapter.
  cbn [workspace_dirs]. destruct (adapter _) as [[e|] ws];
    unfold within_job; run_m; repeat split; intros; try done;
    by rewrite lookup_insert_ne.
Qed.

#[local] Hint Resolve within_job_clock within_job_write_status
  within_job_makedirs within_job_write_ws within_job_rmtree
  within_job_write_artifact within_job_write_gltf within_job_run_adapter
  : frame.

Lemma within_job_update job_id status progress message kwargs :
  preserves (within_job settings job_id)
    (update_job_status settings rt job_id status progress message kwargs).
Proof. unfold update_job_status. repeat frame_step. Qed.

Lemma within_job_make_white_masks job_id imgs :
  preserves (within_job settings job_id)
    (make_white_masks rt (job_dir settings job_id) imgs).
Proof.
  induction imgs as [|[name data] rest IH]; cbn [make_white_masks];
    repeat frame_step.
Qed.

Lemma readonly_compute_qa_metrics glb_path :
  readonly (compute_qa_metrics rt glb_path).
Proof.
  intros w. by destruct (compute_qa_metrics_total glb_path w) as (m & -> & _).
Qed.

Lemma within_job_export_to job_id mesh file_type :
  preserves (within_job settings job_id)
    (export_to rt mesh (artifact_path settings job_id) file_type) /\
  preserves (within_job settings job_id)
    (export_to rt mesh (gltf_path settings job_id) file_type).
Proof. unfold export_to. split; repeat frame_step. Qed.

#[local] Hint Resolve within_job_update within_job_make_white_masks : frame.

Lemma within_job_before_export job_id options :
  preserves (within_job settings job_id)
    (before_export settings rt job_id options).
Proof. unfold before_export, stage_masks. repeat frame_step. Qed.

Lemma within_job_export_glb job_id options :
  preserves (within_job settings job_id)
    (export_glb rt (job_dir settings job_id) (artifact_path settings job_id) options).
Proof.
  unfold export_glb, export_with_fallback.
  apply preserves_bind; [apply _| |intros mesh].
  - apply preserves_readonly; [apply _|apply readonly_load_mesh].
  - apply preserves_try_except; [apply _| |intros e];
      apply within_job_export_to.
Qed.

(** An attempt of the executor stays within its job. *)
Lemma run_reconstruction_frame retries job_id options w :
  within_job settings job_id w
    (run_reconstruction settings rt retries job_id options w).2.
Proof.
  revert w.
  change (preserves (within_job settings job_id)
            (run_reconstruction settings rt retries job_id options)).
  unfold run_reconstruction, run_stages, finish_job, on_exception.
  apply preserves_try_except; [apply _| |intros e].
  - apply preserves_bind; [apply _| |intros _].
    + apply preserves_bind; [apply _| |intros _].
      * apply within_job_before_export.
      * apply within_job_export_glb.
    + apply preserves_bind; [apply _| |intros m].
      * apply preserves_readonly; [apply _|apply readonly_compute_qa_metrics].
      * repeat frame_step.
  - repeat frame_step.
Qed.

(** *** What an attempt leaves in the record *)

#[local] Instance same_artifacts_preorder : PreOrder same_artifacts.
Proof.
  split; [by intros w|]. unfold same_artifacts.
  intros w1 w2 w3 H1 H2. by rewrite H2.
Qed.

Lemma same_artifacts_clock {E} : preserves same_artifacts (@utcnow_isoformat rt E).
Proof. by intros []. Qed.

Lemma same_artifacts_write_status {E} path data :
  preserves same_artifacts (@write_status_file E path data).
Proof. by intros []. Qed.

Lemma same_artifacts_workspaces {E} f :
  preserves same_artifacts (@modify E (set_workspace_dirs f)).
Proof. by intros []. Qed.

Lemma same_artifacts_makedirs {E} jd sub :
  preserves same_artifacts (@makedirs_sub E jd sub).
Proof. apply same_artifacts_workspaces. Qed.

Lemma same_artifacts_write_ws {E} jd sub name data :
  preserves same_artifacts (@write_ws_file E jd sub name data).
Proof. apply same_artifacts_workspaces. Qed.

Lemma same_artifacts_run_adapter jd adapter :
  preserves same_artifacts (run_adapter jd adapter).
Proof.
  intros [sf wd af q t lg]. unfold run_adapter.
  by destruct (adapter _) as [[e|] ws].
Qed.

#[local] Hint Resolve same_artifacts_clock same_artifacts_write_status
  same_artifacts_makedirs same_artifacts_write_ws same_artifacts_run_adapter
  : frame.

Lemma same_artifacts_update job_id status progress message kwargs :
  preserves same_artifacts
    (update_job_status settings rt job_id status progress message kwargs).
Proof. unfold update_job_status. repeat frame_step. Qed.

Lemma same_artifacts_make_white_masks jd imgs :
  preserves same_artifacts (make_white_masks rt jd imgs).
Proof.
  induction imgs as [|[name data] rest IH]; cbn [make_white_masks];
    repeat frame_step.
Qed.

#[local] Hint Resolve same_artifacts_update same_artifacts_make_white_masks : frame.

Lemma same_artifacts_before_export job_id options :
  preserves same_artifacts (before_export settings rt job_id options).
Proof. unfold before_export, stage_masks. repeat frame_step. Qed.

(** The record an attempt leaves: there is one, and outside the keys that
    its last write sets it is the record the attempt found. *)
Lemma run_reconstruction_record retries job_id options w :
  let r := run_reconstruction settings rt retries job_id options w in
  exists d,
    status_files r.2 !! status_file settings job_id = Some d /\
    d !! "status" =
      Some (JStr (if is_returns r.1 then "completed" else "failed")) /\
    forall k, k ∉ stamped_keys ->
      assoc_last k
        (if is_returns r.1
         then [("completed_at", JNull); ("metrics", JNull)]
         else [("error", JNull); ("traceback", JNull)]) = None ->
      d !! k = record_field settings job_id k w.
Proof.
  cbv zeta. unfold record_field.
  destruct (run_stages_view job_id options w) as (k0 & _ & Hv & _).
  destruct (run_stages settings rt job_id options w) as [[[]|exc] w1] eqn:Hst;
    cbn [snd] in Hv.
  - destruct (run_reconstruction_returns retries _ _ _ _ Hst)
      as (m & result & w2 & _ & -> & Hv2 & _).
    cbn [fst snd is_returns]. eexists. split.
    { eapply view_of_record; [exact Hv2|reflexivity]. }
    split.
    { by apply stamped_fixed. }
    intros k Hk Hkw. rewrite stamped_other; [|done|].
    + cbn [tick sv_record]. rewrite Hv. by rewrite replay_other.
    + unfold completed_kwargs. cbn [assoc_last] in *.
      by destruct (String.eqb "metrics" k), (String.eqb "completed_at" k).
  - destruct (run_reconstruction_raises retries _ _ _ _ _ Hst)
      as (w2 & -> & Hv2 & _).
    cbn [fst snd is_returns]. eexists. split.
    { eapply view_of_record; [exact Hv2|reflexivity]. }
    split.
    { by apply stamped_fixed. }
    intros k Hk Hkw. rewrite stamped_other; [|done|].
    + rewrite Hv. by rewrite replay_other.
    + unfold failed_kwargs. cbn [assoc_last] in *.
      by destruct (String.eqb "traceback" k), (String.eqb "error" k).
Qed.

Lemma executor_keys_split k :
  k ∉ executor_keys ->
(k ∉ stamped_keys) /\
  k <> "completed_at" /\ k <> "metrics" /\ k <> "error" /\ k <> "traceback".
Proof.
  unfold executor_keys. rewrite not_elem_of_app, !not_elem_of_cons.
  tauto.
Qed.

Lemma assoc_last_two k k1 k2 (v1 v2 : json) :
  k <> k1 -> k <> k2 -> assoc_last k [(k1, v1); (k2, v2)] = None.
Proof.
  intros H1 H2. cbn [assoc_last].
  destruct (String.eqb_spec k2 k) as [->|_]; [done|].
  by destruct (String.eqb_spec k1 k) as [->|_].
Qed.

(** X2. Whatever an attempt of the executor runs into, the record it leaves
    agrees with the record it found on every key that the executor does not
    write: the job id, the creation time, the image count, the upload size
    and the options of the submission are never changed by the worker. *)
Theorem attempt_keeps_submission_fields retries job_id options w k :
  k ∉ executor_keys ->
  record_field settings job_id k
    (run_reconstruction settings rt retries job_id options w).2
  = record_field settings job_id k w.
Proof.
  intros Hk. apply executor_keys_split in Hk as (Hs & H1 & H2 & H3 & H4).
  destruct (run_reconstruction_record retries job_id options w)
    as (d & Hd & _ & Hother).
  unfold record_field at 1. rewrite Hd. cbn [default].
  apply Hother; [done|].
  destruct (is_returns _); by apply assoc_last_two.
Qed.

(** X3. A returning attempt does not clear what a failed attempt wrote: the
    record then has status [completed] together with the [error] and the
    [traceback] that it had before. Likewise a failing attempt leaves the
    [metrics] and [completed_at] of an earlier completion beside its status
    [failed]. *)
Theorem attempt_keeps_stale_fields retries job_id options w :
  let r := run_reconstruction settings rt retries job_id options w in
  exists d,
    status_files r.2 !! status_file settings job_id = Some d /\
    if is_returns r.1 then
      d !! "status" = Some (JStr "completed") /\
      d !! "error" = record_field settings job_id "error" w /\
      d !! "traceback" = record_field settings job_id "traceback" w
    else
      d !! "status" = Some (JStr "failed") /\
      d !! "metrics" = record_field settings job_id "metrics" w /\
      d !! "completed_at" = record_field settings job_id "completed_at" w.
Proof.
  cbv zeta.
  destruct (run_reconstruction_record retries job_id options w)
    as (d & Hd & Hst & Hother).
  exists d. split; [done|].
  destruct (is_returns _); (split; [done|]);
    split; apply Hother; first [by other_key | done].
Qed.

(** X4. The executor does not check that the job still exists. Run for a
    job without a status record, as after a deletion, it leaves a record
    that has a status but no [job_id] and no [created_at], and a status
    query for the job returns that record. *)
Theorem attempt_recreates_deleted_record retries job_id options w :
  uuid_valid rt job_id = true ->
  status_files w !! status_file settings job_id = None ->
  let w' := (run_reconstruction settings rt retries job_id options w).2 in
  exists d,
    get_job_status settings rt job_id w' = (Returns d, w') /\
    is_Some (d !! "status") /\
    d !! "job_id" = None /\ d !! "created_at" = None.
Proof.
  intros Hid Hnone. cbv zeta.
  destruct (run_reconstruction_record retries job_id options w)
    as (d & Hd & Hst & Hother).
  exists d. split; [|split; [by rewrite Hst|]].
  - unfold get_job_status. rewrite Hid. cbn [negb].
    unfold bind, get_job_status_helper, gets. rewrite Hd.
    by rewrite (dict_truthy_lookup _ _ _ Hst).
  - assert (Hfield : forall k, record_field settings job_id k w = None).
    { intros k. unfold record_field. by rewrite Hnone. }
    split; (rewrite Hother; [apply Hfield | by other_key |]);
      by destruct (is_returns _).
Qed.

(** *** What a fetch finds after an attempt *)

Lemma run_stages_split job_id options w w0 mesh w1 :
  before_export settings rt job_id options w = (Returns tt, w0) ->
  (load_mesh rt (job_dir settings job_id) options w0).1 = Returns mesh ->
  export_with_fallback rt mesh (artifact_path settings job_id) w0 = (Returns tt, w1) ->
  run_stages settings rt job_id options w = (Returns tt, w1).
Proof.
  intros Hbefore Hload Hexp. unfold run_stages, bind. rewrite Hbefore.
  unfold export_glb, bind.
  pose proof (readonly_load_mesh (job_dir settings job_id) options w0) as Hro.
  destruct (load_mesh rt (job_dir settings job_id) options w0) as [r w0'].
  cbn [fst snd] in Hload, Hro. by subst r w0'.
Qed.

(** The answer to a fetch in the world a returning attempt leaves. *)
Lemma fetch_after_completion retries job_id options w w1 :
  uuid_valid rt job_id = true ->
  run_stages settings rt job_id options w = (Returns tt, w1) ->
  let w' := (run_reconstruction settings rt retries job_id options w).2 in
  get_artifact settings rt job_id w' =
    match artifact_files w1 !! artifact_path settings job_id with
    | Some body =>
        (Returns (FileResponse (artifact_path settings job_id)
                    "model/gltf-binary"
                    ("atlas-" +:+ job_id +:+ ".glb") body), w')
    | None => (Raises (HTTPException 404 "Artifact file not found"), w')
    end.
Proof.
  intros Hid Hst. cbv zeta.
  destruct (run_reconstruction_returns retries _ _ _ _ Hst)
    as (m & result & w2 & _ & -> & Hv & _ & Haf & _).
  cbn [snd].
  destruct (stamped_fixed "completed" 100 "Reconstruction complete"
     (completed_kwargs (utcnow rt (ticks w1)) m)
     (tick (view_of settings job_id w1))) as (Hstatus & _); try done.
  pose proof (view_of_record _ _ _ _ Hv eq_refl) as Hrec.
  rewrite (get_artifact_cases job_id w2 _ Hid Hrec
             (dict_truthy_lookup _ _ _ Hstatus)).
  unfold json_eq_str. by rewrite Hstatus, String.eqb_refl, Haf.
Qed.

(** X5. Export and fetch round trip: when the stages before the export
    return and the GLB export of the loaded mesh succeeds, the attempt
    returns and a fetch of the artifact then returns exactly the bytes that
    the export produced, under the name [atlas-<job_id>.glb]. *)
Theorem exported_glb_is_served retries job_id options w w0 mesh data :
  uuid_valid rt job_id = true ->
  before_export settings rt job_id options w = (Returns tt, w0) ->
  (load_mesh rt (job_dir settings job_id) options w0).1 = Returns mesh ->
  mesh_export rt mesh "glb" = Exported data ->
  let r := run_reconstruction settings rt retries job_id options w in
  is_returns r.1 = true /\
  get_artifact settings rt job_id r.2 =
    (Returns (FileResponse (artifact_path settings job_id) "model/gltf-binary"
                ("atlas-" +:+ job_id +:+ ".glb") data), r.2).
Proof.
  intros Hid Hbefore Hload Hglb. cbv zeta.
  set (w1 := set_artifact_files (insert (artifact_path settings job_id) data) w0).
  assert (Hexp : export_with_fallback rt mesh (artifact_path settings job_id) w0
                 = (Returns tt, w1)).
  { unfold export_with_fallback, try_except, export_to. rewrite Hglb. by run_m. }
  pose proof (run_stages_split _ _ _ _ _ _ Hbefore Hload Hexp) as Hst.
  split.
  - by destruct (run_reconstruction_returns retries _ _ _ _ Hst)
      as (m & result & w2 & _ & -> & _).
  - rewrite (fetch_after_completion retries _ _ _ _ Hid Hst).
    subst w1. destruct w0; cbn [set_artifact_files artifact_files].
    by rewrite lookup_insert_eq.
Qed.

(** X6. When the GLB export raises and the GLTF fallback succeeds, the
    job completes and a fetch serves whatever the failed export left at the
    artifact path: its partial output if it wrote any, else the artifact of
    an earlier attempt. The model that was exported lies at the fallback
    path, which is never served. *)
Theorem fallback_serves_leftover retries job_id options w w0 mesh e partial
    data body :
  uuid_valid rt job_id = true ->
  before_export settings rt job_id options w = (Returns tt, w0) ->
  (load_mesh rt (job_dir settings job_id) options w0).1 = Returns mesh ->
  mesh_export rt mesh "glb" = ExportRaises e partial ->
  mesh_export rt mesh "gltf" = Exported data ->
  match partial with
  | Some leftover => Some leftover
  | None => artifact_files w0 !! artifact_path settings job_id
  end = Some body ->
  let r := run_reconstruction settings rt retries job_id options w in
  is_returns r.1 = true /\
  artifact_files r.2 !! gltf_path settings job_id = Some data /\
  get_artifact settings rt job_id r.2 =
    (Returns (FileResponse (artifact_path settings job_id) "model/gltf-binary"
                ("atlas-" +:+ job_id +:+ ".glb") body), r.2).
Proof.
  intros Hid Hbefore Hload Hglb Hgltf Hbody. cbv zeta.
  assert (Hne : gltf_path settings job_id <> artifact_path settings job_id).
  { unfold gltf_path. destruct (artifact_path_glb job_id) as (p & ->).
    apply gltf_path_differs. }
  set (keep := fun af : gmap string bytes =>
         match partial with
         | Some leftover => <[artifact_path settings job_id := leftover]> af
         | None => af
         end).
  set (w1 := set_artifact_files
               (fun af => <[gltf_path settings job_id := data]> (keep af)) w0).
  assert (Hexp : export_with_fallback rt mesh (artifact_path settings job_id) w0
                 = (Returns tt, w1)).
  { unfold export_with_fallback, try_except, export_to. rewrite Hglb, Hgltf.
    subst w1 keep. unfold gltf_path. destruct partial; by run_m. }
  pose proof (run_stages_split _ _ _ _ _ _ Hbefore Hload Hexp) as Hst.
  destruct (run_reconstruction_returns retries _ _ _ _ Hst)
    as (m & result & w2 & _ & Hrun & _ & _ & Haf & _).
  split; [by rewrite Hrun|]. split.
  - rewrite Hrun. cbn [snd]. rewrite Haf. subst w1.
    destruct w0; cbn [set_artifact_files artifact_files].
    by rewrite lookup_insert_eq.
  - rewrite (fetch_after_completion retries _ _ _ _ Hid Hst).
    subst w1 keep. destruct w0; cbn [set_artifact_files artifact_files] in *.
    rewrite lookup_insert_ne by done.
    destruct partial as [leftover|].
    + rewrite lookup_insert_eq. by injection Hbody as ->.
    + by rewrite Hbody.
Qed.

(** X7. An attempt that raises before the export leaves every artifact as
    it was, the one of an earlier attempt included; the record now has
    status [failed], so a fetch is answered 409 although the file is there. *)
Theorem failed_rerun_hides_artifact retries job_id options w exc w0 :
  uuid_valid rt job_id = true ->
  before_export settings rt job_id options w = (Raises exc, w0) ->
  let w' := (run_reconstruction settings rt retries job_id options w).2 in
  artifact_files w' = artifact_files w /\
  get_artifact settings rt job_id w' =
    (Raises (HTTPException 409
               ("Job not completed yet. Current status: " +:+ "failed")), w').
Proof.
  intros Hid Hbefore. cbv zeta.
  assert (Hst : run_stages settings rt job_id options w = (Raises exc, w0)).
  { unfold run_stages, bind. by rewrite Hbefore. }
  pose proof (same_artifacts_before_export job_id options w) as Hsame.
  rewrite Hbefore in Hsame. cbn [snd] in Hsame. unfold same_artifacts in Hsame.
  destruct (run_reconstruction_raises retries _ _ _ _ _ Hst)
    as (w2 & -> & Hv & _ & Haf & _).
  cbn [snd]. split; [by rewrite Haf|].
  destruct (stamped_fixed "failed" (retries * 10) ("Error: " +:+ exn_str exc)
     (failed_kwargs rt exc) (view_of settings job_id w0)) as (Hstatus & _);
    try done.
  pose proof (view_of_record _ _ _ _ Hv eq_refl) as Hrec.
  rewrite (get_artifact_cases job_id w2 _ Hid Hrec
             (dict_truthy_lookup _ _ _ Hstatus)).
  unfold json_eq_str, current_status. by rewrite Hstatus.
Qed.

(** *** Deletion and submission *)

Lemma gltf_path_fresh job_id :
  gltf_path settings job_id <> artifact_path settings job_id.
Proof.
  unfold gltf_path. destruct (artifact_path_glb job_id) as (p & ->).
  apply gltf_path_differs.
Qed.

(** A deletion stays within its job, and leaves the fallback. *)
Lemma delete_job_frame job_id w :
  let w' := (delete_job settings rt job_id w).2 in
  within_job settings job_id w w' /\
  artifact_files w' !! gltf_path settings job_id
    = artifact_files w !! gltf_path settings job_id.
Proof.
  cbv zeta. destruct (uuid_valid rt job_id) eqn:Hid.
  - rewrite (delete_job_result job_id w Hid). cbn [snd]. unfold purged.
    split.
    + unfold within_job.
      cbn [status_files workspace_dirs artifact_files broker].
      repeat split; intros; try done; by rewrite lookup_delete_ne.
    + cbn [artifact_files]. rewrite lookup_delete_ne; [done|].
      intros H. by apply (gltf_path_fresh job_id).
  - unfold delete_job. rewrite Hid. cbn [negb raise snd]. split; [|done].
    reflexivity.
Qed.

(** X8. After a job is deleted, a status query and a fetch of the
    artifact are both answered 404 [Job not found], and leave the world
    as it is. *)
Theorem queries_after_delete job_id w :
  uuid_valid rt job_id = true ->
  let w' := (delete_job settings rt job_id w).2 in
  get_job_status settings rt job_id w'
    = (Raises (HTTPException 404 "Job not found"), w') /\
  get_artifact settings rt job_id w'
    = (Raises (HTTPException 404 "Job not found"), w').
Proof.
  intros Hid. cbv zeta. rewrite (delete_job_result job_id w Hid). cbn [snd].
  unfold get_job_status, get_artifact. rewrite Hid. cbn [negb].
  unfold bind, get_job_status_helper, gets, purged. cbn [status_files].
  by rewrite lookup_delete_eq.
Qed.

(** What an accepted submission leaves behind. *)
Lemma create_job_accepted images options opts job_uuid celery_id w :
  json_loads rt (or_else options "{}") = Some opts ->
  MIN_IMAGES settings <= Z.of_nat (length images) <= MAX_IMAGES settings ->
  total_upload_size images <= MAX_UPLOAD_MB settings * 1024 * 1024 ->
  exists w1 w2 d,
    @makedirs_sub http_error (job_dir settings job_uuid) "images" w = (Returns tt, w1) /\
    save_uploads settings rt (job_dir settings job_uuid) 0 0 images w1
      = (Returns (total_upload_size images), w2) /\
    d = list_to_map
          [("job_id", JStr job_uuid);
           ("status", JStr "queued");
           ("created_at", JTime (utcnow rt (ticks w)));
           ("num_images", JInt (Z.of_nat (length images)));
           ("total_size_mb", JMB (total_upload_size images));
           ("options", opts);
           ("progress", JInt 0);
           ("message", JStr "Job queued for processing")] /\
    create_job settings rt images options job_uuid celery_id w =
      (Returns (JobCreated job_uuid celery_id "queued" "Job created successfully"),
       World (<[status_file settings job_uuid := d]> (status_files w))
             (workspace_dirs w2) (artifact_files w)
             (broker w ++ [Task celery_id job_uuid opts])
             (S (ticks w))
             (status_log w ++ [StatusWrite (status_file settings job_uuid) d])).
Proof.
  intros Hopts [Hmin Hmax] Hsize.
  unfold create_job. rewrite Hopts.
  destruct (Z.ltb_spec (Z.of_nat (length images)) (MIN_IMAGES settings)); [lia|].
  destruct (Z.gtb_spec (Z.of_nat (length images)) (MAX_IMAGES settings)); [lia|].
  unfold bind at 1.
  destruct (makedirs_sub_frame (E:=http_error) (job_dir settings job_uuid) "images" w)
    as (w1 & Hmk & Hs1 & _).
  rewrite Hmk.
  unfold bind at 1.
  destruct (save_uploads_within_limit images (job_dir settings job_uuid) 0%nat 0 w1)
    as (w2 & Hup); [lia|].
  rewrite Hup.
  pose proof (save_uploads_frame _ _ _ _ _ _ _ Hup) as (Hs2 & _).
  destruct Hs1 as (E1 & E2 & E3 & E4 & E5), Hs2 as (F1 & F2 & F3 & F4 & F5).
  exists w1, w2. eexists. split; [done|]. split; [done|]. split; [reflexivity|].
  unfold save_job_status. run_m.
  rewrite F1, F2, F3, F4, F5, E1, E2, E3, E4, E5. reflexivity.
Qed.

(** Where the file system takes every stored name, the loop with [open]
    does what [save_uploads] does. *)
Lemma save_uploads_fs_open open_error jd images : forall i total w,
  (forall k u, images !! k = Some u ->
     open_error (os_path_join jd ["images"; stored_name rt (i + k) u]) = None) ->
  save_uploads_fs settings rt open_error jd i total images w
  = as_api (save_uploads settings rt jd i total images w).
Proof.
  induction images as [|u rest IH]; intros i total w Hopen; [done|].
  cbn [save_uploads_fs save_uploads]. cbv zeta.
  pose proof (Hopen 0%nat u eq_refl) as H0. rewrite Nat.add_0_r in H0.
  unfold stored_name in H0. rewrite H0.
  unfold bind at 1 3. unfold write_ws_file at 1 2, modify at 1 2.
  destruct (_ >? _).
  - reflexivity.
  - apply IH. intros k v Hk. replace (S i + k)%nat with (i + S k)%nat by lia.
    by apply Hopen.
Qed.

Lemma create_job_fs_open open_error images options job_uuid celery_id w :
  (forall k u, images !! k = Some u ->
     open_error (os_path_join (job_dir settings job_uuid)
                   ["images"; stored_name rt k u]) = None) ->
  create_job_fs settings rt open_error images options job_uuid celery_id w
  = as_api (create_job settings rt images options job_uuid celery_id w).
Proof.
  intros Hopen. unfold create_job_fs, create_job.
  destruct (json_loads rt _) as [opts|]; [|done].
  destruct (_ <? _); [done|]. destruct (_ >? _); [done|].
  unfold as_api.
  cbv beta iota zeta delta
    [bind makedirs_sub modify ret utcnow_isoformat save_job_status
     write_status_file].
  rewrite (save_uploads_fs_open open_error _ images 0%nat 0 _ Hopen).
  unfold as_api.
  destruct (save_uploads settings rt _ 0 0 images _) as [[t|e] w2]; reflexivity.
Qed.




(** *** The names of the stored uploads *)

Lemma zeros_length k : String.length (zeros k) = k.
Proof. induction k as [|k IH]; [done|]. cbn [zeros String.length]. by rewrite IH. Qed.

Lemma zeros_digits k d :
  zeros k +:+ NilEmpty.string_of_uint d
  = NilEmpty.string_of_uint (Nat.iter k Decimal.D0 d).
Proof.
  induction k as [|k IH]; [done|].
  change (String "0" (zeros k +:+ NilEmpty.string_of_uint d)
          = String "0" (NilEmpty.string_of_uint (Nat.iter k Decimal.D0 d))).
  by rewrite IH.
Qed.

Lemma of_uint_zeros k d : Nat.of_uint (Nat.iter k Decimal.D0 d) = Nat.of_uint d.
Proof. induction k as [|k IH]; [done|]. exact IH. Qed.

Lemma decimal_digits i :
  decimal i = NilEmpty.string_of_uint (Nat.to_uint i).
Proof.
  unfold decimal, NilZero.string_of_uint.
  destruct (Nat.to_uint i) eqn:H; try done.
  pose proof (Unsigned.of_to i) as Hi. rewrite H in Hi. cbn in Hi. subst i.
  discriminate H.
Qed.

(** X11. The number in the name of a stored upload is its index: the
    zero-padded prefix that [create_job] makes of an index reads back, as a
    decimal numeral, to that index; and it has four characters, or as many
    as the index has digits when these are more. *)
Theorem pad04_roundtrip (i : nat) :
  Nat.of_uint <$> NilEmpty.uint_of_string (pad04 i) = Some i /\
  String.length (pad04 i) = Nat.max 4 (String.length (decimal i)).
Proof.
  unfold pad04. split.
  - rewrite decimal_digits, zeros_digits, NilEmpty.usu.
    cbn [fmap option_fmap option_map].
    by rewrite of_uint_zeros, Unsigned.of_to.
  - rewrite string_length_app, zeros_length. lia.
Qed.

Lemma pad04_parse i :
  Nat.of_uint <$> NilEmpty.uint_of_string (pad04 i) = Some i.
Proof.
  unfold pad04. rewrite decimal_digits, zeros_digits, NilEmpty.usu.
  cbn [fmap option_fmap option_map].
  by rewrite of_uint_zeros, Unsigned.of_to.
Qed.

Lemma pad04_inj i j : pad04 i = pad04 j -> i = j.
Proof.
  intros H. pose proof (pad04_parse i) as Hi.
  pose proof (pad04_parse j) as Hj. rewrite H, Hj in Hi. by injection Hi.
Qed.

Lemma short_run_spec k : forall d n,
  short_run k d = true -> (n < k)%nat ->
  (Decimal.nb_digits (Nat.to_little_uint n d) <= 4)%nat.
Proof.
  induction k as [|k IH]; intros d n H Hn; [lia|].
  cbn [short_run] in H. apply andb_prop in H as [H1 H2].
  destruct n as [|n]; cbn [Nat.to_little_uint].
  - by apply Nat.leb_le.
  - apply IH; [done|lia].
Qed.

Lemma digits_length d :
  String.length (NilEmpty.string_of_uint d) = Decimal.nb_digits d.
Proof. induction d; cbn; congruence. Qed.

Lemma decimal_short i :
  Z.of_nat i < 10000 -> (String.length (decimal i) <= 4)%nat.
Proof.
  intros Hi. rewrite decimal_digits, digits_length.
  assert (Hrun : short_run (Z.to_nat 10000) (Decimal.D0 Decimal.Nil) = true)
    by (vm_compute; reflexivity).
  pose proof (short_run_spec _ _ i Hrun ltac:(lia)) as Hshort.
  unfold Nat.to_uint. by rewrite DecimalFacts.nb_digits_rev.
Qed.

Lemma pad04_short i : Z.of_nat i < 10000 -> String.length (pad04 i) = 4%nat.
Proof.
  intros Hi. unfold pad04. rewrite string_length_app, zeros_length.
  pose proof (decimal_short i Hi). lia.
Qed.

Lemma string_app_same_length (a b c d : string) :
  String.length a = String.length b -> a +:+ c = b +:+ d -> a = b.
Proof.
  revert b. induction a as [|x a IH]; intros [|y b] Hlen H; try done.
  change (String x (a +:+ c) = String y (b +:+ d)) in H.
  injection H as -> H. cbn [String.length] in Hlen.
  by rewrite (IH b) by (done || lia).
Qed.

(** Below 10000 the stored names of two uploads differ as their indices
    do, whatever their extensions. *)
Lemma stored_name_inj i j u v :
  Z.of_nat i < 10000 -> Z.of_nat j < 10000 ->
  stored_name rt i u = stored_name rt j v -> i = j.
Proof.
  intros Hi Hj H. unfold stored_name in H.
  apply string_app_same_length in H; [by apply pad04_inj|].
  by rewrite !pad04_short.
Qed.

Lemma images_dir_write jd name data w :
  images_dir jd (@write_ws_file http_error jd "images" name data w).2
  = <[name := data]> (images_dir jd w).
Proof.
  destruct w as [sf wd af q t lg]. unfold images_dir. run_m.
  rewrite lookup_insert_eq. cbn [from_option].
  match goal with |- context [id ?x !! _] => change (id x) with x end.
  by rewrite lookup_insert_eq.
Qed.

Lemma save_uploads_keeps images : forall jd i total w t w' name,
  save_uploads settings rt jd i total images w = (Returns t, w') ->
  (forall k u, images !! k = Some u -> stored_name rt (i + k) u <> name) ->
  images_dir jd w' !! name = images_dir jd w !! name.
Proof.
  induction images as [|u rest IH]; intros jd i total w t w' name H Hfree.
  - by injection H as _ <-.
  - cbn [save_uploads] in H. unfold bind at 1 in H.
    destruct (write_ws_file jd "images" _ (up_data u) w) as [r w1] eqn:Hw.
    assert (r = Returns tt) as -> by (by injection Hw as <- _).
    destruct (_ >? _) in H.
    { cbv beta iota zeta delta [bind rmtree modify raise] in H. discriminate. }
    rewrite (IH _ _ _ _ _ _ name H).
    + pose proof (images_dir_write jd (stored_name rt i u) (up_data u) w) as Hdir.
      unfold stored_name in Hdir at 1.
      rewrite Hw in Hdir. cbn [snd] in Hdir. rewrite Hdir.
      rewrite lookup_insert_ne; [done|].
      specialize (Hfree 0%nat u eq_refl). by rewrite Nat.add_0_r in Hfree.
    + intros k v Hk. replace (S i + k)%nat with (i + S k)%nat by lia.
      by apply Hfree.
Qed.

Lemma save_uploads_stores images : forall jd i total w t w' k u,
  save_uploads settings rt jd i total images w = (Returns t, w') ->
  images !! k = Some u ->
  (forall k' v, (k < k')%nat -> images !! k' = Some v ->
     stored_name rt (i + k') v <> stored_name rt (i + k) u) ->
  images_dir jd w' !! stored_name rt (i + k) u = Some (up_data u).
Proof.
  induction images as [|u0 rest IH]; intros jd i total w t w' k u H Hk Hfree;
    [done|].
  cbn [save_uploads] in H. unfold bind at 1 in H.
  destruct (write_ws_file jd "images" _ (up_data u0) w) as [r w1] eqn:Hw.
  assert (r = Returns tt) as -> by (by injection Hw as <- _).
  destruct (_ >? _) in H.
  { cbv beta iota zeta delta [bind rmtree modify raise] in H. discriminate. }
  pose proof (images_dir_write jd (stored_name rt i u0) (up_data u0) w) as Hdir.
  unfold stored_name in Hdir at 1. rewrite Hw in Hdir. cbn [snd] in Hdir.
  destruct k as [|k].
  - injection Hk as <-. rewrite Nat.add_0_r in *.
    rewrite (save_uploads_keeps _ _ _ _ _ _ _ _ H).
    + rewrite Hdir. by rewrite lookup_insert_eq.
    + intros k' v Hk'. replace (S i + k')%nat with (i + S k')%nat by lia.
      apply Hfree; [lia|done].
  - replace (i + S k)%nat with (S i + k)%nat by lia.
    apply (IH _ _ _ _ _ _ _ _ H Hk).
    intros k' v Hlt Hk'. replace (S i + k')%nat with (i + S k')%nat by lia.
    replace (S i + k)%nat with (i + S k)%nat by lia.
    apply Hfree; [lia|done].
Qed.


(** *** The exporter *)

Lemma glob_first_Some (d : directory) suffix f :
  glob_first d suffix = Some f -> is_Some (d !! f) /\ has_suffix suffix f = true.
Proof.
  unfold glob_first. intros H. apply head_Some_elem_of in H.
  apply list_elem_of_filter in H as [Hs Hin]. split; [|done].
  apply list_elem_of_In, in_map_iff in Hin as ([f' data] & <- & Hin).
  apply list_elem_of_In, elem_of_map_to_list in Hin. by exists data.
Qed.

Lemma glob_first_None (d : directory) suffix f :
  glob_first d suffix = None -> is_Some (d !! f) -> has_suffix suffix f = false.
Proof.
  unfold glob_first. intros H [data Hf]. apply head_None in H.
  destruct (has_suffix suffix f) eqn:Hs; [|done]. exfalso.
  apply (filter_nil_not_elem_of _ _ f H Hs).
  apply list_elem_of_In, in_map_iff. exists (f, data). split; [done|].
  by apply list_elem_of_In, elem_of_map_to_list.
Qed.

(** X13. [find_mesh_file] is sound and complete for the four extensions it
    knows: what it returns is a file of the directory whose name ends in
    [.obj], [.ply], [.OBJ] or [.PLY], and it returns nothing only when the
    directory has no such file. *)
Theorem find_mesh_file_spec (d : directory) :
  match find_mesh_file d with
  | Some f => is_Some (d !! f) /\ mesh_name f = true
  | None => forall f, is_Some (d !! f) -> mesh_name f = false
  end.
Proof.
  unfold find_mesh_file, mesh_name. cbn [map first_some].
  destruct (glob_first d ".obj") as [f|] eqn:H1.
  { apply glob_first_Some in H1 as [? ->]. by split. }
  destruct (glob_first d ".ply") as [f|] eqn:H2.
  { apply glob_first_Some in H2 as [? ->]. split; [done|].
    by rewrite orb_true_r. }
  destruct (glob_first d ".OBJ") as [f|] eqn:H3.
  { apply glob_first_Some in H3 as [? ->]. split; [done|].
    by rewrite orb_true_r. }
  destruct (glob_first d ".PLY") as [f|] eqn:H4.
  { apply glob_first_Some in H4 as [? ->]. split; [done|].
    by rewrite orb_true_r. }
  intros f Hf.
  by rewrite (glob_first_None _ _ _ H1 Hf), (glob_first_None _ _ _ H2 Hf),
    (glob_first_None _ _ _ H3 Hf), (glob_first_None _ _ _ H4 Hf).
Qed.

(** X14. [find_mesh_file] prefers [.obj]: when the directory holds a file
    whose name ends in [.obj], the file returned is one of these, whatever
    [.ply] files lie beside it. *)
Theorem find_mesh_file_prefers_obj (d : directory) g :
  is_Some (d !! g) -> has_suffix ".obj" g = true ->
  exists f, find_mesh_file d = Some f /\ is_Some (d !! f) /\
            has_suffix ".obj" f = true.
Proof.
  intros Hg Hs. unfold find_mesh_file. cbn [map first_some].
  destruct (glob_first d ".obj") as [f|] eqn:H1.
  - exists f. split; [done|]. by apply glob_first_Some.
  - rewrite (glob_first_None _ _ _ H1 Hg) in Hs. discriminate.
Qed.

(** X15. [compute_qa_metrics] always returns and changes nothing. The
    size it reports is that of the file at the path, 0 without a file; the
    triangle count is a number, and the grade agrees with it: [high] only
    above 50000 triangles, [low] only at 10000 or fewer, [medium]
    otherwise or when the file could not be analysed. *)
Theorem qa_metrics_grade glb_path w :
  exists m n,
    compute_qa_metrics rt glb_path w = (Returns m, w) /\
    file_size_mb m =
      match artifact_files w !! glb_path with
      | Some data => JMB (Z.of_nat (length data))
      | None => JInt 0
      end /\
    triangle_count m = JInt n /\
    (estimated_quality m = JStr "high" /\ 50000 < n \/
     estimated_quality m = JStr "medium" \/
     estimated_quality m = JStr "low" /\ n <= 10000).
Proof.
  unfold compute_qa_metrics. run_m.
  destruct (artifact_files w !! glb_path) as [data|].
  2:{ eexists _, _. split; [reflexivity|]. cbn. auto. }
  unfold analyze_glb.
  assert (Hq : forall t, quality_of t = JStr "high" /\ 50000 < t \/
                         quality_of t = JStr "medium" \/
                         quality_of t = JStr "low" /\ t <= 10000).
  { intros t. unfold quality_of.
    destruct (Z.gtb_spec t 50000); [left; split; [done|lia]|].
    destruct (Z.gtb_spec t 10000); [right; by left|].
    right; right. split; [done|lia]. }
  destruct (trimesh_load rt data) as [[|mesh|geoms bounds|]|e].
  - eexists _, _. split; [reflexivity|]. cbn. auto.
  - destruct (tm_bounds mesh);
      (eexists _, _; split; [reflexivity|]; cbn; auto).
  - destruct bounds;
      (eexists _, _; split; [reflexivity|]; cbn; auto).
  - eexists _, _. split; [reflexivity|]. cbn. auto.
  - eexists _, _. split; [reflexivity|]. cbn. auto.
Qed.

(** X16. [export_glb] refuses an empty mesh before it reads any option,
    with a [ValueError] naming the file; and for a mesh that is not empty,
    options that are not a JSON object make it raise the [AttributeError]
    of the first [options.get], with nothing done to the mesh. *)
Theorem non_dict_options_fail mesh path options w :
  (forall kvs, options <> JObj kvs) ->
  prepare_trimesh rt mesh path options w =
    if (tm_vertices mesh =? 0) || (tm_faces mesh =? 0) then
      (Raises (Exn "ValueError"
                 ("Mesh is empty (no vertices or faces): " +:+ path)), w)
    else
      (Raises (Exn "AttributeError"
                 ("'" +:+ py_type_name options
                    +:+ "' object has no attribute 'get'")), w).
Proof.
  intros Hnd. unfold prepare_trimesh.
  destruct ((tm_vertices mesh =? 0) || (tm_faces mesh =? 0)); [done|].
  destruct options; try done. by destruct (Hnd kvs).
Qed.

(** *** The fallback path, and isolation between jobs *)

Lemma string_app_nil_r (s : string) : s +:+ "" = s.
Proof.
  induction s as [|c s IH]; [done|].
  change (String c (s +:+ "") = String c s). by rewrite IH.
Qed.

(** Replacing [.glb] by [.gltf] in a text that ends in [.glb] gives a text
    that ends in [.gltf]: the last occurrence is always replaced. [pre] is
    what has been put out so far. *)
Lemma replace_glb_ends (p : string) : forall skip pre,
  glb_pending skip (p +:+ ".glb") ->
  (skip <> 0%nat -> exists q, pre = q +:+ ".gltf") ->
  exists q,
    pre +:+ replace_from ".glb" ".gltf" skip (p +:+ ".glb") = q +:+ ".gltf".
Proof.
  induction p as [|c p IH]; intros skip pre Hp Hpre.
  - destruct Hp as [Hle Hpend].
    destruct skip as [|[|[|[|]]]]; try lia; vm_compute in Hpend;
      try discriminate.
    exists pre. reflexivity.
  - change (String c p +:+ ".glb") with (String c (p +:+ ".glb")) in *.
    destruct skip as [|k]; cbn [replace_from].
    + destruct (String.prefix ".glb" (String c (p +:+ ".glb"))) eqn:Hpfx.
      * change (String.length ".glb" - 1)%nat with 3%nat.
        rewrite <- string_app_assoc. apply IH.
        -- split; [lia|]. by apply prefix_cons in Hpfx as [_ Hpfx].
        -- intros _. by exists pre.
      * replace (pre +:+ String c (replace_from ".glb" ".gltf" 0 (p +:+ ".glb")))
          with ((pre +:+ String c "") +:+ replace_from ".glb" ".gltf" 0 (p +:+ ".glb"))
          by (by rewrite string_app_assoc).
        apply IH; [apply glb_pending_0 | done].
    + apply IH; [by apply glb_pending_S in Hp|].
      intros _. by apply Hpre.
Qed.

Lemma gltf_path_ends job_id :
  exists q, gltf_path settings job_id = q +:+ ".gltf".
Proof.
  unfold gltf_path, str_replace. destruct (artifact_path_glb job_id) as (p & ->).
  destruct (replace_glb_ends p 0%nat "" (glb_pending_0 _) ltac:(done)) as (q & Hq).
  by exists q.
Qed.

Lemma gltf_is_not_glb (a b : string) : a +:+ ".gltf" <> b +:+ ".glb".
Proof.
  revert b. induction a as [|x a IH]; intros b H.
  - destruct b as [|y1 [|y2 b]]; try discriminate H.
    change (".gltf" = String y1 (String y2 (b +:+ ".glb"))) in H.
    apply (f_equal String.length) in H. cbn [String.length] in H.
    rewrite string_length_app in H. cbn [String.length] in H. lia.
  - destruct b as [|y b].
    + apply (f_equal String.length) in H.
      change (String x a +:+ ".gltf") with (String x (a +:+ ".gltf")) in H.
      cbn [String.length] in H. rewrite string_length_app in H.
      cbn [String.length] in H.
      change (String.length ("" +:+ ".glb")) with 4%nat in H. lia.
    + change (String x (a +:+ ".gltf") = String y (b +:+ ".glb")) in H.
      injection H as _ H. by apply (IH b).
Qed.

(** X17. The fallback file is never served: the path at which [export_glb]
    writes its GLTF fallback ends in [.gltf], and it is not the artifact
    path of any job, so no fetch returns it and no deletion removes it. *)
Theorem gltf_fallback_is_no_artifact job_id other :
  (exists q, gltf_path settings job_id = q +:+ ".gltf") /\
  gltf_path settings job_id <> artifact_path settings other.
Proof.
  split; [apply gltf_path_ends|].
  destruct (gltf_path_ends job_id) as (q & ->).
  destruct (artifact_path_glb other) as (p & ->).
  apply gltf_is_not_glb.
Qed.

Lemma gltf_path_other job_id other :
  gltf_path settings job_id <> artifact_path settings other.
Proof.
  destruct (gltf_path_ends job_id) as (q & ->).
  destruct (artifact_path_glb other) as (p & ->).
  apply gltf_is_not_glb.
Qed.

Lemma job_paths_differ j1 j2 :
  relative j1 -> relative j2 -> j1 <> j2 ->
  status_file settings j2 <> status_file settings j1 /\
  job_dir settings j2 <> job_dir settings j1 /\
  artifact_path settings j2 <> artifact_path settings j1.
Proof.
  intros H1 H2 Hne. unfold status_file, job_dir, artifact_path, os_path_join.
  cbn [foldl]. repeat split; intros H; apply Hne.
  - apply path_join_inj in H; [by apply string_app_cancel_r in H | |];
      by apply relative_app.
  - by apply path_join_inj in H.
  - apply path_join_inj in H; [by apply string_app_cancel_r in H | |];
      by apply relative_app.
Qed.

Lemma within_job_other job_id other w w' :
  relative job_id -> relative other -> job_id <> other ->
  within_job settings job_id w w' ->
  status_files w' !! status_file settings other
    = status_files w !! status_file settings other /\
  workspace_dirs w' !! job_dir settings other
    = workspace_dirs w !! job_dir settings other /\
  artifact_files w' !! artifact_path settings other
    = artifact_files w !! artifact_path settings other /\
  broker w' = broker w.
Proof.
  intros H1 H2 Hne (Hs & Hw & Ha & Hb).
  destruct (job_paths_differ job_id other H1 H2 Hne) as (Ns & Nw & Na).
  split; [by apply Hs|]. split; [by apply Hw|]. split; [|done].
  apply Ha; [done|]. intros H. by apply (gltf_path_other job_id other).
Qed.

(** X18. Jobs are isolated from the executor: an attempt for one job,
    whatever it runs into, leaves the status record, the workspace and the
    artifact of every other job as they were, and puts nothing on the
    broker queue. *)
Theorem attempt_leaves_other_jobs retries job_id options w other :
  relative job_id -> relative other -> job_id <> other ->
  let w' := (run_reconstruction settings rt retries job_id options w).2 in
  status_files w' !! status_file settings other
    = status_files w !! status_file settings other /\
  workspace_dirs w' !! job_dir settings other
    = workspace_dirs w !! job_dir settings other /\
  artifact_files w' !! artifact_path settings other
    = artifact_files w !! artifact_path settings other /\
  broker w' = broker w.
Proof.
  intros H1 H2 Hne. cbv zeta. apply (within_job_other job_id); try done.
  apply run_reconstruction_frame.
Qed.

(** X19. Deleting a job leaves the status record, the workspace and the
    artifact of every other job as they were. It takes nothing off the
    broker queue, so a task of the job that is still queued is not revoked;
    and it leaves the [.gltf] fallback of the job on disk. *)
Theorem delete_leaves_other_jobs job_id w other :
  relative job_id -> relative other -> job_id <> other ->
  let w' := (delete_job settings rt job_id w).2 in
  status_files w' !! status_file settings other
    = status_files w !! status_file settings other /\
  workspace_dirs w' !! job_dir settings other
    = workspace_dirs w !! job_dir settings other /\
  artifact_files w' !! artifact_path settings other
    = artifact_files w !! artifact_path settings other /\
  broker w' = broker w /\
  artifact_files w' !! gltf_path settings job_id
    = artifact_files w !! gltf_path settings job_id.
Proof.
  intros H1 H2 Hne. cbv zeta.
  destruct (delete_job_frame job_id w) as [Hframe Hgltf].
  destruct (within_job_other job_id other _ _ H1 H2 Hne Hframe)
    as (Hs & Hw & Ha & Hb).
  by repeat split.
Qed.

(** *** Post-processing *)

Section PostprocProperties.

Context (o3d : postproc.Open3D).

#[local] Instance within_output_preorder jd : PreOrder (within_output jd).
Proof.
  split.
  - intros w. by repeat split.
  - intros w1 w2 w3 ((A1 & A2 & A3 & A4 & A5) & Hp & Hs)
      ((B1 & B2 & B3 & B4 & B5) & Hp' & Hs').
    split; [repeat split; congruence|]. split.
    + intros p Hne. by rewrite Hp', Hp.
    + intros sub Hne. by rewrite Hs', Hs.
Qed.

Lemma within_output_makedirs jd :
  preserves (within_output jd) (@makedirs_sub exn jd "output").
Proof.
  intros [sf wd af q t lg]. unfold within_output, same_but_workspaces. run_m.
  split; [done|]. split.
  - intros p Hp. by rewrite lookup_insert_ne.
  - intros sub Hsub. rewrite lookup_insert_eq. cbn [default from_option id].
    destruct (default ∅ (wd !! jd) !! "output"); [done|].
    by rewrite lookup_insert_ne.
Qed.

Lemma within_output_write jd name data :
  preserves (within_output jd) (@write_ws_file exn jd "output" name data).
Proof.
  intros [sf wd af q t lg]. unfold within_output, same_but_workspaces. run_m.
  split; [done|]. split.
  - intros p Hp. by rewrite lookup_insert_ne.
  - intros sub Hsub. rewrite lookup_insert_eq. cbn [default from_option id].
    by rewrite lookup_insert_ne.
Qed.

#[local] Hint Resolve within_output_makedirs within_output_write : frame.

Lemma within_output_write_files jd files :
  preserves (within_output jd) (postproc.write_files jd "output" files).
Proof.
  induction files as [|[name data] rest IH]; cbn [postproc.write_files];
    repeat frame_step.
Qed.

#[local] Hint Resolve within_output_write_files : frame.

Lemma within_output_options_get jd options key dflt :
  preserves (within_output jd) (options_get options key dflt).
Proof. unfold options_get. repeat frame_step. Qed.

#[local] Hint Resolve within_output_options_get : frame.

(** X21. Post-processing writes into the [output] directory of the job's
    workspace and nowhere else: the other directories of the workspace, the
    raw mesh among them, every other workspace, the status store, the
    artifacts, the broker queue and the clock are as before, whether it
    returns or raises. *)
Theorem postprocessing_only_writes_output jd options w :
  within_output jd w (postproc.run_postprocessing o3d jd options w).2.
Proof.
  revert w.
  change (preserves (within_output jd)
            (postproc.run_postprocessing o3d jd options)).
  unfold postproc.run_postprocessing, postproc.decimate_mesh,
    postproc.repair_mesh, postproc.open3d_block, postproc.copy2,
    ws_dir.
  repeat frame_step.
Qed.

Lemma files_of_makedirs jd sub sub' w :
  files_of jd sub' (@makedirs_sub exn jd sub w).2 = files_of jd sub' w.
Proof.
  destruct w as [sf wd af q t lg]. unfold files_of. run_m.
  rewrite lookup_insert_eq. cbn [default from_option id].
  destruct (default ∅ (wd !! jd) !! sub) eqn:Hsub; [done|].
  destruct (decide (sub' = sub)) as [->|Hne].
  - by rewrite lookup_insert_eq, Hsub.
  - by rewrite lookup_insert_ne.
Qed.

Lemma files_of_write jd sub name data w :
  files_of jd sub (@write_ws_file exn jd sub name data w).2
  = <[name := data]> (files_of jd sub w).
Proof.
  destruct w as [sf wd af q t lg]. unfold files_of. run_m.
  rewrite lookup_insert_eq. cbn [from_option].
  match goal with |- context [id ?x !! _] => change (id x) with x end.
  by rewrite lookup_insert_eq.
Qed.

Lemma within_output_files jd sub w w' :
  within_output jd w w' -> sub <> "output" ->
  files_of jd sub w' = files_of jd sub w.
Proof. intros (_ & _ & Hs) Hne. unfold files_of. by rewrite Hs. Qed.

Lemma write_files_returns jd sub files w :
  (postproc.write_files jd sub files w).1 = Returns tt.
Proof.
  revert w. induction files as [|[name data] rest IH]; intros w; [done|].
  cbn [postproc.write_files]. unfold bind at 1.
  unfold write_ws_file at 1, modify at 1. apply IH.
Qed.

Lemma find_input_mesh_cases (d : directory) :
  match postproc.find_input_mesh d with
  | Some f => is_Some (d !! f) /\ input_mesh_name f = true
  | None => forall f, is_Some (d !! f) -> input_mesh_name f = false
  end.
Proof.
  unfold postproc.find_input_mesh, input_mesh_name. cbn [map first_some].
  destruct (glob_first d ".obj") as [f|] eqn:H1.
  { apply glob_first_Some in H1 as [? ->]. by split. }
  destruct (glob_first d ".ply") as [f|] eqn:H2.
  { apply glob_first_Some in H2 as [? ->]. split; [done|].
    by rewrite orb_true_r. }
  destruct (glob_first d ".mvs") as [f|] eqn:H3.
  { apply glob_first_Some in H3 as [? ->]. split; [done|].
    by rewrite orb_true_r. }
  intros f Hf.
  by rewrite (glob_first_None _ _ _ H1 Hf), (glob_first_None _ _ _ H2 Hf),
    (glob_first_None _ _ _ H3 Hf).
Qed.

(** X22. Without a mesh there is nothing to post-process: when no file of
    the [mesh] directory has a name ending in [.obj], [.ply] or [.mvs],
    as when the directory is empty or missing, [run_postprocessing] raises
    [FileNotFoundError] naming the directory, having done no more than
    create the [output] directory. *)
Theorem postprocessing_needs_a_mesh jd options w :
  (forall f, is_Some (files_of jd "mesh" w !! f) -> input_mesh_name f = false) ->
  postproc.run_postprocessing o3d jd options w =
    (Raises (Exn "FileNotFoundError"
               ("No mesh found in " +:+ os_path_join jd ["mesh"])),
     (@makedirs_sub exn jd "output" w).2).
Proof.
  intros Hnone. unfold postproc.run_postprocessing.
  unfold bind at 1. unfold makedirs_sub at 1, modify at 1.
  unfold bind at 1, ws_dir at 1, gets at 1.
  match goal with
  | |- context [postproc.find_input_mesh ?d] =>
      change d with (files_of jd "mesh" (@makedirs_sub exn jd "output" w).2)
  end.
  rewrite files_of_makedirs.
  pose proof (find_input_mesh_cases (files_of jd "mesh" w)) as Hcases.
  destruct (postproc.find_input_mesh (files_of jd "mesh" w)) as [f|]; [|done].
  destruct Hcases as [Hf Hname]. by rewrite (Hnone f Hf) in Hname.
Qed.

(** X23. When Open3D is not there to do the work, post-processing passes
    the raw mesh through: if the decimation block raises, whatever it wrote
    before, and the repair block raises without writing, then with options
    that are a JSON object [run_postprocessing] returns, and
    [mesh_decimated.obj] and [mesh_textured.obj] both hold exactly the
    bytes of the input mesh it found, beside the [metadata.json] it wrote. *)
Theorem postprocessing_passes_mesh_through jd kvs w name data files e1 e2 :
  postproc.find_input_mesh (files_of jd "mesh" w) = Some name ->
  files_of jd "mesh" w !! name = Some data ->
  postproc.o3d_decimate o3d (files_of jd "mesh" w) name
    (default (JInt 100000) (assoc_last "target_triangles" kvs))
    = (files, Some e1) ->
  (forall out, postproc.o3d_repair o3d out = ([], Some e2)) ->
  exists w',
    postproc.run_postprocessing o3d jd (JObj kvs) w = (Returns tt, w') /\
    files_of jd "output" w' !! "mesh_decimated.obj" = Some data /\
    files_of jd "output" w' !! "mesh_textured.obj" = Some data /\
    files_of jd "output" w' !! "metadata.json"
      = Some (postproc.metadata_text o3d jd name (JObj kvs)).
Proof.
  intros Hfind Hdata Hdec Hrep.
  unfold postproc.run_postprocessing.
  unfold bind at 1. unfold makedirs_sub at 1, modify at 1.
  set (w1 := set_workspace_dirs _ w).
  assert (Hmesh1 : files_of jd "mesh" w1 = files_of jd "mesh" w)
    by apply (files_of_makedirs jd "output" "mesh" w).
  unfold bind at 1, ws_dir at 1, gets at 1.
  fold (files_of jd "mesh" w1). rewrite Hmesh1, Hfind.
  (* decimation *)
  unfold bind at 1, postproc.decimate_mesh.
  unfold bind at 1, options_get, ret at 1.
  unfold try_except at 1, bind at 1, ws_dir at 1, gets at 1.
  fold (files_of jd "mesh" w1). rewrite Hmesh1, Hdec.
  unfold postproc.open3d_block, bind at 1. cbn [fst snd].
  pose proof (write_files_returns jd "output" files w1) as Hret.
  pose proof (within_output_write_files jd files w1) as Hframe.
  destruct (postproc.write_files jd "output" files w1) as [r2 w2].
  cbn [fst snd] in Hret, Hframe. subst r2. unfold raise at 1.
  assert (Hmesh2 : files_of jd "mesh" w2 = files_of jd "mesh" w)
    by (rewrite (within_output_files jd "mesh" w1 w2 Hframe); done).
  unfold postproc.copy2 at 1, bind at 1, ws_dir at 1, gets at 1.
  fold (files_of jd "mesh" w2). rewrite Hmesh2, Hdata.
  pose proof (files_of_write jd "output" "mesh_decimated.obj" data w2) as Hw3.
  unfold write_ws_file at 1, modify at 1.
  unfold write_ws_file at 1, modify at 1 in Hw3. cbn [snd] in Hw3.
  set (w3 := set_workspace_dirs _ w2) in *.
  (* repair *)
  unfold bind at 1, postproc.repair_mesh.
  unfold try_except at 1, bind at 1, ws_dir at 1, gets at 1.
  rewrite Hrep. unfold postproc.open3d_block, bind at 1. cbn [fst snd].
  cbn [postproc.write_files]. unfold ret at 1, raise at 1.
  unfold postproc.copy2 at 1, bind at 1, ws_dir at 1, gets at 1.
  fold (files_of jd "output" w3). rewrite Hw3, lookup_insert_eq.
  pose proof (files_of_write jd "output" "mesh_textured.obj" data w3) as Hw4.
  unfold write_ws_file at 1, modify at 1.
  unfold write_ws_file at 1, modify at 1 in Hw4. cbn [snd] in Hw4.
  set (w4 := set_workspace_dirs _ w3) in *.
  (* metadata *)
  pose proof (files_of_write jd "output" "metadata.json"
                (postproc.metadata_text o3d jd name (JObj kvs)) w4) as Hw5.
  unfold write_ws_file at 1, modify at 1.
  unfold write_ws_file at 1, modify at 1 in Hw5. cbn [fst snd] in *.
  eexists. split; [reflexivity|]. rewrite Hw5, Hw4, Hw3.
  split; [|split].
  - rewrite lookup_insert_ne by done. rewrite lookup_insert_ne by done.
    by rewrite lookup_insert_eq.
  - rewrite lookup_insert_ne by done. by rewrite lookup_insert_eq.
  - by rewrite lookup_insert_eq.
Qed.

End PostprocProperties.

(** *** Segmentation *)

Section SamProperties.

Context (sam : sam_mask.SAM).

Lemma elem_of_insert_sorted x p l :
  x ∈ sam_mask.insert_sorted p l <-> x = p \/ x ∈ l.
Proof.
  induction l as [|q rest IH]; cbn [sam_mask.insert_sorted].
  - by rewrite list_elem_of_singleton, elem_of_nil; intuition.
  - destruct (String.leb p.1 q.1).
    + by rewrite elem_of_cons.
    + rewrite !elem_of_cons, IH. tauto.
Qed.

Lemma elem_of_sort_files x l : x ∈ sam_mask.sort_files l <-> x ∈ l.
Proof.
  induction l as [|p rest IH]; [done|].
  cbn [sam_mask.sort_files foldr]. fold (sam_mask.sort_files rest).
  by rewrite elem_of_insert_sorted, elem_of_cons, IH.
Qed.

Lemma elem_of_glob_ext (d : directory) ext n data :
  (n, data) ∈ sam_mask.glob_ext d ext <->
  d !! n = Some data /\
  has_suffix ext n && negb (String.prefix "." n) = true.
Proof.
  unfold sam_mask.glob_ext. rewrite list_elem_of_filter, elem_of_map_to_list.
  cbn [fst]. tauto.
Qed.

(** The images that [run_sam_segmentation] processes. *)
Lemma image_files_spec (d : directory) n data :
  (n, data) ∈ sam_mask.sort_files
               (concat (map (sam_mask.glob_ext d) sam_mask.image_extensions))
  <-> d !! n = Some data /\ image_name n = true.
Proof.
  rewrite elem_of_sort_files. unfold image_name, sam_mask.image_extensions.
  cbn [map concat existsb]. rewrite !elem_of_app, !elem_of_glob_ext, elem_of_nil.
  destruct (negb (String.prefix "." n));
    destruct (has_suffix ".jpg" n), (has_suffix ".jpeg" n),
      (has_suffix ".png" n), (has_suffix ".JPG" n), (has_suffix ".JPEG" n),
      (has_suffix ".PNG" n); cbn [orb andb]; intuition congruence.
Qed.

(** X24. Segmentation needs images: when the [images] directory has no
    visible file whose name ends in [.jpg], [.jpeg] or [.png], in lower or
    in upper case, [run_sam_segmentation] raises [ValueError] before it
    creates the [masks] directory or loads the model, and changes nothing. *)
Theorem segmentation_needs_images jd w :
  (forall f, is_Some (files_of jd "images" w !! f) -> image_name f = false) ->
  sam_mask.run_sam_segmentation sam jd w
  = (Raises (Exn "ValueError" "No images found for segmentation"), w).
Proof.
  intros Hnone. unfold sam_mask.run_sam_segmentation.
  unfold bind at 1, ws_dir at 1, gets at 1. fold (files_of jd "images" w).
  destruct (sam_mask.sort_files _) as [|[n data] rest] eqn:Hfiles; [done|].
  exfalso.
  assert (Hin : (n, data) ∈ sam_mask.sort_files
                  (concat (map (sam_mask.glob_ext (files_of jd "images" w))
                             sam_mask.image_extensions)))
    by (rewrite Hfiles; apply elem_of_cons; by left).
  apply image_files_spec in Hin as [Hd Hname].
  rewrite (Hnone n) in Hname; [discriminate|by exists data].
Qed.

#[local] Instance within_masks_preorder jd : PreOrder (within_masks jd).
Proof.
  split.
  - intros w. by repeat split.
  - intros w1 w2 w3 ((A1 & A2 & A3 & A4 & A5) & Hp & Hs)
      ((B1 & B2 & B3 & B4 & B5) & Hp' & Hs').
    split; [repeat split; congruence|]. split.
    + intros p Hne. by rewrite Hp', Hp.
    + intros sub Hne. by rewrite Hs', Hs.
Qed.

Lemma within_masks_makedirs jd :
  preserves (within_masks jd) (@makedirs_sub exn jd "masks").
Proof.
  intros [sf wd af q t lg]. unfold within_masks, same_but_workspaces. run_m.
  split; [done|]. split.
  - intros p Hp. by rewrite lookup_insert_ne.
  - intros sub Hsub. rewrite lookup_insert_eq. cbn [default from_option id].
    destruct (default ∅ (wd !! jd) !! "masks"); [done|].
    by rewrite lookup_insert_ne.
Qed.

Lemma within_masks_write jd name data :
  preserves (within_masks jd) (@write_ws_file exn jd "masks" name data).
Proof.
  intros [sf wd af q t lg]. unfold within_masks, same_but_workspaces. run_m.
  split; [done|]. split.
  - intros p Hp. by rewrite lookup_insert_ne.
  - intros sub Hsub. rewrite lookup_insert_eq. cbn [default from_option id].
    by rewrite lookup_insert_ne.
Qed.

#[local] Hint Resolve within_masks_makedirs within_masks_write : frame.

Lemma within_masks_process jd l :
  preserves (within_masks jd) (sam_mask.process_images sam jd l).
Proof.
  induction l as [|[name data] rest IH]; cbn [sam_mask.process_images];
    cbv zeta; repeat frame_step.
Qed.

#[local] Hint Resolve within_masks_process : frame.

(** X25. Segmentation writes into the [masks] directory of the job's
    workspace and nowhere else: the images and every other directory of the
    workspace, every other workspace, the status store, the artifacts, the
    broker queue and the clock are as before, whether it returns or raises. *)
Theorem segmentation_only_writes_masks jd w :
  within_masks jd w (sam_mask.run_sam_segmentation sam jd w).2.
Proof.
  revert w.
  change (preserves (within_masks jd) (sam_mask.run_sam_segmentation sam jd)).
  unfold sam_mask.run_sam_segmentation, ws_dir.
  apply preserves_bind; [apply _| |intros images]; [repeat frame_step|].
  destruct (_ =? _)%nat; repeat frame_step.
Qed.

Lemma process_images_result jd (imgs : directory) l : forall w w',
  (forall n d, (n, d) ∈ l -> imgs !! n = Some d) ->
  sam_mask.process_images sam jd l w = (Returns tt, w') ->
  (forall n d, (n, d) ∈ l -> (sam_mask.sam_mask_block sam n d).2 = None) /\
  forall n,
    files_of jd "masks" w' !! n =
      match imgs !! n with
      | Some d =>
          if bool_decide (n ∈ l.*1)
          then from_option Some (files_of jd "masks" w !! n)
                 (sam_mask.sam_mask_block sam n d).1
          else files_of jd "masks" w !! n
      | None => files_of jd "masks" w !! n
      end.
Proof.
  induction l as [|[n0 d0] rest IH]; intros w w' Himgs H.
  - injection H as <-. split; [intros n d Hin; by apply elem_of_nil in Hin|].
    intros n. by destruct (imgs !! n).
  - assert (Hrest : forall n d, (n, d) ∈ rest -> imgs !! n = Some d).
    { intros n d Hin. apply Himgs, elem_of_cons. by right. }
    pose proof (Himgs n0 d0 ltac:(apply elem_of_cons; by left)) as H0.
    assert (Hhead : forall n, n = n0 ->
              bool_decide (n ∈ ((n0, d0) :: rest).*1) = true).
    { intros n ->. apply bool_decide_eq_true_2. cbn. apply elem_of_cons.
      by left. }
    assert (Htail : forall n, n <> n0 ->
              bool_decide (n ∈ ((n0, d0) :: rest).*1)
              = bool_decide (n ∈ rest.*1)).
    { intros n Hne. apply bool_decide_ext. cbn. rewrite elem_of_cons.
      split; [by intros [?|?]|by right]. }
    cbn [sam_mask.process_images] in H. cbv zeta in H.
    revert H.
    destruct (sam_mask.sam_mask_block sam n0 d0) as [[m|] [e|]] eqn:Hb;
      cbn [fst snd]; run_m; try discriminate; intros H.
    + match type of H with
      | sam_mask.process_images _ _ _ ?W = _ =>
          assert (Hwrite : files_of jd "masks" W
                           = <[n0:=m]> (files_of jd "masks" w))
            by exact (files_of_write jd "masks" n0 m w)
      end.
      destruct (IH _ _ Hrest H) as [Hnone Hmasks]. split.
      * intros n d [[= -> ->]|Hin]%elem_of_cons; [by rewrite Hb|by apply Hnone].
      * intros n. rewrite Hmasks, Hwrite.
        destruct (imgs !! n) as [d|] eqn:Hn.
        -- destruct (decide (n = n0)) as [->|Hne].
           ++ assert (d = d0) as -> by congruence.
              rewrite (Hhead n0 eq_refl), Hb. cbn [fst from_option].
              destruct (bool_decide (n0 ∈ rest.*1)); [done|].
              by rewrite lookup_insert_eq.
           ++ rewrite lookup_insert_ne by done. by rewrite (Htail n Hne).
        -- rewrite lookup_insert_ne; [done|]. intros <-. congruence.
    + destruct (IH _ _ Hrest H) as [Hnone Hmasks]. split.
      * intros n d [[= -> ->]|Hin]%elem_of_cons; [by rewrite Hb|by apply Hnone].
      * intros n. rewrite Hmasks.
        destruct (imgs !! n) as [d|] eqn:Hn; [|done].
        destruct (decide (n = n0)) as [->|Hne].
        -- assert (d = d0) as -> by congruence.
           rewrite (Hhead n0 eq_refl), Hb. cbn [fst from_option].
           by destruct (bool_decide (n0 ∈ rest.*1)).
        -- by rewrite (Htail n Hne).
Qed.

(** X26. What a returning segmentation has done: the model loaded, the
    block of every image ran without an exception, and the [masks]
    directory is as it was except that, for each image, the mask its block
    wrote lies under the name of the image itself. An image whose block
    wrote nothing keeps whatever mask of that name was there before. *)
Theorem segmentation_result jd w w' :
  sam_mask.run_sam_segmentation sam jd w = (Returns tt, w') ->
  sam_mask.load_sam_or_raise sam = None /\
  (forall n d, files_of jd "images" w !! n = Some d -> image_name n = true ->
     (sam_mask.sam_mask_block sam n d).2 = None) /\
  forall n,
    files_of jd "masks" w' !! n =
      match files_of jd "images" w !! n with
      | Some d =>
          if image_name n
          then from_option Some (files_of jd "masks" w !! n)
                 (sam_mask.sam_mask_block sam n d).1
          else files_of jd "masks" w !! n
      | None => files_of jd "masks" w !! n
      end.
Proof.
  unfold sam_mask.run_sam_segmentation.
  unfold bind at 1, ws_dir at 1, gets at 1. fold (files_of jd "images" w).
  set (l := sam_mask.sort_files _).
  assert (Hl : forall n d, (n, d) ∈ l <->
                 files_of jd "images" w !! n = Some d /\ image_name n = true)
    by (intros n d; apply image_files_spec).
  clearbody l. destruct (_ =? _)%nat; [discriminate|].
  unfold bind at 1. unfold makedirs_sub at 1, modify at 1.
  pose proof (files_of_makedirs jd "masks" "masks" w) as Hmk.
  unfold makedirs_sub at 1, modify at 1 in Hmk. cbn [snd] in Hmk.
  set (w1 := set_workspace_dirs _ w) in *.
  unfold bind at 1.
  destruct (sam_mask.load_sam_or_raise sam) as [e|]; [discriminate|].
  unfold ret at 1. intros H.
  destruct (process_images_result jd (files_of jd "images" w) l w1 w'
              ltac:(by intros n d [? _]%Hl) H) as [Hnone Hmasks].
  split; [done|]. split.
  - intros n d Hn Hname. apply Hnone, Hl. by split.
  - intros n. rewrite Hmasks, Hmk.
    destruct (files_of jd "images" w !! n) as [d|] eqn:Hn; [|done].
    destruct (image_name n) eqn:Hname.
    + rewrite bool_decide_eq_true_2; [done|].
      apply list_elem_of_fmap. exists (n, d). split; [done|].
      apply Hl. by split.
    + rewrite bool_decide_eq_false_2; [done|].
      intros ([n' d'] & -> & [_ Hx]%Hl)%list_elem_of_fmap. cbn [fst] in *.
      congruence.
Qed.


(** X27. Without the model no mask is written: when the [images]
    directory has an image and [_load_sam_or_raise] raises,
    [run_sam_segmentation] raises that exception, having done no more than
    create the [masks] directory. *)
Theorem segmentation_without_model jd w n d e :
  files_of jd "images" w !! n = Some d -> image_name n = true ->
  sam_mask.load_sam_or_raise sam = Some e ->
  sam_mask.run_sam_segmentation sam jd w
  = (Raises e, (@makedirs_sub exn jd "masks" w).2).
Proof.
  intros Hn Hname Hload. unfold sam_mask.run_sam_segmentation.
  unfold bind at 1, ws_dir at 1, gets at 1. fold (files_of jd "images" w).
  destruct (sam_mask.sort_files _) as [|p rest] eqn:Hfiles.
  - exfalso. apply (not_elem_of_nil (n, d)). rewrite <- Hfiles.
    apply image_files_spec. by split.
  - cbn [length Nat.eqb]. unfold bind at 1.
    unfold makedirs_sub at 1, modify at 1.
    unfold bind at 1. by rewrite Hload.
Qed.

End SamProperties.

(** *** Uploads as images *)

Lemma substring_all (s : string) : substring 0 (String.length s) s = s.
Proof. induction s as [|c s IH]; [done|]. cbn. by rewrite IH. Qed.

Lemma substring_skip (a s : string) (m : nat) :
  substring (String.length a) m (a +:+ s) = substring 0 m s.
Proof.
  induction a as [|c a IH]; [done|].
  change (String c a +:+ s) with (String c (a +:+ s)). cbn [String.length].
  exact IH.
Qed.

Lemma has_suffix_app (a suffix : string) : has_suffix suffix (a +:+ suffix) = true.
Proof.
  unfold has_suffix. rewrite string_length_app.
  replace (String.length a + String.length suffix - String.length suffix)%nat
    with (String.length a) by lia.
  rewrite substring_skip, substring_all, String.eqb_refl.
  rewrite andb_true_r. apply Nat.leb_le. lia.
Qed.

Lemma digits_not_hidden d s :
  d <> Decimal.Nil ->
  String.prefix "." (NilEmpty.string_of_uint d +:+ s) = false.
Proof. by destruct d. Qed.

Lemma pad04_not_hidden i s : String.prefix "." (pad04 i +:+ s) = false.
Proof.
  unfold pad04. rewrite decimal_digits, zeros_digits.
  apply digits_not_hidden.
  assert (Hne : Nat.to_uint i <> Decimal.Nil).
  { intros H. pose proof (Unsigned.of_to i) as Hi. rewrite H in Hi.
    cbn in Hi. subst i. discriminate H. }
  destruct (4 - _)%nat; [done|discriminate].
Qed.

(** X28. Uploads are images: an upload that [create_job] stores with the
    extension [.jpg], which is the one it gets without a file name or
    without an extension, [.jpeg] or [.png] has a stored name that
    [run_sam_segmentation] takes for an image. *)
Theorem stored_uploads_are_images i u :
  stored_ext rt i u ∈ [".jpg"; ".jpeg"; ".png"] ->
  stored_name rt i u = pad04 i +:+ stored_ext rt i u /\
  image_name (stored_name rt i u) = true.
Proof.
  intros Hext. split; [done|].
  change (stored_name rt i u) with (pad04 i +:+ stored_ext rt i u).
  unfold image_name. rewrite pad04_not_hidden, andb_true_r.
  unfold sam_mask.image_extensions. cbn [existsb].
  rewrite !elem_of_cons in Hext.
  destruct Hext as [->|[->|[->|Hext]]]; [| | |by apply elem_of_nil in Hext];
    rewrite has_suffix_app; by rewrite ?orb_true_r.
Qed.

(** *** An invariant of the status store *)

#[local] Instance keeps_status_preorder : PreOrder keeps_status.
Proof.
  split; [by intros w H|]. intros w1 w2 w3 H1 H2 H. by apply H2, H1.
Qed.

Lemma keeps_status_same {E A} (m : M E A) :
  (forall w, status_files (m w).2 = status_files w) ->
  preserves keeps_status m.
Proof. intros Hm w H p d. rewrite Hm. apply H. Qed.

Lemma keeps_status_quiet {E A} (m : M E A) :
  quiet m -> preserves keeps_status m.
Proof. intros Hq. apply keeps_status_same. intros w. by destruct (Hq w). Qed.

Lemma keeps_status_clock {E} : preserves keeps_status (@utcnow_isoformat rt E).
Proof. by apply keeps_status_same; intros []. Qed.

Lemma keeps_status_broker {E} f : preserves keeps_status (@modify E (set_broker f)).
Proof. by apply keeps_status_same; intros []. Qed.

Lemma keeps_status_write {E} path data :
  is_Some (data !! "status") ->
  preserves keeps_status (@write_status_file E path data).
Proof.
  intros Hs [sf wd af q t lg] H p d. run_m.
  destruct (decide (p = path)) as [->|Hne].
  - rewrite lookup_insert_eq. by intros [= <-].
  - rewrite lookup_insert_ne by done. apply H.
Qed.

Lemma keeps_status_delete {E} path :
  preserves keeps_status (@modify E (set_status_files (delete path))).
Proof.
  intros [sf wd af q t lg] H p d. run_m.
  intros [_ Hd]%lookup_delete_Some. by apply (H p).
Qed.

Lemma keeps_status_update job_id status progress message kwargs :
  preserves keeps_status
    (update_job_status settings rt job_id status progress message kwargs).
Proof.
  unfold update_job_status.
  apply preserves_bind; [apply _| |intros existing].
  { by apply keeps_status_same. }
  apply preserves_bind; [apply _|apply keeps_status_clock|intros updated_at].
  apply keeps_status_write.
  rewrite dict_update_lookup, assoc_last_app.
  destruct (assoc_last "status" kwargs); [done|]. by cbn.
Qed.

Lemma keeps_status_save_uploads jd images : forall i total,
  preserves keeps_status (save_uploads settings rt jd i total images).
Proof.
  induction images as [|u rest IH]; intros i total; cbn [save_uploads].
  - apply preserves_ret; apply _.
  - apply preserves_bind; [apply _| |intros _].
    { apply keeps_status_quiet, quiet_write_ws_file. }
    destruct (_ >? _).
    + apply preserves_bind; [apply _| |intros _].
      * apply keeps_status_quiet. apply quiet_workspaces.
      * apply preserves_raise; apply _.
    + apply IH.
Qed.

Lemma keeps_status_makedirs {E} jd sub :
  preserves keeps_status (@makedirs_sub E jd sub).
Proof. apply keeps_status_quiet, quiet_makedirs_sub. Qed.

Lemma keeps_status_run_adapter jd adapter :
  preserves keeps_status (run_adapter jd adapter).
Proof. apply keeps_status_quiet, quiet_run_adapter. Qed.

Lemma keeps_status_make_white_masks jd imgs :
  preserves keeps_status (make_white_masks rt jd imgs).
Proof. apply keeps_status_quiet, quiet_make_white_masks. Qed.

Lemma keeps_status_export_glb jd output_path options :
  preserves keeps_status (export_glb rt jd output_path options).
Proof. apply keeps_status_quiet, quiet_export_glb. Qed.

Lemma keeps_status_compute_qa_metrics glb_path :
  preserves keeps_status (compute_qa_metrics rt glb_path).
Proof. apply keeps_status_quiet, quiet_compute_qa_metrics. Qed.

#[local] Hint Resolve keeps_status_update keeps_status_clock
  keeps_status_makedirs keeps_status_run_adapter keeps_status_make_white_masks
  keeps_status_export_glb keeps_status_compute_qa_metrics keeps_status_delete
  : frame.

Lemma keeps_status_rmtree {E} jd : preserves keeps_status (@rmtree E jd).
Proof. apply keeps_status_quiet, quiet_workspaces. Qed.

Lemma keeps_status_artifacts {E} f :
  preserves keeps_status (@modify E (set_artifact_files f)).
Proof. apply keeps_status_quiet, quiet_artifacts. Qed.

#[local] Hint Resolve keeps_status_rmtree keeps_status_artifacts : frame.

(** X29. Every record has a status: if every record of the status store
    has a [status] field, then so it is after a submission, after an
    attempt of the executor and after a deletion, whatever these run into.
    The store never holds the empty record for which a status query would
    answer 404 although the file is there. *)
Theorem records_keep_status w :
  records_have_status w ->
  (forall images options job_uuid celery_id,
     records_have_status
       (create_job settings rt images options job_uuid celery_id w).2) /\
  (forall retries job_id options,
     records_have_status
       (run_reconstruction settings rt retries job_id options w).2) /\
  (forall job_id, records_have_status (delete_job settings rt job_id w).2).
Proof.
  intros Hw. split; [|split].
  - intros images options job_uuid celery_id. revert w Hw.
    change (preserves keeps_status
              (create_job settings rt images options job_uuid celery_id)).
    unfold create_job.
    destruct (json_loads rt _) as [opts|]; [|apply preserves_raise; apply _].
    destruct (_ <? _); [apply preserves_raise; apply _|].
    destruct (_ >? _); [apply preserves_raise; apply _|].
    apply preserves_bind; [apply _| |intros _].
    { apply keeps_status_quiet, quiet_makedirs_sub. }
    apply preserves_bind;
      [apply _|apply keeps_status_save_uploads|intros total_size].
    apply preserves_bind; [apply _|apply keeps_status_clock|intros created_at].
    apply preserves_bind; [apply _| |intros _].
    { unfold save_job_status. by apply keeps_status_write. }
    apply preserves_bind; [apply _|apply keeps_status_broker|intros _].
    apply preserves_ret; apply _.
  - intros retries job_id options. revert w Hw.
    change (preserves keeps_status
              (run_reconstruction settings rt retries job_id options)).
    unfold run_reconstruction, run_stages, finish_job, on_exception,
      before_export, stage_masks.
    repeat frame_step.
  - intros job_id. revert w Hw.
    change (preserves keeps_status (delete_job settings rt job_id)).
    unfold delete_job.
    repeat frame_step.
Qed.

End Properties.

(** * The properties on the concrete configuration *)

Lemma run_pair {A B} (p : A * B) (a : A) : p.1 = a -> p = (a, p.2).
Proof. intros <-. by destruct p. Qed.

Lemma lookup_default_some (m : gmap string dict) (k : string) :
  (if m !! k is Some _ then true else false) = true ->
  m !! k = Some (default ∅ (m !! k)).
Proof. by destruct (m !! k). Qed.

(** Deleting the completed [demo_job], twice. *)
Lemma delete_job_idempotent_witness :
  uuid_valid good_runtime demo_job = true /\
  exists w1,
    delete_job demo_settings good_runtime demo_job completed_world
      = (Returns ("Job " +:+ demo_job +:+ " deleted successfully"), w1) /\
    delete_job demo_settings good_runtime demo_job w1
      = (Returns ("Job " +:+ demo_job +:+ " deleted successfully"), w1) /\
    workspace_dirs w1 !! job_dir demo_settings demo_job = None /\
    artifact_files w1 !! artifact_path demo_settings demo_job = None /\
    status_files w1 !! status_file demo_settings demo_job = None.
Proof.
  split; [reflexivity|].
  apply (delete_job_idempotent demo_settings good_runtime demo_job completed_world).
  reflexivity.
Defined.



(** What the refused submission leaves: a workspace with an empty [images]
    directory, no status record and no task. *)
Lemma refused_upload_leaves_workspace :
  let w' := (create_job_fs demo_settings hostile_runtime posix_open
               hostile_images "{}" demo_job "celery-1" empty_world).2 in
  workspace_dirs w' !! job_dir demo_settings demo_job = Some {[ "images" := ∅ ]} /\
  status_files w' !! status_file demo_settings demo_job = None /\
  broker w' = [].
Proof. cbv zeta. repeat split; vm_compute; reflexivity. Qed.

(** A one-byte upload against a ceiling of zero bytes. *)
Lemma rejected_submission_leaves_nothing_witness :
  create_job tight_settings good_runtime oversized_images "{}" demo_job "celery-1"
    empty_world = (Raises (too_large tight_settings), world_after_rejection) /\
  workspace_dirs world_after_rejection !! job_dir tight_settings demo_job = None /\
  world_after_rejection = empty_world.
Proof.
  assert (H : create_job tight_settings good_runtime oversized_images "{}"
                demo_job "celery-1" empty_world
              = (Raises (too_large tight_settings), world_after_rejection))
    by (apply run_pair; vm_compute; reflexivity).
  split; [exact H|].
  destruct (rejected_submission_leaves_nothing tight_settings good_runtime
              oversized_images "{}" demo_job "celery-1" empty_world
              world_after_rejection (too_large tight_settings) H)
    as (_ & _ & _ & _ & H413 & Hfresh).
  split; [apply H413; reflexivity | apply Hfresh; reflexivity].
Defined.

(** Fetching the artifact of the completed [demo_job]. *)
Lemma get_artifact_by_status_witness :
  uuid_valid good_runtime demo_job = true /\
  status_files completed_world !! status_file demo_settings demo_job
    = Some (demo_record completed_world) /\
  dict_truthy (demo_record completed_world) = true /\
  get_artifact demo_settings good_runtime demo_job completed_world =
    (Returns (FileResponse (artifact_path demo_settings demo_job)
                "model/gltf-binary" ("atlas-" +:+ demo_job +:+ ".glb") []),
     completed_world).
Proof.
  assert (H1 : uuid_valid good_runtime demo_job = true) by reflexivity.
  assert (H2 : status_files completed_world !! status_file demo_settings demo_job
               = Some (demo_record completed_world))
    by (apply lookup_default_some; vm_compute; reflexivity).
  assert (H3 : dict_truthy (demo_record completed_world) = true)
    by (vm_compute; reflexivity).
  split; [exact H1|]. split; [exact H2|]. split; [exact H3|].
  destruct (get_artifact_by_status demo_settings good_runtime demo_job
              completed_world (demo_record completed_world) H1 H2 H3)
    as (_ & Hcompleted & _).
  assert (Hs : demo_record completed_world !! "status" = Some (JStr "completed"))
    by (vm_compute; reflexivity).
  assert (Ha : artifact_files completed_world !! artifact_path demo_settings demo_job
               = Some []) by (vm_compute; reflexivity).
  rewrite (Hcompleted Hs), Ha. reflexivity.
Defined.




(** C3 fails as stated: with the dense reconstruction raising on a first
    attempt, progress was announced as 50 and the failed record carries 0. *)
Lemma failed_progress_is_not_floor :
  ~ failed_progress_is_floor demo_settings failing_mvs_runtime.
Proof.
  intros H.
  assert (H1 : run_stages demo_settings failing_mvs_runtime demo_job (JObj [])
                 submitted_world = (Raises mvs_error, world_at_mvs_failure))
    by (apply run_pair; vm_compute; reflexivity).
  assert (H2 : status_files world_at_mvs_failure !! status_file demo_settings demo_job
               = Some (demo_record world_at_mvs_failure))
    by (apply lookup_default_some; vm_compute; reflexivity).
  specialize (H 0 demo_job (JObj []) submitted_world mvs_error world_at_mvs_failure
                (demo_record world_at_mvs_failure) H1 H2).
  assert (Hl : (status_files
                  (run_reconstruction demo_settings failing_mvs_runtime 0 demo_job
                     (JObj []) submitted_world).2
                !! status_file demo_settings demo_job)
               ≫= (fun rec => rec !! "progress") = Some (JInt 0))
    by (vm_compute; reflexivity).
  assert (Hr : demo_record world_at_mvs_failure !! "progress" = Some (JInt 50))
    by (vm_compute; reflexivity).
  pose proof (eq_trans (eq_sym Hl) (eq_trans H Hr)) as Hbad.
  discriminate Hbad.
Qed.

(** [demo_job] with the dense reconstruction raising on the first attempt. *)
Lemma stage_failure_marks_failed_witness :
  run_stages demo_settings failing_mvs_runtime demo_job (JObj []) submitted_world
    = (Raises mvs_error, world_at_mvs_failure) /\
  exists w2 rec,
    run_reconstruction demo_settings failing_mvs_runtime 0 demo_job (JObj [])
      submitted_world = (Raises mvs_error, w2) /\
    status_log w2 = status_log world_at_mvs_failure
                      ++ [StatusWrite (status_file demo_settings demo_job) rec] /\
    status_files w2 !! status_file demo_settings demo_job = Some rec /\
    rec !! "status" = Some (JStr "failed") /\
    rec !! "progress" = Some (JInt (0 * 10)) /\
    rec !! "message" = Some (JStr ("Error: " +:+ exn_str mvs_error)) /\
    rec !! "error" = Some (JStr (exn_str mvs_error)) /\
    rec !! "traceback" = Some (JStr (format_exc failing_mvs_runtime mvs_error)) /\
    workspace_dirs w2 = workspace_dirs world_at_mvs_failure /\
    artifact_files w2 = artifact_files world_at_mvs_failure.
Proof.
  assert (H1 : run_stages demo_settings failing_mvs_runtime demo_job (JObj [])
                 submitted_world = (Raises mvs_error, world_at_mvs_failure))
    by (apply run_pair; vm_compute; reflexivity).
  split; [exact H1|].
  exact (stage_failure_marks_failed demo_settings failing_mvs_runtime 0 demo_job
           (JObj []) submitted_world mvs_error world_at_mvs_failure H1).
Defined.

(** [demo_job] with an exported GLB that [trimesh.load] rejects. *)
Lemma metrics_failure_keeps_completed_witness :
  run_stages demo_settings unreadable_glb_runtime demo_job (JObj []) submitted_world
    = (Returns tt, world_with_unreadable_glb) /\
  trimesh_load unreadable_glb_runtime [Byte.x67]
    = Raises (Exn "ValueError" "not a GLB file") /\
  exists m result w2 rec,
    compute_qa_metrics unreadable_glb_runtime (artifact_path demo_settings demo_job)
      world_with_unreadable_glb = (Returns m, world_with_unreadable_glb) /\
    m = QAMetrics (JMB 1) (JInt 0) (JInt 0) JNull JNull (JStr "medium") /\
    run_reconstruction demo_settings unreadable_glb_runtime 0 demo_job (JObj [])
      submitted_world = (Returns result, w2) /\
    status_files w2 !! status_file demo_settings demo_job = Some rec /\
    rec !! "status" = Some (JStr "completed") /\
    rec !! "progress" = Some (JInt 100) /\
    rec !! "completed_at"
      = Some (JTime (utcnow unreadable_glb_runtime (ticks world_with_unreadable_glb))) /\
    rec !! "metrics" = Some (metrics_json m).
Proof.
  assert (H1 : run_stages demo_settings unreadable_glb_runtime demo_job (JObj [])
                 submitted_world = (Returns tt, world_with_unreadable_glb))
    by (apply run_pair; vm_compute; reflexivity).
  split; [exact H1|]. split; [reflexivity|].
  destruct (metrics_failure_keeps_completed demo_settings unreadable_glb_runtime 0
              demo_job (JObj []) submitted_world world_with_unreadable_glb H1)
    as (m & result & w2 & rec & Hm & Hfail & Hrun & _ & Hrec & Hs & Hp & Hc & Hmet).
  exists m, result, w2, rec.
  split; [exact Hm|]. split.
  { apply (Hfail [Byte.x67] (Exn "ValueError" "not a GLB file"));
      [vm_compute; reflexivity | reflexivity]. }
  split; [exact Hrun|]. split; [exact Hrec|]. split; [exact Hs|].
  split; [exact Hp|]. split; [exact Hc | exact Hmet].
Defined.


(** The progress values of a completing attempt with segmentation enabled. *)
Lemma demo_progress_plan :
  progress_plan demo_settings = [0; 10; 20; 50; 70; 90; 100].
Proof. reflexivity. Qed.

Lemma progress_values_inj (ps qs : list Z) :
  map (fun p => Some (JInt p)) ps = map (fun p => Some (JInt p)) qs -> ps = qs.
Proof.
  revert qs. induction ps as [|p ps IH]; intros [|q qs] H; try discriminate H.
  - reflexivity.
  - cbn [map] in H. injection H as -> H. by rewrite (IH qs H).
Qed.


(** The timestamps of C6 need the clock: with the API reading 1000 when it
    creates [demo_job] and the worker reading less afterwards, the job
    completes with a [completed_at] before its [created_at]. *)
Lemma completed_at_can_precede_created_at :
  ~ completed_at_follows_created_at demo_settings lagging_clock_runtime.
Proof.
  intros H.
  assert (H1 : run_reconstruction demo_settings lagging_clock_runtime 0 demo_job
                 (JObj []) world_submitted_ahead
               = (Returns lagging_result, world_completed_behind))
    by (apply run_pair; vm_compute; reflexivity).
  assert (H2 : status_files world_submitted_ahead
                 !! status_file demo_settings demo_job
               = Some (demo_record world_submitted_ahead))
    by (apply lookup_default_some; vm_compute; reflexivity).
  assert (H3 : demo_record world_submitted_ahead !! "created_at"
               = Some (JTime 1000)) by (vm_compute; reflexivity).
  destruct (H 0 demo_job (JObj []) world_submitted_ahead lagging_result
              world_completed_behind (demo_record world_submitted_ahead) 1000
              H1 H2 H3) as (t_done & Hdone & Hle).
  assert (Hl : (status_files world_completed_behind
                  !! status_file demo_settings demo_job)
               ≫= (fun rec => rec !! "completed_at") = Some (JTime 7))
    by (vm_compute; reflexivity).
  pose proof (eq_trans (eq_sym Hdone) Hl) as Heq.
  injection Heq as ->. lia.
Qed.

(** [demo_job] with the GLB export raising and the GLTF export working. *)
Lemma glb_fallback_leaves_no_artifact_witness :
  uuid_valid gltf_only_runtime demo_job = true /\
  before_export demo_settings gltf_only_runtime demo_job (JObj []) submitted_world
    = (Returns tt, world_before_export) /\
  (load_mesh gltf_only_runtime (job_dir demo_settings demo_job) (JObj [])
     world_before_export).1 = Returns (LTrimesh demo_mesh) /\
  mesh_export gltf_only_runtime (LTrimesh demo_mesh) "glb"
    = ExportRaises glb_error None /\
  mesh_export gltf_only_runtime (LTrimesh demo_mesh) "gltf" = Exported [Byte.x7b] /\
  artifact_files world_before_export !! artifact_path demo_settings demo_job = None /\
  exists w1 result w2 rec,
    export_glb gltf_only_runtime (job_dir demo_settings demo_job)
      (artifact_path demo_settings demo_job) (JObj []) world_before_export
      = (Returns tt, w1) /\
    str_replace (artifact_path demo_settings demo_job) ".glb" ".gltf"
      <> artifact_path demo_settings demo_job /\
    artifact_files w1
      !! str_replace (artifact_path demo_settings demo_job) ".glb" ".gltf"
      = Some [Byte.x7b] /\
    run_reconstruction demo_settings gltf_only_runtime 0 demo_job (JObj [])
      submitted_world = (Returns result, w2) /\
    status_files w2 !! status_file demo_settings demo_job = Some rec /\
    rec !! "status" = Some (JStr "completed") /\
    artifact_files w2 !! artifact_path demo_settings demo_job = None /\
    artifact_files w2
      !! str_replace (artifact_path demo_settings demo_job) ".glb" ".gltf"
      = Some [Byte.x7b] /\
    get_artifact demo_settings gltf_only_runtime demo_job w2 =
      (Raises (HTTPException 404 "Artifact file not found"), w2).
Proof.
  assert (H1 : uuid_valid gltf_only_runtime demo_job = true) by reflexivity.
  assert (H2 : before_export demo_settings gltf_only_runtime demo_job (JObj [])
                 submitted_world = (Returns tt, world_before_export))
    by (apply run_pair; vm_compute; reflexivity).
  assert (H3 : (load_mesh gltf_only_runtime (job_dir demo_settings demo_job) (JObj [])
                  world_before_export).1 = Returns (LTrimesh demo_mesh))
    by (vm_compute; reflexivity).
  assert (H4 : mesh_export gltf_only_runtime (LTrimesh demo_mesh) "glb"
               = ExportRaises glb_error None) by reflexivity.
  assert (H5 : mesh_export gltf_only_runtime (LTrimesh demo_mesh) "gltf"
               = Exported [Byte.x7b]) by reflexivity.
  assert (H6 : artifact_files world_before_export
                 !! artifact_path demo_settings demo_job = None)
    by (vm_compute; reflexivity).
  split; [exact H1|]. split; [exact H2|]. split; [exact H3|]. split; [exact H4|].
  split; [exact H5|]. split; [exact H6|].
  exact (glb_fallback_leaves_no_artifact demo_settings gltf_only_runtime 0 demo_job
           (JObj []) submitted_world world_before_export (LTrimesh demo_mesh)
           glb_error [Byte.x7b] H1 H2 H3 H4 H5 H6).
Defined.

(** C7 fails as stated: when the GLTF export raises as well, the exporter
    raises. *)
Lemma glb_failure_can_propagate :
  ~ glb_failure_always_falls_back no_export_runtime.
Proof.
  intros H.
  destruct (H (LTrimesh demo_mesh) (artifact_path demo_settings demo_job)
              empty_world glb_error None eq_refl) as (w' & Hw).
  apply (f_equal fst) in Hw.
  assert (Hr : (export_with_fallback no_export_runtime (LTrimesh demo_mesh)
                  (artifact_path demo_settings demo_job) empty_world).1
               = Raises gltf_error) by (vm_compute; reflexivity).
  rewrite Hr in Hw. discriminate Hw.
Qed.

(** In that case the job ends [failed]. *)
Lemma double_export_failure_fails_job :
  (run_reconstruction demo_settings no_export_runtime 0 demo_job (JObj [])
     submitted_world).1 = Raises gltf_error /\
  demo_record
    (run_reconstruction demo_settings no_export_runtime 0 demo_job (JObj [])
       submitted_world).2 !! "status" = Some (JStr "failed").
Proof. split; vm_compute; reflexivity. Qed.

(** * Further witnesses *)

(** Two well-formed job ids. *)
Lemma job_paths_distinct_witness :
  relative demo_job /\ relative other_job /\ demo_job <> other_job /\
  status_file demo_settings demo_job <> status_file demo_settings other_job /\
  job_dir demo_settings demo_job <> job_dir demo_settings other_job /\
  artifact_path demo_settings demo_job <> artifact_path demo_settings other_job.
Proof.
  assert (H1 : relative demo_job) by reflexivity.
  assert (H2 : relative other_job) by reflexivity.
  assert (H3 : demo_job <> other_job) by discriminate.
  split; [exact H1|]. split; [exact H2|]. split; [exact H3|].
  exact (job_paths_distinct demo_settings demo_job other_job H1 H2 H3).
Defined.

(** The job id of the record of [demo_job], across a completing run. *)
Lemma attempt_keeps_submission_fields_witness :
("job_id" ∉ executor_keys) /\
  record_field demo_settings demo_job "job_id"
    (run_reconstruction demo_settings good_runtime 0 demo_job (JObj [])
       submitted_world).2
  = record_field demo_settings demo_job "job_id" submitted_world.
Proof.
  assert (H1 : "job_id" ∉ executor_keys)
    by (apply (bool_decide_unpack _); vm_compute; exact I).
  split; [exact H1|].
  exact (attempt_keeps_submission_fields demo_settings good_runtime 0 demo_job
           (JObj []) submitted_world "job_id" H1).
Defined.

(** The executor run for [demo_job] in a world that has no record of it. *)
Lemma attempt_recreates_deleted_record_witness :
  uuid_valid good_runtime demo_job = true /\
  status_files empty_world !! status_file demo_settings demo_job = None /\
  let w' := (run_reconstruction demo_settings good_runtime 0 demo_job (JObj [])
               empty_world).2 in
  exists d,
    get_job_status demo_settings good_runtime demo_job w' = (Returns d, w') /\
    is_Some (d !! "status") /\
    d !! "job_id" = None /\ d !! "created_at" = None.
Proof.
  assert (H1 : uuid_valid good_runtime demo_job = true) by reflexivity.
  assert (H2 : status_files empty_world !! status_file demo_settings demo_job = None)
    by reflexivity.
  split; [exact H1|]. split; [exact H2|].
  exact (attempt_recreates_deleted_record demo_settings good_runtime 0 demo_job
           (JObj []) empty_world H1 H2).
Defined.

(** The completing run of [demo_job]. *)
Lemma exported_glb_is_served_witness :
  uuid_valid good_runtime demo_job = true /\
  before_export demo_settings good_runtime demo_job (JObj []) submitted_world
    = (Returns tt, world_ready_to_export) /\
  (load_mesh good_runtime (job_dir demo_settings demo_job) (JObj [])
     world_ready_to_export).1 = Returns (LTrimesh demo_mesh) /\
  mesh_export good_runtime (LTrimesh demo_mesh) "glb" = Exported [] /\
  let r := run_reconstruction demo_settings good_runtime 0 demo_job (JObj [])
             submitted_world in
  is_returns r.1 = true /\
  get_artifact demo_settings good_runtime demo_job r.2 =
    (Returns (FileResponse (artifact_path demo_settings demo_job)
                "model/gltf-binary" ("atlas-" +:+ demo_job +:+ ".glb") []), r.2).
Proof.
  assert (H1 : uuid_valid good_runtime demo_job = true) by reflexivity.
  assert (H2 : before_export demo_settings good_runtime demo_job (JObj [])
                 submitted_world = (Returns tt, world_ready_to_export))
    by (apply run_pair; vm_compute; reflexivity).
  assert (H3 : (load_mesh good_runtime (job_dir demo_settings demo_job) (JObj [])
                  world_ready_to_export).1 = Returns (LTrimesh demo_mesh))
    by (vm_compute; reflexivity).
  assert (H4 : mesh_export good_runtime (LTrimesh demo_mesh) "glb" = Exported [])
    by reflexivity.
  split; [exact H1|]. split; [exact H2|]. split; [exact H3|]. split; [exact H4|].
  exact (exported_glb_is_served demo_settings good_runtime 0 demo_job (JObj [])
           submitted_world world_ready_to_export (LTrimesh demo_mesh) [] H1 H2 H3 H4).
Defined.

(** A GLB export that raises after writing one byte. *)
Lemma fallback_serves_leftover_witness :
  uuid_valid partial_glb_runtime demo_job = true /\
  before_export demo_settings partial_glb_runtime demo_job (JObj []) submitted_world
    = (Returns tt, world_before_partial_export) /\
  (load_mesh partial_glb_runtime (job_dir demo_settings demo_job) (JObj [])
     world_before_partial_export).1 = Returns (LTrimesh demo_mesh) /\
  mesh_export partial_glb_runtime (LTrimesh demo_mesh) "glb"
    = ExportRaises glb_error (Some [Byte.x67]) /\
  mesh_export partial_glb_runtime (LTrimesh demo_mesh) "gltf" = Exported [Byte.x7b] /\
  let r := run_reconstruction demo_settings partial_glb_runtime 0 demo_job (JObj [])
             submitted_world in
  is_returns r.1 = true /\
  artifact_files r.2 !! gltf_path demo_settings demo_job = Some [Byte.x7b] /\
  get_artifact demo_settings partial_glb_runtime demo_job r.2 =
    (Returns (FileResponse (artifact_path demo_settings demo_job)
                "model/gltf-binary" ("atlas-" +:+ demo_job +:+ ".glb") [Byte.x67]),
     r.2).
Proof.
  assert (H1 : uuid_valid partial_glb_runtime demo_job = true) by reflexivity.
  assert (H2 : before_export demo_settings partial_glb_runtime demo_job (JObj [])
                 submitted_world = (Returns tt, world_before_partial_export))
    by (apply run_pair; vm_compute; reflexivity).
  assert (H3 : (load_mesh partial_glb_runtime (job_dir demo_settings demo_job)
                  (JObj []) world_before_partial_export).1
               = Returns (LTrimesh demo_mesh))
    by (vm_compute; reflexivity).
  assert (H4 : mesh_export partial_glb_runtime (LTrimesh demo_mesh) "glb"
               = ExportRaises glb_error (Some [Byte.x67])) by reflexivity.
  assert (H5 : mesh_export partial_glb_runtime (LTrimesh demo_mesh) "gltf"
               = Exported [Byte.x7b]) by reflexivity.
  split; [exact H1|]. split; [exact H2|]. split; [exact H3|]. split; [exact H4|].
  split; [exact H5|].
  exact (fallback_serves_leftover demo_settings partial_glb_runtime 0 demo_job
           (JObj []) submitted_world world_before_partial_export
           (LTrimesh demo_mesh) glb_error (Some [Byte.x67]) [Byte.x7b] [Byte.x67]
           H1 H2 H3 H4 H5 eq_refl).
Defined.

(** The dense reconstruction raising for [demo_job]. *)
Lemma failed_rerun_hides_artifact_witness :
  uuid_valid failing_mvs_runtime demo_job = true /\
  before_export demo_settings failing_mvs_runtime demo_job (JObj []) submitted_world
    = (Raises mvs_error, world_where_mvs_raised) /\
  let w' := (run_reconstruction demo_settings failing_mvs_runtime 0 demo_job
               (JObj []) submitted_world).2 in
  artifact_files w' = artifact_files submitted_world /\
  get_artifact demo_settings failing_mvs_runtime demo_job w' =
    (Raises (HTTPException 409
               ("Job not completed yet. Current status: " +:+ "failed")), w').
Proof.
  assert (H1 : uuid_valid failing_mvs_runtime demo_job = true) by reflexivity.
  assert (H2 : before_export demo_settings failing_mvs_runtime demo_job (JObj [])
                 submitted_world = (Raises mvs_error, world_where_mvs_raised))
    by (apply run_pair; vm_compute; reflexivity).
  split; [exact H1|]. split; [exact H2|].
  exact (failed_rerun_hides_artifact demo_settings failing_mvs_runtime 0 demo_job
           (JObj []) submitted_world mvs_error world_where_mvs_raised H1 H2).
Defined.

(** Queries for [demo_job] after the completed job has been deleted. *)
Lemma queries_after_delete_witness :
  uuid_valid good_runtime demo_job = true /\
  let w' := (delete_job demo_settings good_runtime demo_job completed_world).2 in
  get_job_status demo_settings good_runtime demo_job w'
    = (Raises (HTTPException 404 "Job not found"), w') /\
  get_artifact demo_settings good_runtime demo_job w'
    = (Raises (HTTPException 404 "Job not found"), w').
Proof.
  assert (H1 : uuid_valid good_runtime demo_job = true) by reflexivity.
  split; [exact H1|].
  exact (queries_after_delete demo_settings good_runtime demo_job completed_world H1).
Defined.




(** A directory with a [.ply] and an [.obj]. *)
Lemma find_mesh_file_prefers_obj_witness :
  is_Some (demo_mesh_dir !! "scene.obj") /\
  has_suffix ".obj" "scene.obj" = true /\
  exists f, find_mesh_file demo_mesh_dir = Some f /\
            is_Some (demo_mesh_dir !! f) /\ has_suffix ".obj" f = true.
Proof.
  assert (H1 : is_Some (demo_mesh_dir !! "scene.obj"))
    by (exists [Byte.x6f]; vm_compute; reflexivity).
  assert (H2 : has_suffix ".obj" "scene.obj" = true) by reflexivity.
  split; [exact H1|]. split; [exact H2|].
  exact (find_mesh_file_prefers_obj demo_mesh_dir "scene.obj" H1 H2).
Defined.

(** Options that are a JSON list. *)
Lemma non_dict_options_fail_witness :
  (forall kvs, JList [] <> JObj kvs) /\
  prepare_trimesh good_runtime demo_mesh "mesh.obj" (JList []) empty_world =
    if (tm_vertices demo_mesh =? 0) || (tm_faces demo_mesh =? 0) then
      (Raises (Exn "ValueError"
                 ("Mesh is empty (no vertices or faces): " +:+ "mesh.obj")),
       empty_world)
    else
      (Raises (Exn "AttributeError"
                 ("'" +:+ py_type_name (JList [])
                    +:+ "' object has no attribute 'get'")), empty_world).
Proof.
  assert (H1 : forall kvs, JList [] <> JObj kvs) by (intros kvs; discriminate).
  split; [exact H1|].
  exact (non_dict_options_fail good_runtime demo_mesh "mesh.obj" (JList [])
           empty_world H1).
Defined.

(** A run for [demo_job] beside the queued [other_job]. *)
Lemma attempt_leaves_other_jobs_witness :
  relative demo_job /\ relative other_job /\ demo_job <> other_job /\
  let w' := (run_reconstruction demo_settings good_runtime 0 demo_job (JObj [])
               submitted_world).2 in
  status_files w' !! status_file demo_settings other_job
    = status_files submitted_world !! status_file demo_settings other_job /\
  workspace_dirs w' !! job_dir demo_settings other_job
    = workspace_dirs submitted_world !! job_dir demo_settings other_job /\
  artifact_files w' !! artifact_path demo_settings other_job
    = artifact_files submitted_world !! artifact_path demo_settings other_job /\
  broker w' = broker submitted_world.
Proof.
  assert (H1 : relative demo_job) by reflexivity.
  assert (H2 : relative other_job) by reflexivity.
  assert (H3 : demo_job <> other_job) by discriminate.
  split; [exact H1|]. split; [exact H2|]. split; [exact H3|].
  exact (attempt_leaves_other_jobs demo_settings good_runtime 0 demo_job (JObj [])
           submitted_world other_job H1 H2 H3).
Defined.

Lemma delete_leaves_other_jobs_witness :
  relative demo_job /\ relative other_job /\ demo_job <> other_job /\
  let w' := (delete_job demo_settings good_runtime demo_job completed_world).2 in
  status_files w' !! status_file demo_settings other_job
    = status_files completed_world !! status_file demo_settings other_job /\
  workspace_dirs w' !! job_dir demo_settings other_job
    = workspace_dirs completed_world !! job_dir demo_settings other_job /\
  artifact_files w' !! artifact_path demo_settings other_job
    = artifact_files completed_world !! artifact_path demo_settings other_job /\
  broker w' = broker completed_world /\
  artifact_files w' !! gltf_path demo_settings demo_job
    = artifact_files completed_world !! gltf_path demo_settings demo_job.
Proof.
  assert (H1 : relative demo_job) by reflexivity.
  assert (H2 : relative other_job) by reflexivity.
  assert (H3 : demo_job <> other_job) by discriminate.
  split; [exact H1|]. split; [exact H2|]. split; [exact H3|].
  exact (delete_leaves_other_jobs demo_settings good_runtime demo_job
           completed_world other_job H1 H2 H3).
Defined.

(** Post-processing for [demo_job] right after its submission, when no
    stage has produced a mesh. *)
Lemma postprocessing_needs_a_mesh_witness :
  (forall f,
     is_Some (files_of (job_dir demo_settings demo_job) "mesh" submitted_world !! f) ->
     input_mesh_name f = false) /\
  postproc.run_postprocessing absent_open3d (job_dir demo_settings demo_job)
    (JObj []) submitted_world =
    (Raises (Exn "FileNotFoundError"
               ("No mesh found in "
                  +:+ os_path_join (job_dir demo_settings demo_job) ["mesh"])),
     (@makedirs_sub exn (job_dir demo_settings demo_job) "output"
        submitted_world).2).
Proof.
  assert (H0 : files_of (job_dir demo_settings demo_job) "mesh" submitted_world
               = ∅) by (vm_compute; reflexivity).
  assert (H1 : forall f,
             is_Some (files_of (job_dir demo_settings demo_job) "mesh"
                        submitted_world !! f) ->
             input_mesh_name f = false).
  { intros f [x Hx]. rewrite H0, lookup_empty in Hx. discriminate Hx. }
  split; [exact H1|].
  exact (postprocessing_needs_a_mesh absent_open3d
           (job_dir demo_settings demo_job) (JObj []) submitted_world H1).
Defined.

(** Post-processing of a [.ply] without Open3D. *)
Lemma postprocessing_passes_mesh_through_witness :
  postproc.find_input_mesh
    (files_of (job_dir demo_settings demo_job) "mesh" meshed_world)
    = Some "scene.ply" /\
  files_of (job_dir demo_settings demo_job) "mesh" meshed_world !! "scene.ply"
    = Some [Byte.x70] /\
  postproc.o3d_decimate absent_open3d
    (files_of (job_dir demo_settings demo_job) "mesh" meshed_world) "scene.ply"
    (default (JInt 100000) (assoc_last "target_triangles" []))
    = ([], Some import_error) /\
  (forall out, postproc.o3d_repair absent_open3d out = ([], Some import_error)) /\
  exists w',
    postproc.run_postprocessing absent_open3d (job_dir demo_settings demo_job)
      (JObj []) meshed_world = (Returns tt, w') /\
    files_of (job_dir demo_settings demo_job) "output" w' !! "mesh_decimated.obj"
      = Some [Byte.x70] /\
    files_of (job_dir demo_settings demo_job) "output" w' !! "mesh_textured.obj"
      = Some [Byte.x70] /\
    files_of (job_dir demo_settings demo_job) "output" w' !! "metadata.json"
      = Some (postproc.metadata_text absent_open3d
                (job_dir demo_settings demo_job) "scene.ply" (JObj [])).
Proof.
  assert (H1 : postproc.find_input_mesh
                 (files_of (job_dir demo_settings demo_job) "mesh" meshed_world)
               = Some "scene.ply") by (vm_compute; reflexivity).
  assert (H2 : files_of (job_dir demo_settings demo_job) "mesh" meshed_world
                 !! "scene.ply" = Some [Byte.x70]) by (vm_compute; reflexivity).
  assert (H3 : postproc.o3d_decimate absent_open3d
                 (files_of (job_dir demo_settings demo_job) "mesh" meshed_world)
                 "scene.ply"
                 (default (JInt 100000) (assoc_last "target_triangles" []))
               = ([], Some import_error)) by reflexivity.
  assert (H4 : forall out,
             postproc.o3d_repair absent_open3d out = ([], Some import_error))
    by (intros out; reflexivity).
  split; [exact H1|]. split; [exact H2|]. split; [exact H3|]. split; [exact H4|].
  exact (postprocessing_passes_mesh_through absent_open3d
           (job_dir demo_settings demo_job) [] meshed_world "scene.ply"
           [Byte.x70] [] import_error import_error H1 H2 H3 H4).
Defined.

(** Segmentation in a world without uploads. *)
Lemma segmentation_needs_images_witness :
  (forall f,
     is_Some (files_of (job_dir demo_settings demo_job) "images" empty_world !! f) ->
     image_name f = false) /\
  sam_mask.run_sam_segmentation demo_sam (job_dir demo_settings demo_job)
    empty_world
  = (Raises (Exn "ValueError" "No images found for segmentation"), empty_world).
Proof.
  assert (H1 : forall f,
             is_Some (files_of (job_dir demo_settings demo_job) "images"
                        empty_world !! f) ->
             image_name f = false).
  { intros f [x Hx]. discriminate Hx. }
  split; [exact H1|].
  exact (segmentation_needs_images demo_sam (job_dir demo_settings demo_job)
           empty_world H1).
Defined.

(** Segmentation of the two uploads of [demo_job]. *)
Lemma segmentation_result_witness :
  sam_mask.run_sam_segmentation demo_sam (job_dir demo_settings demo_job)
    submitted_world = (Returns tt, world_after_segmentation) /\
  sam_mask.load_sam_or_raise demo_sam = None /\
  (forall n d,
     files_of (job_dir demo_settings demo_job) "images" submitted_world !! n
       = Some d ->
     image_name n = true ->
     (sam_mask.sam_mask_block demo_sam n d).2 = None) /\
  forall n,
    files_of (job_dir demo_settings demo_job) "masks" world_after_segmentation !! n =
      match files_of (job_dir demo_settings demo_job) "images" submitted_world !! n with
      | Some d =>
          if image_name n
          then from_option Some
                 (files_of (job_dir demo_settings demo_job) "masks"
                    submitted_world !! n)
                 (sam_mask.sam_mask_block demo_sam n d).1
          else files_of (job_dir demo_settings demo_job) "masks" submitted_world !! n
      | None =>
          files_of (job_dir demo_settings demo_job) "masks" submitted_world !! n
      end.
Proof.
  assert (H1 : sam_mask.run_sam_segmentation demo_sam
                 (job_dir demo_settings demo_job) submitted_world
               = (Returns tt, world_after_segmentation))
    by (apply run_pair; vm_compute; reflexivity).
  split; [exact H1|].
  exact (segmentation_result demo_sam (job_dir demo_settings demo_job)
           submitted_world world_after_segmentation H1).
Defined.

(** Segmentation of the uploads of [demo_job] without a checkpoint. *)
Lemma segmentation_without_model_witness :
  files_of (job_dir demo_settings demo_job) "images" submitted_world !! "0000.jpg"
    = Some [] /\
  image_name "0000.jpg" = true /\
  sam_mask.load_sam_or_raise unloaded_sam = Some checkpoint_error /\
  sam_mask.run_sam_segmentation unloaded_sam (job_dir demo_settings demo_job)
    submitted_world
  = (Raises checkpoint_error,
     (@makedirs_sub exn (job_dir demo_settings demo_job) "masks"
        submitted_world).2).
Proof.
  assert (H1 : files_of (job_dir demo_settings demo_job) "images" submitted_world
                 !! "0000.jpg" = Some []) by (vm_compute; reflexivity).
  assert (H2 : image_name "0000.jpg" = true) by reflexivity.
  assert (H3 : sam_mask.load_sam_or_raise unloaded_sam = Some checkpoint_error)
    by reflexivity.
  split; [exact H1|]. split; [exact H2|]. split; [exact H3|].
  exact (segmentation_without_model unloaded_sam (job_dir demo_settings demo_job)
           submitted_world "0000.jpg" [] checkpoint_error H1 H2 H3).
Defined.

(** An upload without a file name. *)
Lemma stored_uploads_are_images_witness :
  (stored_ext good_runtime 1 (Upload None []) ∈ [".jpg"; ".jpeg"; ".png"]) /\
  stored_name good_runtime 1 (Upload None [])
    = pad04 1 +:+ stored_ext good_runtime 1 (Upload None []) /\
  image_name (stored_name good_runtime 1 (Upload None [])) = true.
Proof.
  assert (H1 : stored_ext good_runtime 1 (Upload None [])
               ∈ [".jpg"; ".jpeg"; ".png"])
    by (apply (bool_decide_unpack _); vm_compute; exact I).
  split; [exact H1|].
  exact (stored_uploads_are_images good_runtime 1%nat (Upload None []) H1).
Defined.

(** The empty store, before the first submission. *)
Lemma records_keep_status_witness :
  records_have_status empty_world /\
  (forall images options job_uuid celery_id,
     records_have_status
       (create_job demo_settings good_runtime images options job_uuid celery_id
          empty_world).2) /\
  (forall retries job_id options,
     records_have_status
       (run_reconstruction demo_settings good_runtime retries job_id options
          empty_world).2) /\
  (forall job_id,
     records_have_status (delete_job demo_settings good_runtime job_id empty_world).2).
Proof.
  assert (H1 : records_have_status empty_world).
  { intros p d H. cbn in H. rewrite lookup_empty in H. discriminate H. }
  split; [exact H1|].
  exact (records_keep_status demo_settings good_runtime empty_world H1).
Defined.
